(** * Merge pipeline of the parts-list consolidation script (コード.js)

    A shallow embedding of the Apps Script program: filename key extraction
    ([extractJNumber], [determineCategory], [processFilename]), per-document
    normalisation ([processExcelFile]), the per-folder loop with its
    duplicate check ([processFiles]), the top-level driver
    ([combineExcelSheets]) and the output name built by [createSpreadsheet].

    JavaScript strings are sequences of UTF-16 code units; they are modelled
    as [list N].  Literals of the source are written as ordinary string
    literals (UTF-8 in this file) and decoded by [utf16]. *)

From Stdlib Require Import List ZArith NArith Lia Bool String Ascii.
From Stdlib Require Import Sorting.Sorted Sorting.Permutation.
Import ListNotations.

Set Implicit Arguments.

(* ================================================================== *)
(** ** JavaScript strings *)

Definition jsstring := list N.

Fixpoint bytes_of (s : string) : list N :=
  match s with
  | EmptyString => []
  | String a r => N_of_ascii a :: bytes_of r
  end.

(** One code point as UTF-16: itself in the basic plane, a surrogate pair
    above it. *)
Definition utf16_units (cp : N) : list N :=
  if (cp <? 65536)%N then [cp]
  else [(55296 + (cp - 65536) / 1024)%N; (56320 + (cp - 65536) mod 1024)%N].

(** UTF-8 decoding: [pending] continuation bytes are still expected for the
    code point accumulated in [acc]. *)
Fixpoint utf8_decode (bs : list N) (pending : nat) (acc : N) : list N :=
  match bs with
  | [] => []
  | b :: rest =>
      match pending with
      | O =>
          if (b <? 128)%N then b :: utf8_decode rest 0 0%N
          else if (b <? 224)%N then utf8_decode rest 1 (b mod 32)%N
          else if (b <? 240)%N then utf8_decode rest 2 (b mod 16)%N
          else utf8_decode rest 3 (b mod 8)%N
      | S O => utf16_units (acc * 64 + b mod 64)%N ++ utf8_decode rest 0 0%N
      | S p => utf8_decode rest p (acc * 64 + b mod 64)%N
      end
  end.

Definition utf16 (s : string) : jsstring := utf8_decode (bytes_of s) 0 0%N.

Fixpoint str_eqb (a b : jsstring) : bool :=
  match a, b with
  | [], [] => true
  | x :: a', y :: b' => (x =? y)%N && str_eqb a' b'
  | _, _ => false
  end.

(** [s.startsWith(p)] *)
Fixpoint startsWith (p s : jsstring) : bool :=
  match p, s with
  | [], _ => true
  | x :: p', y :: s' => (x =? y)%N && startsWith p' s'
  | _ :: _, [] => false
  end.

(** [s.includes(p)] on strings: [p] occurs as a substring. *)
Fixpoint includesStr (p s : jsstring) : bool :=
  startsWith p s ||
  match s with
  | [] => false
  | _ :: s' => includesStr p s'
  end.

(** [s.endsWith(p)] *)
Definition endsWith (p s : jsstring) : bool :=
  startsWith (rev p) (rev s).

(** [s.substring(0, n)] *)
Definition substring0 (n : nat) (s : jsstring) : jsstring := firstn n s.

(** [s.slice(1)] *)
Definition slice1 (s : jsstring) : jsstring := tl s.

(** [parts.join(sep)] *)
Fixpoint join (sep : jsstring) (parts : list jsstring) : jsstring :=
  match parts with
  | [] => []
  | [p] => p
  | p :: rest => p ++ sep ++ join sep rest
  end.

Definition isDigit (c : N) : bool := (48 <=? c)%N && (c <=? 57)%N.

(** ASCII lower-casing.  [toLowerCase] maps no character outside ASCII to
    one of [. x l s m], so for the extension test this is the whole of it. *)
Definition lowerUnit (c : N) : N :=
  if (65 <=? c)%N && (c <=? 90)%N then (c + 32)%N else c.

Definition toLowerCase (s : jsstring) : jsstring := map lowerUnit s.

(** [s.replace(/[^0-9]/g, "")] *)
Definition digitsOnly (s : jsstring) : jsstring := filter isDigit s.

(** White space and line terminators, as [trim] and [parseInt] skip them. *)
Definition isWhite (c : N) : bool :=
  existsb (N.eqb c)
    [9; 10; 11; 12; 13; 32; 160; 5760; 8232; 8233; 8239; 8287; 12288; 65279]%N
  || ((8192 <=? c)%N && (c <=? 8202)%N).

Fixpoint dropWhite (s : jsstring) : jsstring :=
  match s with
  | c :: rest => if isWhite c then dropWhite rest else s
  | [] => []
  end.

Definition trim (s : jsstring) : jsstring :=
  rev (dropWhite (rev (dropWhite s))).

(** [s.padStart(n, "0")] *)
Definition padStart0 (n : nat) (s : jsstring) : jsstring :=
  repeat 48%N (n - List.length s) ++ s.

(* ------------------------------------------------------------------ *)
(** *** parseInt

    [parseInt(s)] with no radix: leading white space is skipped, a sign is
    read, a [0x]/[0X] prefix selects radix 16, and the longest prefix of
    digits of the radix is the value; [None] is NaN.  The value is kept
    exact, where JavaScript returns the nearest double: the two agree on
    the integers up to 2^53 - 1 in magnitude ([safeInteger]), so on every
    decimal string of at most 15 digits.  The dates read here have 8
    characters; the statements on token numbers and on column widths
    assume the bound ([exactToken], [exactNumber]). *)

Definition digitValue (c : N) : option Z :=
  if isDigit c then Some (Z.of_N c - 48)%Z
  else if (97 <=? c)%N && (c <=? 122)%N then Some (Z.of_N c - 87)%Z
  else if (65 <=? c)%N && (c <=? 90)%N then Some (Z.of_N c - 55)%Z
  else None.

(** The digits of radix [r] at the front of [s], folded into [acc];
    [seen] says whether a digit was read. *)
Fixpoint readDigits (r : Z) (s : jsstring) (acc : Z) (seen : bool)
  : option Z :=
  match s with
  | [] => if seen then Some acc else None
  | c :: rest =>
      match digitValue c with
      | Some d =>
          if (d <? r)%Z then readDigits r rest (acc * r + d)%Z true
          else if seen then Some acc else None
      | None => if seen then Some acc else None
      end
  end.

Definition parseUnsigned (s : jsstring) : option Z :=
  match s with
  | 48%N :: x :: rest =>
      if (x =? 120)%N || (x =? 88)%N then readDigits 16 rest 0 false
      else readDigits 10 s 0 false
  | _ => readDigits 10 s 0 false
  end.

Definition parseInt (s : jsstring) : option Z :=
  match dropWhite s with
  | 45%N :: rest => option_map Z.opp (parseUnsigned rest)
  | 43%N :: rest => parseUnsigned rest
  | t => parseUnsigned t
  end.

(** [a > b] on numbers that may be NaN: false as soon as one is NaN. *)
Definition num_gt (a b : option Z) : bool :=
  match a, b with
  | Some x, Some y => (y <? x)%Z
  | _, _ => false
  end.

(** Decimal rendering of an integer, [String(n)].  It is what JavaScript
    gives for the integers up to 2^53 - 1 in magnitude ([safeInteger]);
    beyond them a double does not hold every integer, and from 1e21 on
    [String] writes an exponent.  The statements that read the text of a
    number cell assume the bound ([exactCell]). *)
Fixpoint decimalDigits (fuel : nat) (n : N) (acc : jsstring) : jsstring :=
  match fuel with
  | O => acc
  | S k =>
      let acc' := (48 + n mod 10)%N :: acc in
      if (n <? 10)%N then acc' else decimalDigits k (n / 10)%N acc'
  end.

Definition numberToString (z : Z) : jsstring :=
  let n := Z.to_N (Z.abs z) in
  let ds := decimalDigits (S (N.to_nat (N.log2 n))) n [] in
  if (z <? 0)%Z then 45%N :: ds else ds.

(* ================================================================== *)
(** ** Literals of the source *)

Definition SEISAKU : jsstring := Eval vm_compute in utf16 "製作".
Definition KOUNYU : jsstring := Eval vm_compute in utf16 "購入".
Definition DENKI : jsstring := Eval vm_compute in utf16 "電気".
Definition SEI : jsstring := Eval vm_compute in utf16 "製".
Definition KOU : jsstring := Eval vm_compute in utf16 "購".
Definition DEN : jsstring := Eval vm_compute in utf16 "電".
Definition UNDERSCORE : jsstring := Eval vm_compute in utf16 "_".
Definition HYPHEN : jsstring := Eval vm_compute in utf16 "-".
Definition excludeStockStatus : jsstring :=
  Eval vm_compute in utf16 "社内在庫なし".
Definition validExtensions : list jsstring :=
  Eval vm_compute in [utf16 ".xls"; utf16 ".xlsx"; utf16 ".xlsm"].

(* ================================================================== *)
(** ** Key extraction from the file name *)

(** [fileName.match(/(J\d{10})/)]: the first [J] followed by ten digits;
    the empty string when there is none. *)
Fixpoint extractJNumber (fileName : jsstring) : jsstring :=
  match fileName with
  | [] => []
  | c :: rest =>
      let ds := firstn 10 rest in
      if (c =? 74)%N && (List.length ds =? 10)%nat && forallb isDigit ds
      then c :: ds
      else extractJNumber rest
  end.

(** [fileName.match(/_(製作|購入|電気)_/)]: the first underscore that is
    followed by one of the three names and another underscore. *)
Fixpoint determineCategory (fileName : jsstring) : jsstring :=
  match fileName with
  | [] => []
  | c :: rest =>
      if (c =? 95)%N then
        match find (fun alt => startsWith (alt ++ UNDERSCORE) rest)
                   [SEISAKU; KOUNYU; DENKI] with
        | Some alt => alt
        | None => determineCategory rest
        end
      else determineCategory rest
  end.

(** [fileName.match(/(\d+)unit/i)], group 1: the first maximal run of
    digits that is followed by [unit] in any case.  [run] is the run of
    digits read so far. *)
Fixpoint unitMatch (s : jsstring) (run : jsstring) : option jsstring :=
  match s with
  | [] => None
  | c :: rest =>
      if isDigit c then unitMatch rest (run ++ [c])
      else
        match run with
        | _ :: _ =>
            if str_eqb (toLowerCase (firstn 4 s)) (utf16 "unit")
            then Some run
            else unitMatch rest []
        | [] => unitMatch rest []
        end
  end.

Definition processFilename (fileName category : jsstring) : jsstring :=
  let categoryPrefix :=
    if str_eqb category SEISAKU then SEI
    else if str_eqb category KOUNYU then KOU
    else if str_eqb category DENKI then DEN
    else [] in
  let unitNumberLength := 2%nat in
  if negb (str_eqb category DENKI) && negb (str_eqb categoryPrefix []) then
    match unitMatch fileName [] with
    | Some digits => categoryPrefix ++ padStart0 unitNumberLength digits
    | None => categoryPrefix
    end
  else if str_eqb category DENKI then categoryPrefix
  else [].

(* ================================================================== *)
(** ** Cells, rows and documents *)

(** A [Date] value is seen through two renderings only:
    [Utilities.formatDate(d, "JST", "yyyy/MM/dd")] and [String(d)]. *)
Record JSDate := {
  formatDate_JST : jsstring;
  dateToString : jsstring
}.

(** A cell value as [getValues] yields it; [CUndef] is a hole left by an
    assignment past the end of a row.  The number cells of the model are
    the integers (a cell with a fraction has no counterpart here), and
    their text is exact for the integers up to 2^53 - 1 in magnitude
    ([exactCell]). *)
Inductive Cell :=
| CStr (s : jsstring)
| CNum (z : Z)
| CBool (b : bool)
| CDate (d : JSDate)
| CUndef.

Definition Row := list Cell.

(** [row[i]] *)
Definition cellAt (row : Row) (i : nat) : Cell := nth i row CUndef.

(** [c === s] for a string [s] *)
Definition cellIsStr (s : jsstring) (c : Cell) : bool :=
  match c with
  | CStr t => str_eqb t s
  | _ => false
  end.

(** [row[i] = v]: an index past the end extends the row with holes. *)
Fixpoint setCell (i : nat) (v : Cell) (row : Row) : Row :=
  match i, row with
  | O, [] => [v]
  | O, _ :: rest => v :: rest
  | S k, [] => CUndef :: setCell k v []
  | S k, c :: rest => c :: setCell k v rest
  end.

(** [String(c)] *)
Definition cellToString (c : Cell) : jsstring :=
  match c with
  | CStr s => s
  | CNum z => numberToString z
  | CBool true => utf16 "true"
  | CBool false => utf16 "false"
  | CDate d => dateToString d
  | CUndef => utf16 "undefined"
  end.

(** [xs.map((x, index) => f index x)] and [xs.filter((x, index) => p index x)] *)
Fixpoint mapi_from {A B : Type} (f : nat -> A -> B) (i : nat) (xs : list A)
  : list B :=
  match xs with
  | [] => []
  | x :: rest => f i x :: mapi_from f (S i) rest
  end.

Fixpoint filteri_from {A : Type} (p : nat -> A -> bool) (i : nat)
  (xs : list A) : list A :=
  match xs with
  | [] => []
  | x :: rest =>
      if p i x then x :: filteri_from p (S i) rest
      else filteri_from p (S i) rest
  end.

Definition mapi {A B : Type} (f : nat -> A -> B) := mapi_from f 0.
Definition filteri {A : Type} (p : nat -> A -> bool) := filteri_from p 0.

(** A source file: its name and what the converted copy holds in the
    target sheet, rows 1 to [getLastRow()] at full width.  [None] stands for
    every way of not getting there (the upload or the conversion throws,
    the sheet is absent). *)
Record File := {
  getName : jsstring;
  targetSheet : option (list Row)
}.

Inductive ColumnKey := KA | KB | KC | KD | KE | KF | KG | KH | KI | KJ | KK
                     | KL | KM.

(** The part of [settings] the merge reads. *)
Record Settings := {
  COLUMN_NAMES : ColumnKey -> Cell
}.

(** [cellValue !== "" && cellValue !== null && cellValue !== undefined] *)
Definition hasValue (c : Cell) : bool :=
  match c with
  | CStr [] => false
  | CUndef => false
  | _ => true
  end.

(** The 1-based number of the last row whose column B holds a value,
    0 when there is none. *)
Fixpoint findLastDataRow (rows : list Row) : nat :=
  match rows with
  | [] => 0
  | r :: rest =>
      match findLastDataRow rest with
      | O => if hasValue (cellAt r 1) then 1 else 0
      | S k => S (S k)
      end
  end.

Section Normalisation.

Variable settings : Settings.

Definition REQUIRED_COLUMN_COUNT := 9%nat.
Definition STOCK_STATUS_COLUMN_INDEX := 2%nat.
Definition DATE_FORMAT_COLUMN_L := 7%nat.
Definition DATE_FORMAT_COLUMN_M := 8%nat.
Definition DATE_FORMAT_COLUMN_N := 9%nat.

(** [newRow.splice(0, 1); return newRow.slice(0, 9)] *)
Definition pruneColumns (row : Row) : Row :=
  firstn REQUIRED_COLUMN_COUNT (tl row).

(** The stock filter: [index === 0 || row[2] !== excludeStockStatus]. *)
Definition keepRow (index : nat) (row : Row) : bool :=
  (index =? 0)%nat
  || negb (cellIsStr excludeStockStatus (cellAt row STOCK_STATUS_COLUMN_INDEX)).

Definition filterStock (data : list Row) : list Row := filteri keepRow data.

(** [for (i = 1; ...) data[i][7] = ""] when the category is 購入 or 電気. *)
Definition clearColumnL (category : jsstring) (data : list Row) : list Row :=
  if str_eqb category KOUNYU || str_eqb category DENKI then
    mapi (fun i row =>
            if (i =? 0)%nat then row
            else setCell DATE_FORMAT_COLUMN_L (CStr []) row) data
  else data.

Definition addCategoryColumn (category : jsstring) (data : list Row)
  : list Row :=
  mapi (fun index row =>
          if (index =? 0)%nat then COLUMN_NAMES settings KD :: row
          else CStr category :: row) data.

Definition formatIfDate (i : nat) (row : Row) : Row :=
  match cellAt row i with
  | CDate d => setCell i (CStr (formatDate_JST d)) row
  | _ => row
  end.

Definition formatDates (data : list Row) : list Row :=
  mapi (fun index row =>
          if (index =? 0)%nat then row
          else formatIfDate DATE_FORMAT_COLUMN_N
                 (formatIfDate DATE_FORMAT_COLUMN_M row)) data.

(** The rows of one document after every step. *)
Definition normalise (category : jsstring) (data : list Row) : list Row :=
  formatDates
    (addCategoryColumn category
       (clearColumnL category
          (filterStock (map pruneColumns data)))).

(** [processExcelFile(file, settings.TARGET_SHEET_NAME)]: [None] is the
    [null] result.  With no row holding a value in column B,
    [getRange(1, 1, 0, ..)] throws and the [catch] returns [null]. *)
Definition processExcelFile (file : File) : option (list Row * jsstring) :=
  match targetSheet file with
  | None => None
  | Some sheet =>
      match findLastDataRow sheet with
      | O => None
      | validRows =>
          let data := firstn validRows sheet in
          let category := determineCategory (getName file) in
          Some (normalise category data, category)
      end
  end.

End Normalisation.

(* ================================================================== *)
(** ** The per-folder loop: processFiles *)

(** A [Set] of strings, in insertion order. *)
Definition StrSet := list jsstring.

Definition Set_has (x : jsstring) (s : StrSet) : bool := existsb (str_eqb x) s.

Definition Set_add (x : jsstring) (s : StrSet) : StrSet :=
  if Set_has x s then s else s ++ [x].

(** [src.forEach((x) => dst.add(x))] *)
Definition Set_addAll (src dst : StrSet) : StrSet :=
  fold_left (fun acc x => Set_add x acc) src dst.

(** The value stored per key in [processedFileKeys]. *)
Record FileInfo := {
  file : File;
  date : option Z
}.

(** A [Map] with string keys, in insertion order. *)
Definition KeyMap := list (jsstring * FileInfo).

Fixpoint Map_get (k : jsstring) (m : KeyMap) : option FileInfo :=
  match m with
  | [] => None
  | (k', v) :: rest => if str_eqb k k' then Some v else Map_get k rest
  end.

Fixpoint Map_set (k : jsstring) (v : FileInfo) (m : KeyMap) : KeyMap :=
  match m with
  | [] => [(k, v)]
  | (k', v') :: rest =>
      if str_eqb k k' then (k', v) :: rest else (k', v') :: Map_set k v rest
  end.

(** [filenamePartsByCategory]: an object with the keys 購入, 製作, 電気. *)
Record Parts := {
  parts_KOUNYU : list jsstring;
  parts_SEISAKU : list jsstring;
  parts_DENKI : list jsstring
}.

Definition noParts : Parts :=
  {| parts_KOUNYU := []; parts_SEISAKU := []; parts_DENKI := [] |}.

(** The [switch (category)] that pushes [filenamePart]. *)
Definition pushPart (category filenamePart : jsstring) (p : Parts) : Parts :=
  if str_eqb category KOUNYU then
    {| parts_KOUNYU := parts_KOUNYU p ++ [filenamePart];
       parts_SEISAKU := parts_SEISAKU p;
       parts_DENKI := parts_DENKI p |}
  else if str_eqb category SEISAKU then
    {| parts_KOUNYU := parts_KOUNYU p;
       parts_SEISAKU := parts_SEISAKU p ++ [filenamePart];
       parts_DENKI := parts_DENKI p |}
  else if str_eqb category DENKI then
    {| parts_KOUNYU := parts_KOUNYU p;
       parts_SEISAKU := parts_SEISAKU p;
       parts_DENKI := parts_DENKI p ++ [filenamePart] |}
  else p.

(** [collectUnitNumbersForCheck(data, category).unitNumbers]: the digits of
    the first cell of column 1 below the header that is neither undefined
    nor empty. *)
Fixpoint firstUnitNumbers (rows : list Row) : jsstring :=
  match rows with
  | [] => []
  | row :: rest =>
      match nth_error row 1 with
      | Some c =>
          if negb (cellIsStr [] c) && negb (match c with CUndef => true | _ => false end)
          then digitsOnly (trim (cellToString c))
          else firstUnitNumbers rest
      | None => firstUnitNumbers rest
      end
  end.

Definition collectUnitNumbersForCheck (data : list Row) (category : jsstring)
  : jsstring * jsstring :=
  (firstUnitNumbers (tl data), category).

(** The local variables of [processFiles]. *)
Record State := {
  combinedDataRows : list Row;
  processedFiles : nat;
  jNumberSet : StrSet;
  unitNumberSet : StrSet;
  categories : StrSet;
  processedFileKeys : KeyMap;
  filenamePartsByCategory : Parts
}.

Definition initialState : State :=
  {| combinedDataRows := [];
     processedFiles := 0;
     jNumberSet := [];
     unitNumberSet := [];
     categories := [];
     processedFileKeys := [];
     filenamePartsByCategory := noParts |}.

(** Which way one pass of the loop body went. *)
Inductive Outcome :=
| SKIPPED_EXTENSION
| NO_DATA
| ACCEPTED_NEW
| ACCEPTED_SUPERSEDES
| REJECTED_STALE.

Definition hasValidExtension (fileName : jsstring) : bool :=
  existsb (fun ext => endsWith ext (toLowerCase fileName)) validExtensions.

(** [`${jNumber}_${categoryForCheck}_${unitNumbers}`] *)
Definition fileKeyOf (jNumber categoryForCheck unitNumbers : jsstring)
  : jsstring :=
  jNumber ++ UNDERSCORE ++ categoryForCheck ++ UNDERSCORE ++ unitNumbers.

(** [row.includes(name)] *)
Definition rowIncludes (name : jsstring) (row : Row) : bool :=
  existsb (cellIsStr name) row.

(** [`parseInt(a.replace(/[^0-9]/g, "")) || 0`] *)
Definition sortKey (a : jsstring) : Z :=
  match parseInt (digitsOnly a) with
  | Some v => v
  | None => 0%Z
  end.

(** The comparison function handed to [sort]. *)
Definition compareParts (a b : jsstring) : Z := (sortKey a - sortKey b)%Z.

(** [Array.prototype.sort] is stable: an element goes before the first
    one that the comparison function does not put before it. *)
Fixpoint insertPart (x : jsstring) (sorted : list jsstring) : list jsstring :=
  match sorted with
  | [] => [x]
  | y :: rest =>
      if (compareParts x y <=? 0)%Z then x :: sorted
      else y :: insertPart x rest
  end.

Definition sortParts (l : list jsstring) : list jsstring :=
  fold_right insertPart [] l.

Definition sortAllParts (p : Parts) : Parts :=
  {| parts_KOUNYU := sortParts (parts_KOUNYU p);
     parts_SEISAKU := sortParts (parts_SEISAKU p);
     parts_DENKI := sortParts (parts_DENKI p) |}.

Section Folder.

Variable settings : Settings.

(** One pass of the [while] loop of [processFiles]. *)
Definition loopBody (st : State) (f : File) : State * Outcome :=
  let fileName := getName f in
  if negb (hasValidExtension fileName) then (st, SKIPPED_EXTENSION)
  else
    let jNumber := extractJNumber fileName in
    let jNumberSet' :=
      if negb (str_eqb jNumber []) then Set_add jNumber (jNumberSet st)
      else jNumberSet st in
    match processExcelFile settings f with
    | None =>
        ({| combinedDataRows := combinedDataRows st;
            processedFiles := processedFiles st;
            jNumberSet := jNumberSet';
            unitNumberSet := unitNumberSet st;
            categories := categories st;
            processedFileKeys := processedFileKeys st;
            filenamePartsByCategory := filenamePartsByCategory st |},
         NO_DATA)
    | Some (fileData, category) =>
        let categories' :=
          if negb (str_eqb category []) then Set_add category (categories st)
          else categories st in
        let '(unitNumbers, categoryForCheck) :=
          collectUnitNumbersForCheck fileData category in
        let fileKey := fileKeyOf jNumber categoryForCheck unitNumbers in
        let datePrefixLength := 8%nat in
        let currentDate := parseInt (substring0 datePrefixLength fileName) in
        match Map_get fileKey (processedFileKeys st) with
        | Some existingFileInfo =>
            let existingFile := file existingFileInfo in
            let existingDate := date existingFileInfo in
            if num_gt currentDate existingDate then
              ({| combinedDataRows :=
                    filter (fun row => negb (rowIncludes (getName existingFile) row))
                           (combinedDataRows st)
                    ++ tl fileData;
                  processedFiles := S (processedFiles st);
                  jNumberSet := jNumberSet';
                  unitNumberSet := unitNumberSet st;
                  categories := categories';
                  processedFileKeys :=
                    Map_set fileKey {| file := f; date := currentDate |}
                            (processedFileKeys st);
                  filenamePartsByCategory := filenamePartsByCategory st |},
               ACCEPTED_SUPERSEDES)
            else
              ({| combinedDataRows := combinedDataRows st;
                  processedFiles := processedFiles st;
                  jNumberSet := jNumberSet';
                  unitNumberSet := unitNumberSet st;
                  categories := categories';
                  processedFileKeys := processedFileKeys st;
                  filenamePartsByCategory := filenamePartsByCategory st |},
               REJECTED_STALE)
        | None =>
            let filenamePart := processFilename fileName category in
            ({| combinedDataRows :=
                  if (processedFiles st =? 0)%nat then fileData
                  else combinedDataRows st ++ tl fileData;
                processedFiles := S (processedFiles st);
                jNumberSet := jNumberSet';
                unitNumberSet := unitNumberSet st;
                categories := categories';
                processedFileKeys :=
                  Map_set fileKey {| file := f; date := currentDate |}
                          (processedFileKeys st);
                filenamePartsByCategory :=
                  if negb (str_eqb filenamePart []) then
                    pushPart category filenamePart (filenamePartsByCategory st)
                  else filenamePartsByCategory st |},
             ACCEPTED_NEW)
        end
    end.

(** The state after the [while] loop over the files of one folder. *)
Definition runLoop (st : State) (files : list File) : State :=
  fold_left (fun s f => fst (loopBody s f)) files st.

(** The sort of the three lists that follows the loop. *)
Definition sortState (st : State) : State :=
  {| combinedDataRows := combinedDataRows st;
     processedFiles := processedFiles st;
     jNumberSet := jNumberSet st;
     unitNumberSet := unitNumberSet st;
     categories := categories st;
     processedFileKeys := processedFileKeys st;
     filenamePartsByCategory := sortAllParts (filenamePartsByCategory st) |}.

Definition processFiles (fileIterator : list File) : State :=
  sortState (runLoop initialState fileIterator).

End Folder.

(* ================================================================== *)
(** ** Output assembly: createSpreadsheet *)

(** A computation that returns or throws; [Throw] carries [e.toString()]. *)
Inductive Exc (A : Type) :=
| Return (a : A)
| Throw (e : jsstring).

Arguments Return {A} a.
Arguments Throw {A} e.

Definition bind {A B : Type} (m : Exc A) (k : A -> Exc B) : Exc B :=
  match m with
  | Return a => k a
  | Throw e => Throw e
  end.

Notation "x <- m ;; k" := (bind m (fun x => k))
  (at level 61, m at next level, right associativity).

(** [e.toString()] of [new Error(msg)]. *)
Definition errorToString (msg : string) : jsstring :=
  utf16 "Error: " ++ utf16 msg.

(** [throw new Error(msg)] *)
Definition throwError {A : Type} (msg : string) : Exc A :=
  Throw (errorToString msg).

(** The category segments of the output name. *)
Definition filenamePartsOf (p : Parts) : list jsstring :=
  (if (0 <? List.length (parts_KOUNYU p))%nat
   then [KOU ++ join HYPHEN (map slice1 (parts_KOUNYU p))] else [])
  ++ (if (0 <? List.length (parts_SEISAKU p))%nat
      then [SEI ++ join HYPHEN (map slice1 (parts_SEISAKU p))] else [])
  ++ (if (0 <? List.length (parts_DENKI p))%nat then [DEN] else []).

(** [newFileName] of [createSpreadsheet]. *)
Definition newFileName (jNumberSet : StrSet) (p : Parts) (dateTime : jsstring)
  : jsstring :=
  let jNumber := hd [] jNumberSet in
  let combinedFilenameBase := join UNDERSCORE (filenamePartsOf p) in
  let underscore :=
    if negb (str_eqb combinedFilenameBase []) then UNDERSCORE else [] in
  jNumber ++ underscore ++ combinedFilenameBase ++ UNDERSCORE ++ dateTime.

Section Output.

Variable settings : Settings.

(** [finalData]: a header row, then every row after the first of
    [combinedDataRows] behind two empty cells and its 1-based number. *)
Definition finalDataOf (combinedDataRows : list Row) : list Row :=
  let headerRow :=
    map (COLUMN_NAMES settings) [KD; KE; KF; KG; KH; KI; KJ; KK; KL; KM] in
  let dataRows := tl combinedDataRows in
  (map (COLUMN_NAMES settings) [KA; KB; KC] ++ headerRow)
  :: mapi (fun index row =>
             [CStr []; CStr []; CNum (Z.of_nat index + 1)]
             ++ (firstn 1 row ++ skipn 1 row)) dataRows.

(** What the run reads from and writes to the outside: the folder dialog,
    Drive, the clock, and the sheet services that copy the template, fill,
    format and sort it.  A spreadsheet is known by its URL. *)
Record Services := {
  selectFolder : Exc (option jsstring);
  getFolderById : jsstring -> Exc (option (list (jsstring * list File)));
  getCurrentDateTime : jsstring;
  fillTemplate : jsstring -> list Row -> Exc jsstring;
  formatSheet : jsstring -> list Row -> Exc unit
}.

Variable services : Services.

(** [createSpreadsheet]: [None] is its [null] result. *)
Definition createSpreadsheet (combinedDataRows : list Row)
  (jNumberSet unitNumberSet categories : StrSet) (p : Parts)
  : Exc (option jsstring) :=
  if (List.length combinedDataRows =? 0)%nat then Return None
  else
    let dateTime := getCurrentDateTime services in
    url <- fillTemplate services (newFileName jNumberSet p dateTime)
             (finalDataOf combinedDataRows) ;;
    Return (Some url).

(* ================================================================== *)
(** ** The driver: combineExcelSheets *)

(** The accumulators of [combineExcelSheets]; they have the fields of
    [State], with [processedFileKeys] unused. *)
Definition mergeFolder (acc : State) (result : State) : State :=
  {| combinedDataRows := combinedDataRows acc ++ combinedDataRows result;
     processedFiles := processedFiles acc + processedFiles result;
     jNumberSet := Set_addAll (jNumberSet result) (jNumberSet acc);
     unitNumberSet := Set_addAll (unitNumberSet result) (unitNumberSet acc);
     categories := Set_addAll (categories result) (categories acc);
     processedFileKeys := processedFileKeys acc;
     filenamePartsByCategory :=
       {| parts_KOUNYU :=
            parts_KOUNYU (filenamePartsByCategory acc)
            ++ parts_KOUNYU (filenamePartsByCategory result);
          parts_SEISAKU :=
            parts_SEISAKU (filenamePartsByCategory acc)
            ++ parts_SEISAKU (filenamePartsByCategory result);
          parts_DENKI :=
            parts_DENKI (filenamePartsByCategory acc)
            ++ parts_DENKI (filenamePartsByCategory result) |} |}.

(** [!name.startsWith("@") && name.includes("部品リスト")] *)
Definition isTargetFolder (subFolderName : jsstring) : bool :=
  negb (startsWith (utf16 "@") subFolderName)
  && includesStr (utf16 "部品リスト") subFolderName.

(** [targetFolders.forEach(...)]: every folder is run through
    [processFiles] and its result merged into the accumulators. *)
Definition gather (targetFolders : list (jsstring * list File)) : State :=
  fold_left (fun acc folder => mergeFolder acc (processFiles settings (snd folder)))
            targetFolders initialState.

(** What [combineExcelSheets] returns. *)
Inductive RunResult :=
| Success (url : jsstring) (processedFiles totalRows : nat)
| Failure (error : jsstring).

(** The body of the [try] block. *)
Definition tryBlock : Exc RunResult :=
  folderId <- selectFolder services ;;
  match folderId with
  | None | Some [] => throwError "フォルダが選択されませんでした"
  | Some id =>
      folder <- getFolderById services id ;;
      match folder with
      | None => throwError "指定されたフォルダが見つかりません"
      | Some subFolders =>
          let targetFolders :=
            filter (fun sub => isTargetFolder (fst sub)) subFolders in
          if (List.length targetFolders =? 0)%nat then
            throwError "部品リストを含むフォルダが見つかりませんでした"
          else
            let acc := gather targetFolders in
            if (processedFiles acc =? 0)%nat then
              throwError "処理可能なファイルが見つかりませんでした"
            else if (List.length (combinedDataRows acc) =? 0)%nat then
              throwError "有効なデータが見つかりませんでした"
            else
              newSpreadsheet <-
                createSpreadsheet (combinedDataRows acc) (jNumberSet acc)
                  (unitNumberSet acc) (categories acc)
                  (filenamePartsByCategory acc) ;;
              match newSpreadsheet with
              | None =>
                  Throw (utf16
                    "TypeError: Cannot read properties of null (reading 'getActiveSheet')")
              | Some url =>
                  _ <- formatSheet services url (combinedDataRows acc) ;;
                  Return (Success url (processedFiles acc)
                                  (List.length (combinedDataRows acc)))
              end
      end
  end.

(** [try { ... } catch (e) { return { success: false, error: e.toString() } }] *)
Definition combineExcelSheets : RunResult :=
  match tryBlock with
  | Return r => r
  | Throw e => Failure e
  end.

End Output.

(* ================================================================== *)
(** ** Notions the statements below are phrased with *)

(** The file's key, as [loopBody] computes it once the file is read. *)
Definition dedupKey (f : File) (fileData : list Row) (category : jsstring)
  : jsstring :=
  fileKeyOf (extractJNumber (getName f))
            (snd (collectUnitNumbersForCheck fileData category))
            (fst (collectUnitNumbersForCheck fileData category)).

(** The revision date read from the file name. *)
Definition revisionDate (f : File) : option Z :=
  parseInt (substring0 8 (getName f)).

(** The project identifiers of the files the loop reads, in order. *)
Definition projectIdsOf (files : list File) : list jsstring :=
  filter (fun j => negb (str_eqb j []))
    (map (fun f => extractJNumber (getName f))
       (filter (fun f => hasValidExtension (getName f)) files)).

(** The run folder by folder, from any accumulators; [gather] starts it
    from the empty ones. *)
Definition gatherFrom (settings : Settings) (acc : State)
  (folders : list (jsstring * list File)) : State :=
  fold_left (fun a folder => mergeFolder a (processFiles settings (snd folder)))
            folders acc.

(** Every member of [s] is a member of [s']. *)
Definition Set_incl (s s' : StrSet) : Prop :=
  forall x, Set_has x s = true -> Set_has x s' = true.

Definition keyLe (a b : jsstring) : Prop := (sortKey a <= sortKey b)%Z.

(** [output] is [input] sorted ascending by [sortKey], equal keys in their
    original order. *)
Definition stableSortOf (input output : list jsstring) : Prop :=
  Sorted keyLe output
  /\ Permutation input output
  /\ forall k, filter (fun t => (sortKey t =? k)%Z) output
               = filter (fun t => (sortKey t =? k)%Z) input.

(** Tokens whose number has at most 15 digits: [parseInt] reads those
    without rounding. *)
Definition exactToken (t : jsstring) : Prop :=
  (List.length (digitsOnly t) <= 15)%nat.

Definition exactParts (p : Parts) : Prop :=
  Forall exactToken (parts_KOUNYU p)
  /\ Forall exactToken (parts_SEISAKU p)
  /\ Forall exactToken (parts_DENKI p).

(** What the later steps of [normalise] do to a data row that passed the
    stock filter. *)
Definition finishRow (category : jsstring) (row : Row) : Row :=
  formatIfDate DATE_FORMAT_COLUMN_N
    (formatIfDate DATE_FORMAT_COLUMN_M
       (CStr category ::
          (if str_eqb category KOUNYU || str_eqb category DENKI
           then setCell DATE_FORMAT_COLUMN_L (CStr []) row
           else row))).

(** A pruned row whose stock-status field is the exclusion marker. *)
Definition isExcluded (row : Row) : bool :=
  cellIsStr excludeStockStatus (cellAt row STOCK_STATUS_COLUMN_INDEX).

(* ------------------------------------------------------------------ *)
(** *** The output name in the words of the specification

    [projectId], then an underscore and the category segments joined by
    [_] if some category has a token, then an underscore and the time
    stamp.  A segment is the category letter followed by the category's
    tokens, each without its first character, joined by [-]; 電気 gives its
    letter alone. *)

Definition stripPrefix (token : jsstring) : jsstring :=
  match token with
  | [] => []
  | _ :: rest => rest
  end.

Definition categorySegment (letter : jsstring) (tokens : list jsstring)
  : list jsstring :=
  match tokens with
  | [] => []
  | _ :: _ => [letter ++ join HYPHEN (map stripPrefix tokens)]
  end.

Definition categoryTokens (p : Parts) : list jsstring :=
  categorySegment KOU (parts_KOUNYU p)
  ++ categorySegment SEI (parts_SEISAKU p)
  ++ match parts_DENKI p with
     | [] => []
     | _ :: _ => [DEN]
     end.

Definition anyTokens (p : Parts) : bool :=
  match parts_KOUNYU p, parts_SEISAKU p, parts_DENKI p with
  | [], [], [] => false
  | _, _, _ => true
  end.

Definition outputNameSpec (projectId : jsstring) (p : Parts)
  (timestamp : jsstring) : jsstring :=
  projectId
  ++ (if anyTokens p then UNDERSCORE ++ join UNDERSCORE (categoryTokens p)
      else [])
  ++ UNDERSCORE ++ timestamp.

(* ================================================================== *)
(** ** Sample documents *)

Definition demoSettings : Settings :=
  {| COLUMN_NAMES := fun k =>
       match k with
       | KA => CStr (utf16 "check1")
       | KB => CStr (utf16 "check2")
       | KC => CStr (utf16 "No")
       | KD => CStr (utf16 "category")
       | _ => CStr (utf16 "title")
       end |}.

Definition demoDate : JSDate :=
  {| formatDate_JST := utf16 "2024/02/01";
     dateToString := utf16 "Thu Feb 01 2024 00:00:00 GMT+0900 (JST)" |}.

(** A sheet row of twelve columns: A (an index), B (the unit), C (the part
    number), D (the stock status) and eight more. *)
Definition rawRow (no : Z) (unit part stock : string) : Row :=
  [CNum no; CStr (utf16 unit); CStr (utf16 part); CStr (utf16 stock);
   CStr (utf16 "maker"); CNum 2; CStr (utf16 "vendor"); CStr (utf16 "note");
   CStr (utf16 "finish"); CDate demoDate; CStr []; CStr (utf16 "extra")].

Definition headerRaw : Row := rawRow 0 "Unit" "Part" "Stock".

(** A header whose stock-status cell is the exclusion marker itself. *)
Definition headerWithMarker : Row := rawRow 0 "Unit" "Part" "社内在庫なし".

(** 購入, dated 20240105: three valid rows and one excluded-stock row. *)
Definition doc0105 : File :=
  {| getName := utf16 "20240105_J0000000001_購入_1unit.xlsx";
     targetSheet :=
       Some [headerRaw;
             rawRow 1 "1unit" "001" "在庫あり";
             rawRow 2 "1unit" "002" "社内在庫なし";
             rawRow 3 "1unit" "003" "";
             rawRow 4 "1unit" "004" "発注"] |}.

(** 購入, same project and unit, dated 20240110: two rows. *)
Definition doc0110 : File :=
  {| getName := utf16 "20240110_J0000000001_購入_1unit.xlsx";
     targetSheet :=
       Some [headerRaw;
             rawRow 1 "1unit" "101" "";
             rawRow 2 "1unit" "102" ""] |}.

(** 購入 of unit 3, and 製作 of unit 10 of another project. *)
Definition docUnit3 : File :=
  {| getName := utf16 "20240201_J0000000001_購入_3unit.xlsx";
     targetSheet := Some [headerRaw; rawRow 1 "3unit" "301" ""] |}.

Definition docOtherProject : File :=
  {| getName := utf16 "20240301_J0000000002_製作_10Unit.XLSX";
     targetSheet := Some [headerRaw; rawRow 1 "10unit" "901" ""] |}.

(** 購入 of unit 10. *)
Definition docUnit10 : File :=
  {| getName := utf16 "20240202_J0000000001_購入_10unit.xlsx";
     targetSheet := Some [headerRaw; rawRow 1 "10unit" "501" ""] |}.

(** A file with an accepted extension, no project identifier and no
    category in its name. *)
Definition docPlain : File :=
  {| getName := utf16 "20240105_list.xlsx";
     targetSheet := Some [headerRaw; rawRow 1 "1unit" "001" ""] |}.

(** The rows [doc0105] and [doc0110] contribute. *)
Definition outRow (unit part stock : string) : Row :=
  [CStr KOUNYU; CStr (utf16 unit); CStr (utf16 part); CStr (utf16 stock);
   CStr (utf16 "maker"); CNum 2; CStr (utf16 "vendor"); CStr (utf16 "note");
   CStr []; CStr (utf16 "2024/02/01")].

Definition outHeader : Row :=
  [CStr (utf16 "category"); CStr (utf16 "Unit"); CStr (utf16 "Part");
   CStr (utf16 "Stock"); CStr (utf16 "maker"); CNum 2; CStr (utf16 "vendor");
   CStr (utf16 "note"); CStr (utf16 "finish"); CDate demoDate].

Definition rows0105 : list Row :=
  [outRow "1unit" "001" "在庫あり"; outRow "1unit" "003" "";
   outRow "1unit" "004" "発注"].

Definition rows0110 : list Row :=
  [outRow "1unit" "101" ""; outRow "1unit" "102" ""].

(** Two folders, the older revision in the first. *)
Definition twoFolders : list (jsstring * list File) :=
  [(utf16 "部品リスト_A", [doc0105]); (utf16 "部品リスト_B", [doc0110])].

(** One folder whose 購入 files come in the order of units 3, 1, 10, and
    the same files of units 3 and 1 spread over two folders. *)
Definition tokenFolder : list File := [docUnit3; doc0105; docUnit10].

Definition tokenFolders : list (jsstring * list File) :=
  [(utf16 "部品リスト_A", [docUnit3]); (utf16 "部品リスト_B", [doc0105])].

(** The row [docOtherProject] contributes: 製作 keeps column L. *)
Definition rowOtherProject : Row :=
  [CStr SEISAKU; CStr (utf16 "10unit"); CStr (utf16 "901"); CStr [];
   CStr (utf16 "maker"); CNum 2; CStr (utf16 "vendor"); CStr (utf16 "note");
   CStr (utf16 "finish"); CStr (utf16 "2024/02/01")].

(** Two folders with files of different keys. *)
Definition headerFolders : list (jsstring * list File) :=
  [(utf16 "部品リスト_A", [doc0105]); (utf16 "部品リスト_B", [docOtherProject])].

(** Sub-folders none of which passes the name filter. *)
Definition otherFolders : list (jsstring * list File) :=
  [(utf16 "@部品リスト_old", [doc0105]); (utf16 "drawings", [doc0110])].

(** A sheet of one row that holds the name of its own file in column B,
    and a newer file of the same key with a header row only. *)
Definition docSelfNamed : File :=
  {| getName := utf16 "20240105_J0000000003_購入_list.xlsx";
     targetSheet :=
       Some [[CNum 0; CStr (utf16 "20240105_J0000000003_購入_list.xlsx");
              CStr (utf16 "Part")]] |}.

Definition docHeaderOnly : File :=
  {| getName := utf16 "20240110_J0000000003_購入_list.xlsx";
     targetSheet := Some [headerRaw] |}.

(** Services under which everything outside the merge succeeds. *)
Definition demoUrl : jsstring := utf16 "https://docs.example/sheet".

Definition demoServices (subFolders : list (jsstring * list File)) : Services :=
  {| selectFolder := Return (Some (utf16 "folder-id"));
     getFolderById := fun _ => Return (Some subFolders);
     getCurrentDateTime := utf16 "20240101-0000";
     fillTemplate := fun _ _ => Return demoUrl;
     formatSheet := fun _ _ => Return tt |}.

(** Services whose template copy throws. *)
Definition failingServices (subFolders : list (jsstring * list File)) : Services :=
  {| selectFolder := Return (Some (utf16 "folder-id"));
     getFolderById := fun _ => Return (Some subFolders);
     getCurrentDateTime := utf16 "20240101-0000";
     fillTemplate := fun _ _ => Throw (utf16 "Exception: Access denied");
     formatSheet := fun _ _ => Return tt |}.

(* ================================================================== *)
(** ** Further functions of the script *)

(** [c instanceof Date] *)
Definition isDate (c : Cell) : bool :=
  match c with
  | CDate _ => true
  | _ => false
  end.

(** A file of the key of [doc0105] whose name does not begin with a
    date. *)
Definition docUndated : File :=
  {| getName := utf16 "rev2_J0000000001_購入_1unit.xlsx";
     targetSheet := Some [headerRaw; rawRow 1 "1unit" "201" ""] |}.

(** Every token stands in the list of its own category: the tokens of 購入
    begin with 購, those of 製作 with 製, and those of 電気 are 電. *)
Definition partsOfCategory (p : Parts) : Prop :=
  Forall (fun t => exists rest, t = KOU ++ rest) (parts_KOUNYU p)
  /\ Forall (fun t => exists rest, t = SEI ++ rest) (parts_SEISAKU p)
  /\ Forall (fun t => t = DEN) (parts_DENKI p).

(** The date [d'] is not below the date [d]; a date that is no number
    stays as it is. *)
Definition dateNotBelow (d d' : option Z) : Prop :=
  match d, d' with
  | Some x, Some y => (x <= y)%Z
  | None, None => True
  | _, _ => False
  end.

(** What the loop keeps between the count of admitted files, the
    registry and the rows. *)
Definition countInvariant (st : State) : Prop :=
  (List.length (processedFileKeys st) <= processedFiles st)%nat
  /\ (processedFiles st = 0%nat -> combinedDataRows st = [])
  /\ (processedFileKeys st = [] -> processedFiles st = 0%nat).

(* ------------------------------------------------------------------ *)
(** *** getCurrentDateTime *)

(** What the function reads from [new Date()]. *)
Record Now := {
  getFullYear : Z;
  getMonth : Z;
  getDate : Z;
  getHours : Z;
  getMinutes : Z
}.

(** [n.toString().padStart(2, "0")] *)
Definition twoDigits (n : Z) : jsstring := padStart0 2 (numberToString n).

(** [getCurrentDateTime(format)] at the instant [now]; [None] is the
    [undefined] the function returns for any other format. *)
Definition getCurrentDateTimeAt (now : Now) (format : jsstring)
  : option jsstring :=
  if str_eqb format (utf16 "YYYYMMDD-HHMM") then
    let year := getFullYear now in
    let month := twoDigits (getMonth now + 1) in
    let day := twoDigits (getDate now) in
    let hours := twoDigits (getHours now) in
    let minutes := twoDigits (getMinutes now) in
    Some (numberToString year ++ month ++ day ++ HYPHEN ++ hours ++ minutes)
  else None.

(* ------------------------------------------------------------------ *)
(** *** selectFolder *)

(** The buttons of a prompt dialog. *)
Inductive Button := BUTTON_CLOSE | BUTTON_OK | BUTTON_CANCEL | BUTTON_YES
                  | BUTTON_NO.

(** [names.indexOf(x)], [None] for -1. *)
Fixpoint indexOf (x : jsstring) (names : list jsstring) : option nat :=
  match names with
  | [] => None
  | y :: rest =>
      if str_eqb y x then Some 0%nat
      else option_map S (indexOf x rest)
  end.

(** [selectFolder] over the sub-folders (name, id) of the parent folder,
    with the button pressed and the text typed in the dialog. *)
Definition selectFolderFrom (folders : list (jsstring * jsstring))
  (button : Button) (responseText : jsstring) : option jsstring :=
  let shown := filter (fun folder => negb (startsWith (utf16 "@") (fst folder)))
                      folders in
  let folderNames := map fst shown in
  let folderIds := map snd shown in
  match button with
  | BUTTON_OK =>
      match indexOf responseText folderNames with
      | Some folderIndex => nth_error folderIds folderIndex
      | None => None
      end
  | _ => None
  end.

(* ------------------------------------------------------------------ *)
(** *** applyAlternatingRowColors and applyUnitColors *)

Definition WHITE : jsstring := Eval vm_compute in utf16 "#ffffff".
Definition PALE : jsstring := Eval vm_compute in utf16 "#f2f2f2".
Definition UNIT_DARK : jsstring := Eval vm_compute in utf16 "#d3d3d3".
Definition UNIT_LIGHT : jsstring := Eval vm_compute in utf16 "#f0f0f0".

(** The [backgrounds] that [applyAlternatingRowColors] hands to
    [setBackgrounds]; [None] when it returns at once. *)
Definition alternatingBackgrounds (rowCount lastColumn : nat)
  : option (list (list jsstring)) :=
  if (rowCount <=? 1)%nat then None
  else
    Some (map (fun i =>
                 let rowColor := if (i mod 2 =? 0)%nat then WHITE else PALE in
                 repeat rowColor lastColumn)
              (seq 0 (rowCount - 1))).

(** [a === b] for the values of two different cells: two [Date] objects
    are never the same object. *)
Definition cellStrictEq (a b : Cell) : bool :=
  match a, b with
  | CStr s, CStr t => str_eqb s t
  | CNum x, CNum y => (x =? y)%Z
  | CBool x, CBool y => Bool.eqb x y
  | CUndef, CUndef => true
  | _, _ => false
  end.

(** The loop of [applyUnitColors] from the row it has reached: [lastUnit]
    is [None] while it is [null]. *)
Fixpoint unitColors (rows : list Row) (lastUnit : option Cell)
  (colorFlag : bool) : list jsstring :=
  match rows with
  | [] => []
  | row :: rest =>
      let currentUnit := cellAt row 4 in
      let changed :=
        match lastUnit with
        | None => true
        | Some u => negb (cellStrictEq currentUnit u)
        end in
      let colorFlag' := if changed then negb colorFlag else colorFlag in
      let lastUnit' := if changed then Some currentUnit else lastUnit in
      (if colorFlag' then UNIT_DARK else UNIT_LIGHT)
      :: unitColors rest lastUnit' colorFlag'
  end.

(** The [backgrounds] of [applyUnitColors], one per row below the header;
    [None] when it returns at once. *)
Definition unitBackgrounds (data : list Row) : option (list jsstring) :=
  if (List.length data <=? 1)%nat then None
  else Some (unitColors (tl data) None false).

(* ------------------------------------------------------------------ *)
(** *** loadSettings *)

(** [parseInt(s, 10)]: as [parseInt] without the hexadecimal prefix, and
    exact like it: the result is that of JavaScript when it is NaN or an
    integer up to 2^53 - 1 in magnitude ([exactNumber]). *)
Definition parseInt10 (s : jsstring) : option Z :=
  match dropWhite s with
  | 45%N :: rest => option_map Z.opp (readDigits 10 rest 0 false)
  | 43%N :: rest => readDigits 10 rest 0 false
  | t => readDigits 10 t 0 false
  end.

(** The own properties of an object used as a table from names to
    values, in insertion order. *)
Definition Obj (A : Type) := list (jsstring * A).

Fixpoint Obj_get {A : Type} (k : jsstring) (o : Obj A) : option A :=
  match o with
  | [] => None
  | (k', v) :: rest => if str_eqb k k' then Some v else Obj_get k rest
  end.

Fixpoint Obj_set {A : Type} (k : jsstring) (v : A) (o : Obj A) : Obj A :=
  match o with
  | [] => [(k, v)]
  | (k', v') :: rest =>
      if str_eqb k k' then (k', v) :: rest else (k', v') :: Obj_set k v rest
  end.

Definition PROTO : jsstring := Eval vm_compute in utf16 "__proto__".

(** [o[k] = v] on a plain object: it sets the own property [k], but for
    the name [__proto__], where it sets none. *)
Definition assign {A : Type} (k : jsstring) (v : A) (o : Obj A) : Obj A :=
  if str_eqb k PROTO then o else Obj_set k v o.

Definition COLUMN_NAME_PREFIX : jsstring :=
  Eval vm_compute in utf16 "COLUMN_NAME_".
Definition COLUMN_WIDTH_PREFIX : jsstring :=
  Eval vm_compute in utf16 "COLUMN_WIDTH_".

(** [key.replace(prefix, "")]: the first occurrence of [prefix] is cut
    out. *)
Fixpoint removeFirst (prefix s : jsstring) : jsstring :=
  if startsWith prefix s then skipn (List.length prefix) s
  else
    match s with
    | [] => []
    | c :: rest => c :: removeFirst prefix rest
    end.

Section LoadSettings.

(** [JSON.parse] is left open: a parsed value or [None] when it throws. *)
Variable JSONValue : Type.
Variable JSON_parse : Cell -> option JSONValue.

(** A value stored under a key of [settings]: what [JSON.parse] made of
    the cell, or the cell itself after a [catch]. *)
Inductive SettingValue :=
| Parsed (v : JSONValue)
| Raw (c : Cell).

(** The three objects the [forEach] of [loadSettings] fills. *)
Record Loaded := {
  loaded_settings : Obj SettingValue;
  loaded_columnNames : Obj Cell;
  loaded_columnWidths : Obj (option Z)
}.

Definition noneLoaded : Loaded :=
  {| loaded_settings := [];
     loaded_columnNames := [];
     loaded_columnWidths := [] |}.

(** One row of the settings sheet.  A key that is no string makes
    [key.startsWith] throw, and the [catch] stores the raw value under the
    key's text. *)
Definition loadRow (acc : Loaded) (row : Row) : Loaded :=
  let key := cellAt row 0 in
  let value := cellAt row 1 in
  match key with
  | CStr k =>
      if startsWith COLUMN_NAME_PREFIX k then
        {| loaded_settings := loaded_settings acc;
           loaded_columnNames :=
             assign (removeFirst COLUMN_NAME_PREFIX k) value
                     (loaded_columnNames acc);
           loaded_columnWidths := loaded_columnWidths acc |}
      else if startsWith COLUMN_WIDTH_PREFIX k then
        {| loaded_settings := loaded_settings acc;
           loaded_columnNames := loaded_columnNames acc;
           loaded_columnWidths :=
             assign (removeFirst COLUMN_WIDTH_PREFIX k)
                     (parseInt10 (cellToString value))
                     (loaded_columnWidths acc) |}
      else
        {| loaded_settings :=
             assign k
               (match JSON_parse value with
                | Some v => Parsed v
                | None => Raw value
                end)
               (loaded_settings acc);
           loaded_columnNames := loaded_columnNames acc;
           loaded_columnWidths := loaded_columnWidths acc |}
  | _ =>
      {| loaded_settings :=
           assign (cellToString key) (Raw value) (loaded_settings acc);
         loaded_columnNames := loaded_columnNames acc;
         loaded_columnWidths := loaded_columnWidths acc |}
  end.

(** The state after [data.forEach]; [settings.COLUMN_NAMES] and
    [settings.COLUMN_WIDTHS] are then set to the two tables. *)
Definition loadRows (data : list Row) : Loaded :=
  fold_left loadRow data noneLoaded.

End LoadSettings.

(** [COLUMN_NAMES.X] for the thirteen letters the script reads. *)
Definition columnLetter (k : ColumnKey) : jsstring :=
  match k with
  | KA => utf16 "A" | KB => utf16 "B" | KC => utf16 "C" | KD => utf16 "D"
  | KE => utf16 "E" | KF => utf16 "F" | KG => utf16 "G" | KH => utf16 "H"
  | KI => utf16 "I" | KJ => utf16 "J" | KK => utf16 "K" | KL => utf16 "L"
  | KM => utf16 "M"
  end.

(** The [Settings] the merge reads, taken from the loaded table; a name
    that is not in the table is [undefined]. *)
Definition settingsOf (columnNames : Obj Cell) : Settings :=
  {| COLUMN_NAMES := fun k =>
       match Obj_get (columnLetter k) columnNames with
       | Some c => c
       | None => CUndef
       end |}.

(** The last row of [data] whose key is the string [k], if any. *)
Definition lastRowKeyed (k : jsstring) (data : list Row) : option Row :=
  find (fun row => cellIsStr k (cellAt row 0)) (rev data).

(** A settings sheet as the script expects it. *)
Definition demoSettingsSheet : list Row :=
  [[CStr (utf16 "TARGET_SHEET_NAME"); CStr (utf16 "parts")];
   [CStr (utf16 "COLUMN_NAME_D"); CStr (utf16 "old title")];
   [CStr (utf16 "COLUMN_WIDTH_A"); CNum 30];
   [CStr (utf16 "COLUMN_NAME_D"); CStr (utf16 "category")];
   [CNum 7; CStr (utf16 "seven")];
   [CStr (utf16 "COLUMN_WIDTH_B"); CStr (utf16 "wide")]].

Definition demoNow : Now :=
  {| getFullYear := 2024; getMonth := 0; getDate := 5;
     getHours := 9; getMinutes := 7 |}.

Definition demoParentFolders : list (jsstring * jsstring) :=
  [(utf16 "@archive", utf16 "id-0"); (utf16 "projectA", utf16 "id-1");
   (utf16 "projectB", utf16 "id-2"); (utf16 "projectA", utf16 "id-3")].

(* ------------------------------------------------------------------ *)
(** *** The range in which numbers are exact *)

(** [Number.MAX_SAFE_INTEGER], 2^53 - 1. *)
Definition MAX_SAFE_INTEGER : Z := 9007199254740991.

(** The integers that a double holds exactly and that [String] writes in
    plain decimal digits. *)
Definition safeInteger (z : Z) : Prop :=
  (- MAX_SAFE_INTEGER <= z <= MAX_SAFE_INTEGER)%Z.

(** A cell whose text [cellToString] gives as JavaScript does. *)
Definition exactCell (c : Cell) : Prop :=
  match c with
  | CNum z => safeInteger z
  | _ => True
  end.

(** A result of [parseInt] that is the one of JavaScript: NaN or a safe
    integer. *)
Definition exactNumber (n : option Z) : Prop :=
  match n with
  | Some z => safeInteger z
  | None => True
  end.

(** The number that a string of decimal digits denotes. *)
Definition decimalValue (s : jsstring) : Z :=
  fold_left (fun acc c => (acc * 10 + (Z.of_N c - 48))%Z) s 0%Z.

(* ------------------------------------------------------------------ *)
(** *** What the pattern of the unit number matches *)

(** The word [unit] in any case, as the pattern [unit] with the flag [i]
    matches it: four code units, each the small or the capital letter. *)
Definition unitWord (u : jsstring) : Prop :=
  exists c1 c2 c3 c4,
    u = [c1; c2; c3; c4]
    /\ (c1 = 117 \/ c1 = 85)%N /\ (c2 = 110 \/ c2 = 78)%N
    /\ (c3 = 105 \/ c3 = 73)%N /\ (c4 = 116 \/ c4 = 84)%N.

(** [/(\d+)unit/i] matched at the front of [s] with [ds] as its group: a
    run of one or more digits [0]..[9], then the word. *)
Definition unitAt (s ds : jsstring) : Prop :=
  exists u post,
    s = ds ++ u ++ post
    /\ ds <> []
    /\ forallb isDigit ds = true
    /\ unitWord u.

(** [fileName.match(/(\d+)unit/i)] finds [ds]: the pattern matches behind
    [pre] and at no earlier place of the file name. *)
Definition firstUnit (fileName ds : jsstring) : Prop :=
  exists pre rest,
    fileName = pre ++ rest
    /\ unitAt rest ds
    /\ forall pre' rest' ds',
         fileName = pre' ++ rest' ->
         (List.length pre' < List.length pre)%nat ->
         ~ unitAt rest' ds'.

(** The pattern matches nowhere in the file name. *)
Definition noUnit (fileName : jsstring) : Prop :=
  forall pre rest ds, fileName = pre ++ rest -> ~ unitAt rest ds.

(* ------------------------------------------------------------------ *)
(** *** Further sample data *)

(** The same document in two folders. *)
Definition sameDocFolders : list (jsstring * list File) :=
  [(utf16 "部品リスト_A", [doc0105]); (utf16 "部品リスト_B", [doc0105])].

(** A dialog that is cancelled, and a dialog that throws. *)
Definition cancelledServices : Services :=
  {| selectFolder := Return None;
     getFolderById := fun _ => Return (Some twoFolders);
     getCurrentDateTime := utf16 "20240101-0000";
     fillTemplate := fun _ _ => Return demoUrl;
     formatSheet := fun _ _ => Return tt |}.

Definition brokenDialogServices : Services :=
  {| selectFolder := Throw (utf16 "Exception: Cannot call getUi from this context");
     getFolderById := fun _ => Return (Some twoFolders);
     getCurrentDateTime := utf16 "20240101-0000";
     fillTemplate := fun _ _ => Return demoUrl;
     formatSheet := fun _ _ => Return tt |}.

(* ================================================================== *)
(** * Properties *)

(** ** Strings, sets and maps *)

Lemma str_eqb_eq (a b : jsstring) : str_eqb a b = true <-> a = b.
Proof.
  revert b; induction a as [|x a IH]; intros [|y b]; simpl; split;
    try congruence; try reflexivity.
  - intros H. apply andb_true_iff in H as [Hx Hr].
    apply N.eqb_eq in Hx. apply IH in Hr. congruence.
  - intros H. injection H as -> ->.
    apply andb_true_iff; split; [apply N.eqb_refl | now apply IH].
Qed.

Lemma str_eqb_refl (a : jsstring) : str_eqb a a = true.
Proof. now apply str_eqb_eq. Qed.

Lemma str_eqb_neq (a b : jsstring) : str_eqb a b = false <-> a <> b.
Proof.
  split.
  - intros H E. apply str_eqb_eq in E. congruence.
  - intros H. destruct (str_eqb a b) eqn:E; [|reflexivity].
    apply str_eqb_eq in E. contradiction.
Qed.

Lemma Set_has_app (x : jsstring) (s t : StrSet) :
  Set_has x (s ++ t) = Set_has x s || Set_has x t.
Proof. unfold Set_has. apply existsb_app. Qed.

Lemma Set_has_add (x y : jsstring) (s : StrSet) :
  Set_has x (Set_add y s) = Set_has x s || str_eqb x y.
Proof.
  unfold Set_add. destruct (Set_has y s) eqn:Hy.
  - destruct (str_eqb x y) eqn:E.
    + apply str_eqb_eq in E. subst. rewrite Hy. reflexivity.
    + now rewrite orb_false_r.
  - rewrite Set_has_app. simpl. now rewrite orb_false_r.
Qed.

Lemma Set_add_member (x : jsstring) (s : StrSet) :
  Set_has x (Set_add x s) = true.
Proof. rewrite Set_has_add, str_eqb_refl. apply orb_true_r. Qed.

Lemma Set_add_idem (x : jsstring) (s : StrSet) :
  Set_add x (Set_add x s) = Set_add x s.
Proof.
  unfold Set_add at 1. now rewrite Set_add_member.
Qed.

Lemma Set_incl_add (x : jsstring) (s : StrSet) : Set_incl s (Set_add x s).
Proof. intros y Hy. rewrite Set_has_add, Hy. reflexivity. Qed.

Lemma Set_incl_refl (s : StrSet) : Set_incl s s.
Proof. intros x Hx; exact Hx. Qed.

Lemma Set_incl_trans (s t u : StrSet) :
  Set_incl s t -> Set_incl t u -> Set_incl s u.
Proof. intros H1 H2 x Hx. apply H2, H1, Hx. Qed.

Lemma Set_addAll_cons (x : jsstring) (xs dst : StrSet) :
  Set_addAll (x :: xs) dst = Set_addAll xs (Set_add x dst).
Proof. reflexivity. Qed.

Lemma Set_addAll_app (xs ys dst : StrSet) :
  Set_addAll (xs ++ ys) dst = Set_addAll ys (Set_addAll xs dst).
Proof. unfold Set_addAll. apply fold_left_app. Qed.

Lemma Set_incl_addAll (src dst : StrSet) : Set_incl dst (Set_addAll src dst).
Proof.
  revert dst; induction src as [|x src IH]; intros dst.
  - apply Set_incl_refl.
  - rewrite Set_addAll_cons.
    eapply Set_incl_trans; [apply Set_incl_add | apply IH].
Qed.

Lemma Set_addAll_has_src (src dst : StrSet) (x : jsstring) :
  Set_has x src = true -> Set_has x (Set_addAll src dst) = true.
Proof.
  revert dst; induction src as [|y src IH]; intros dst; simpl; [discriminate|].
  intros H. apply orb_true_iff in H as [H|H].
  - apply (Set_incl_addAll src (Set_add y dst)).
    apply str_eqb_eq in H; subst. apply Set_add_member.
  - now apply IH.
Qed.

(** Adding a de-duplicated copy of [xs] is adding [xs]. *)
Lemma Set_addAll_nested (xs ys dst : StrSet) :
  Set_addAll (Set_addAll xs ys) dst = Set_addAll xs (Set_addAll ys dst).
Proof.
  revert ys; induction xs as [|x xs IH]; intros ys; [reflexivity|].
  rewrite !Set_addAll_cons. unfold Set_add at 1.
  destruct (Set_has x ys) eqn:Hx.
  - rewrite IH. f_equal. unfold Set_add.
    now rewrite (Set_addAll_has_src ys dst x Hx).
  - rewrite IH, Set_addAll_app. reflexivity.
Qed.



Lemma Map_get_set_same (k : jsstring) (v : FileInfo) (m : KeyMap) :
  Map_get k (Map_set k v m) = Some v.
Proof.
  induction m as [|[k' v'] m IH]; simpl.
  - now rewrite str_eqb_refl.
  - destruct (str_eqb k k') eqn:E; simpl; rewrite E; [reflexivity | exact IH].
Qed.

(* ------------------------------------------------------------------ *)
(** ** Normalisation of one document *)

Lemma filteri_from_succ {A : Type} (p : nat -> A -> bool) (q : A -> bool)
  (xs : list A) :
  (forall i x, p (S i) x = q x) ->
  forall i, filteri_from p (S i) xs = filter q xs.
Proof.
  intros Hp. induction xs as [|x xs IH]; intros i; simpl; [reflexivity|].
  rewrite Hp, IH. reflexivity.
Qed.

Lemma mapi_from_succ {A B : Type} (f : nat -> A -> B) (g : A -> B)
  (xs : list A) :
  (forall i x, f (S i) x = g x) ->
  forall i, mapi_from f (S i) xs = map g xs.
Proof.
  intros Hf. induction xs as [|x xs IH]; intros i; simpl; [reflexivity|].
  rewrite Hf, IH. reflexivity.
Qed.

Lemma filterStock_cons (header : Row) (rows : list Row) :
  filterStock (header :: rows)
  = header :: filter (fun row => negb (isExcluded row)) rows.
Proof.
  unfold filterStock, filteri. simpl. f_equal.
  now apply filteri_from_succ.
Qed.

Lemma cellAt_setCell_other (i j : nat) (v : Cell) (row : Row) :
  i <> j -> cellAt (setCell i v row) j = cellAt row j.
Proof.
  unfold cellAt. revert j row; induction i as [|i IH]; intros j row Hij.
  - destruct j as [|j]; [congruence|]. destruct row; simpl; [now destruct j|reflexivity].
  - destruct row as [|c row]; destruct j as [|j]; simpl; try reflexivity.
    + rewrite IH by congruence. now destruct j.
    + apply IH. congruence.
Qed.

Lemma cellAt_formatIfDate_other (i j : nat) (row : Row) :
  i <> j -> cellAt (formatIfDate i row) j = cellAt row j.
Proof.
  intros Hij. unfold formatIfDate.
  destruct (cellAt row i); try reflexivity.
  now apply cellAt_setCell_other.
Qed.

(** The stock-status cell is column 2 of a pruned row and column 3 of the
    finished row; the later steps leave it as it is. *)
Lemma finishRow_stock (category : jsstring) (row : Row) :
  cellAt (finishRow category row) 3 = cellAt row STOCK_STATUS_COLUMN_INDEX.
Proof.
  unfold finishRow.
  rewrite (cellAt_formatIfDate_other (i := DATE_FORMAT_COLUMN_N) (j := 3))
    by discriminate.
  rewrite (cellAt_formatIfDate_other (i := DATE_FORMAT_COLUMN_M) (j := 3))
    by discriminate.
  destruct (str_eqb category KOUNYU || str_eqb category DENKI).
  - change (cellAt (CStr category :: setCell DATE_FORMAT_COLUMN_L (CStr []) row) 3)
      with (cellAt (setCell DATE_FORMAT_COLUMN_L (CStr []) row) 2).
    apply cellAt_setCell_other. discriminate.
  - reflexivity.
Qed.

Section NormalisationFacts.

Variable settings : Settings.

Lemma clearColumnL_cons (category : jsstring) (header : Row) (rows : list Row) :
  clearColumnL category (header :: rows)
  = header
    :: map (fun row =>
              if str_eqb category KOUNYU || str_eqb category DENKI
              then setCell DATE_FORMAT_COLUMN_L (CStr []) row
              else row) rows.
Proof.
  unfold clearColumnL, mapi.
  destruct (str_eqb category KOUNYU || str_eqb category DENKI); simpl.
  - f_equal. now apply mapi_from_succ.
  - now rewrite map_id.
Qed.

Lemma addCategoryColumn_cons (category : jsstring) (header : Row)
  (rows : list Row) :
  addCategoryColumn settings category (header :: rows)
  = (COLUMN_NAMES settings KD :: header) :: map (cons (CStr category)) rows.
Proof.
  unfold addCategoryColumn, mapi. simpl. f_equal. now apply mapi_from_succ.
Qed.

Lemma formatDates_cons (header : Row) (rows : list Row) :
  formatDates (header :: rows)
  = header
    :: map (fun row => formatIfDate DATE_FORMAT_COLUMN_N
                         (formatIfDate DATE_FORMAT_COLUMN_M row)) rows.
Proof.
  unfold formatDates, mapi. simpl. f_equal. now apply mapi_from_succ.
Qed.

(** The shape of a normalised document: the header row with the category
    title in front, then the finished rows that passed the stock filter. *)
Lemma normalise_cons (category : jsstring) (header : Row) (rows : list Row) :
  normalise settings category (header :: rows)
  = (COLUMN_NAMES settings KD :: pruneColumns header)
    :: map (finishRow category)
         (filter (fun row => negb (isExcluded row)) (map pruneColumns rows)).
Proof.
  unfold normalise. simpl map.
  rewrite filterStock_cons, clearColumnL_cons, addCategoryColumn_cons,
    formatDates_cons.
  rewrite !map_map. reflexivity.
Qed.

(** No data row of a normalised document carries the marker. *)
Lemma normalise_data_rows_clean (category : jsstring) (header : Row)
  (rows : list Row) (row : Row) :
  In row (tl (normalise settings category (header :: rows))) ->
  cellIsStr excludeStockStatus (cellAt row 3) = false.
Proof.
  rewrite normalise_cons. simpl tl. intros Hin.
  apply in_map_iff in Hin as [r [<- Hr]].
  apply filter_In in Hr as [_ Hr]. rewrite finishRow_stock.
  unfold isExcluded in Hr. now apply negb_true_iff in Hr.
Qed.

(** C6.  In a normalised document the header row is always kept, with the
    category title in front, whatever its stock-status cell holds; the data
    rows are the finished rows whose stock-status field (column 2 once
    column 0 is dropped and the row is cut to nine columns) is not the
    exclusion marker, so no data row of the output carries the marker in
    that field (column 3 behind the category column), and as many data rows
    remain as the sheet had without the marker. *)
Theorem stock_filter_drops_excluded_rows
  (category : jsstring) (header : Row) (rows : list Row) :
  let out := normalise settings category (header :: rows) in
  hd_error out = Some (COLUMN_NAMES settings KD :: pruneColumns header)
  /\ tl out = map (finishRow category)
                (filter (fun row => negb (isExcluded row))
                        (map pruneColumns rows))
  /\ (forall row, In row (tl out) ->
        cellIsStr excludeStockStatus (cellAt row 3) = false)
  /\ List.length (tl out)
     = List.length (filter (fun raw => negb (isExcluded (pruneColumns raw))) rows).
Proof.
  cbv zeta. split; [|split; [|split]].
  - now rewrite normalise_cons.
  - now rewrite normalise_cons.
  - intros row. apply normalise_data_rows_clean.
  - rewrite normalise_cons. simpl tl. rewrite length_map.
    induction rows as [|r rs IH]; simpl; [reflexivity|].
    destruct (negb (isExcluded (pruneColumns r))); simpl; now rewrite IH.
Qed.

End NormalisationFacts.

(** The filter at work on a sheet whose header cell is the marker itself:
    the header stays, the marked data row goes. *)
Example stock_filter_header_exempt :
  normalise demoSettings KOUNYU
    [headerWithMarker; rawRow 1 "1unit" "001" "社内在庫なし";
     rawRow 2 "1unit" "002" ""]
  = [[CStr (utf16 "category"); CStr (utf16 "Unit"); CStr (utf16 "Part");
      CStr excludeStockStatus; CStr (utf16 "maker"); CNum 2;
      CStr (utf16 "vendor"); CStr (utf16 "note"); CStr (utf16 "finish");
      CDate demoDate];
     outRow "1unit" "002" ""].
Proof. vm_compute. reflexivity. Qed.

(* ------------------------------------------------------------------ *)
(** ** The output name *)

Lemma filenamePartsOf_categoryTokens (p : Parts) :
  filenamePartsOf p = categoryTokens p.
Proof.
  unfold filenamePartsOf, categoryTokens, categorySegment.
  destruct (parts_KOUNYU p), (parts_SEISAKU p), (parts_DENKI p); reflexivity.
Qed.

(** The joined segments are empty exactly when no category has a token:
    every segment starts with its category letter. *)
Lemma base_empty_iff_no_tokens (p : Parts) :
  negb (str_eqb (join UNDERSCORE (categoryTokens p)) []) = anyTokens p.
Proof.
  unfold categoryTokens, categorySegment, anyTokens.
  destruct (parts_KOUNYU p), (parts_SEISAKU p), (parts_DENKI p); reflexivity.
Qed.

Lemma newFileName_spec (jNumberSet : StrSet) (p : Parts) (dateTime : jsstring) :
  newFileName jNumberSet p dateTime
  = outputNameSpec (hd [] jNumberSet) p dateTime.
Proof.
  unfold newFileName, outputNameSpec.
  rewrite filenamePartsOf_categoryTokens, base_empty_iff_no_tokens.
  destruct (anyTokens p) eqn:Hany.
  - now rewrite <- !app_assoc.
  - f_equal. rewrite <- base_empty_iff_no_tokens in Hany.
    apply negb_false_iff, str_eqb_eq in Hany. now rewrite Hany.
Qed.

(** C7.  The output name is the project identifier, then (only if some
    category has a token) an underscore and the category segments joined by
    underscores, then an underscore and the time stamp; a segment is the
    category letter followed by the tokens without their first character
    joined by hyphens, and 電気 contributes its letter alone.  With one 購入
    token 購02 and one 製作 token 製01 the name of project J0000000001 at
    20240101-0000 is J0000000001_購02_製01_20240101-0000. *)
Theorem output_name_assembly :
  (forall (jNumberSet : StrSet) (p : Parts) (dateTime : jsstring),
      newFileName jNumberSet p dateTime
      = outputNameSpec (hd [] jNumberSet) p dateTime)
  /\ newFileName [utf16 "J0000000001"]
       {| parts_KOUNYU := [utf16 "購02"];
          parts_SEISAKU := [utf16 "製01"];
          parts_DENKI := [] |}
       (utf16 "20240101-0000")
     = utf16 "J0000000001_購02_製01_20240101-0000".
Proof.
  split.
  - exact newFileName_spec.
  - vm_compute. reflexivity.
Qed.

(** Several tokens of one category share one letter; 電気 adds no number. *)
Example output_name_joined_tokens :
  newFileName [utf16 "J0000000001"]
    {| parts_KOUNYU := [utf16 "購01"; utf16 "購03"];
       parts_SEISAKU := [];
       parts_DENKI := [utf16 "電"; utf16 "電"] |}
    (utf16 "20240101-0000")
  = utf16 "J0000000001_購01-03_電_20240101-0000".
Proof. vm_compute. reflexivity. Qed.

(* ------------------------------------------------------------------ *)
(** ** One pass of the loop *)

Section LoopFacts.

Variable settings : Settings.

(** The loop body case by case. *)
Ltac loop_cases st f :=
  unfold loopBody;
  destruct (hasValidExtension (getName f)); simpl;
  [ destruct (processExcelFile settings f) as [[? ?]|]; simpl;
    [ match goal with
      | |- context [Map_get ?k (processedFileKeys st)] =>
          destruct (Map_get k (processedFileKeys st)); simpl;
          [ match goal with
            | |- context [num_gt ?a ?b] => destruct (num_gt a b); simpl
            end | ]
      end | ]
  | ].

Lemma loopBody_jNumberSet (st : State) (f : File) :
  jNumberSet (fst (loopBody settings st f))
  = if hasValidExtension (getName f)
       && negb (str_eqb (extractJNumber (getName f)) [])
    then Set_add (extractJNumber (getName f)) (jNumberSet st)
    else jNumberSet st.
Proof.
  loop_cases st f;
    destruct (str_eqb (extractJNumber (getName f)) []); reflexivity.
Qed.

Lemma loopBody_categories (st : State) (f : File) :
  categories (fst (loopBody settings st f))
  = if hasValidExtension (getName f) then
      match processExcelFile settings f with
      | Some (_, category) =>
          if negb (str_eqb category []) then Set_add category (categories st)
          else categories st
      | None => categories st
      end
    else categories st.
Proof. loop_cases st f; reflexivity. Qed.

Lemma loopBody_unitNumberSet (st : State) (f : File) :
  unitNumberSet (fst (loopBody settings st f)) = unitNumberSet st.
Proof. loop_cases st f; reflexivity. Qed.

Lemma runLoop_cons (st : State) (f : File) (files : list File) :
  runLoop settings st (f :: files)
  = runLoop settings (fst (loopBody settings st f)) files.
Proof. reflexivity. Qed.

Lemma runLoop_app (st : State) (files more : list File) :
  runLoop settings st (files ++ more)
  = runLoop settings (runLoop settings st files) more.
Proof. unfold runLoop. apply fold_left_app. Qed.

Lemma projectIdsOf_cons (f : File) (files : list File) :
  projectIdsOf (f :: files)
  = (if hasValidExtension (getName f)
        && negb (str_eqb (extractJNumber (getName f)) [])
     then [extractJNumber (getName f)] else [])
    ++ projectIdsOf files.
Proof.
  unfold projectIdsOf. simpl.
  destruct (hasValidExtension (getName f)); simpl; [|reflexivity].
  destruct (str_eqb (extractJNumber (getName f)) []); reflexivity.
Qed.

Lemma projectIdsOf_app (files more : list File) :
  projectIdsOf (files ++ more) = projectIdsOf files ++ projectIdsOf more.
Proof.
  unfold projectIdsOf. now rewrite filter_app, map_app, filter_app.
Qed.

(** The project identifiers of a folder are added in the order of its
    files. *)
Lemma runLoop_jNumberSet (files : list File) (st : State) :
  jNumberSet (runLoop settings st files)
  = Set_addAll (projectIdsOf files) (jNumberSet st).
Proof.
  revert st; induction files as [|f files IH]; intros st; [reflexivity|].
  rewrite runLoop_cons, IH, loopBody_jNumberSet, projectIdsOf_cons.
  destruct (hasValidExtension (getName f)
            && negb (str_eqb (extractJNumber (getName f)) [])); reflexivity.
Qed.

Lemma runLoop_unitNumberSet (files : list File) (st : State) :
  unitNumberSet (runLoop settings st files) = unitNumberSet st.
Proof.
  revert st; induction files as [|f files IH]; intros st; [reflexivity|].
  now rewrite runLoop_cons, IH, loopBody_unitNumberSet.
Qed.

Lemma loopBody_sets_grow (st : State) (f : File) :
  Set_incl (jNumberSet st) (jNumberSet (fst (loopBody settings st f)))
  /\ Set_incl (unitNumberSet st) (unitNumberSet (fst (loopBody settings st f)))
  /\ Set_incl (categories st) (categories (fst (loopBody settings st f))).
Proof.
  rewrite loopBody_jNumberSet, loopBody_categories, loopBody_unitNumberSet.
  repeat split.
  - destruct (_ && _); [apply Set_incl_add | apply Set_incl_refl].
  - apply Set_incl_refl.
  - destruct (hasValidExtension _); [|apply Set_incl_refl].
    destruct (processExcelFile settings f) as [[? c]|]; [|apply Set_incl_refl].
    destruct (negb _); [apply Set_incl_add | apply Set_incl_refl].
Qed.

Lemma runLoop_sets_grow (files : list File) (st : State) :
  Set_incl (jNumberSet st) (jNumberSet (runLoop settings st files))
  /\ Set_incl (unitNumberSet st) (unitNumberSet (runLoop settings st files))
  /\ Set_incl (categories st) (categories (runLoop settings st files)).
Proof.
  revert st; induction files as [|f files IH]; intros st.
  - repeat split; apply Set_incl_refl.
  - rewrite runLoop_cons.
    destruct (loopBody_sets_grow st f) as (H1 & H2 & H3).
    destruct (IH (fst (loopBody settings st f))) as (I1 & I2 & I3).
    repeat split; eapply Set_incl_trans; eassumption.
Qed.

(** Merging a folder's result into the accumulators of the run keeps every
    member they had. *)
Lemma mergeFolder_sets_grow (acc result : State) :
  Set_incl (jNumberSet acc) (jNumberSet (mergeFolder acc result))
  /\ Set_incl (unitNumberSet acc) (unitNumberSet (mergeFolder acc result))
  /\ Set_incl (categories acc) (categories (mergeFolder acc result)).
Proof. repeat split; apply Set_incl_addAll. Qed.

End LoopFacts.

(* ------------------------------------------------------------------ *)
(** ** The accumulators of the run *)

Section RunFacts.

Variable settings : Settings.

Lemma gather_gatherFrom (folders : list (jsstring * list File)) :
  gather settings folders = gatherFrom settings initialState folders.
Proof. reflexivity. Qed.

Lemma gatherFrom_cons (acc : State) (folder : jsstring * list File)
  (folders : list (jsstring * list File)) :
  gatherFrom settings acc (folder :: folders)
  = gatherFrom settings (mergeFolder acc (processFiles settings (snd folder))) folders.
Proof. reflexivity. Qed.

Lemma gatherFrom_app (acc : State) (folders more : list (jsstring * list File)) :
  gatherFrom settings acc (folders ++ more) = gatherFrom settings (gatherFrom settings acc folders) more.
Proof. unfold gatherFrom. apply fold_left_app. Qed.

Lemma merge_jNumberSet (acc : State) (files : list File) :
  jNumberSet (mergeFolder acc (processFiles settings files))
  = Set_addAll (jNumberSet (runLoop settings initialState files))
               (jNumberSet acc).
Proof. reflexivity. Qed.

Lemma merge_unitNumberSet (acc : State) (files : list File) :
  unitNumberSet (mergeFolder acc (processFiles settings files))
  = Set_addAll (unitNumberSet (runLoop settings initialState files))
               (unitNumberSet acc).
Proof. reflexivity. Qed.

Lemma merge_categories (acc : State) (files : list File) :
  categories (mergeFolder acc (processFiles settings files))
  = Set_addAll (categories (runLoop settings initialState files))
               (categories acc).
Proof. reflexivity. Qed.

Lemma gatherFrom_jNumberSet (folders : list (jsstring * list File))
  (acc : State) :
  jNumberSet (gatherFrom settings acc folders)
  = Set_addAll (projectIdsOf (List.concat (map snd folders))) (jNumberSet acc).
Proof.
  revert acc; induction folders as [|[name files] folders IH]; intros acc.
  - reflexivity.
  - rewrite gatherFrom_cons, IH. simpl List.concat.
    rewrite projectIdsOf_app, Set_addAll_app. f_equal.
    simpl snd. rewrite merge_jNumberSet, runLoop_jNumberSet.
    simpl jNumberSet. now rewrite Set_addAll_nested.
Qed.

Lemma gatherFrom_sets_grow (folders : list (jsstring * list File))
  (acc : State) :
  Set_incl (jNumberSet acc) (jNumberSet (gatherFrom settings acc folders))
  /\ Set_incl (unitNumberSet acc) (unitNumberSet (gatherFrom settings acc folders))
  /\ Set_incl (categories acc) (categories (gatherFrom settings acc folders)).
Proof.
  revert acc; induction folders as [|folder folders IH]; intros acc.
  - repeat split; apply Set_incl_refl.
  - rewrite gatherFrom_cons.
    destruct (mergeFolder_sets_grow acc (processFiles settings (snd folder)))
      as (H1 & H2 & H3).
    destruct (IH (mergeFolder acc (processFiles settings (snd folder))))
      as (I1 & I2 & I3).
    repeat split; eapply Set_incl_trans; eassumption.
Qed.

(** No folder ever adds a unit number: the set stays as it started. *)
Lemma gatherFrom_unitNumberSet (folders : list (jsstring * list File))
  (acc : State) :
  unitNumberSet (gatherFrom settings acc folders) = unitNumberSet acc.
Proof.
  revert acc; induction folders as [|[name files] folders IH]; intros acc.
  - reflexivity.
  - rewrite gatherFrom_cons, IH. simpl snd.
    now rewrite merge_unitNumberSet, runLoop_unitNumberSet.
Qed.

(** A category put into the set by one pass is in the folder's result. *)
Lemma runLoop_category_member (files : list File) (st : State) (f : File)
  (fileData : list Row) (category : jsstring) :
  In f files ->
  hasValidExtension (getName f) = true ->
  processExcelFile settings f = Some (fileData, category) ->
  category <> [] ->
  Set_has category (categories (runLoop settings st files)) = true.
Proof.
  intros Hin Hext Hdata Hne.
  revert st; induction files as [|g files IH]; intros st; [destruct Hin|].
  rewrite runLoop_cons. destruct Hin as [->|Hin]; [|now apply IH].
  apply (runLoop_sets_grow settings files (fst (loopBody settings st f))).
  rewrite loopBody_categories, Hext, Hdata.
  apply str_eqb_neq in Hne. rewrite Hne. apply Set_add_member.
Qed.

Lemma gatherFrom_category_member (folders : list (jsstring * list File))
  (acc : State) (name : jsstring) (files : list File) (f : File)
  (fileData : list Row) (category : jsstring) :
  In (name, files) folders ->
  In f files ->
  hasValidExtension (getName f) = true ->
  processExcelFile settings f = Some (fileData, category) ->
  category <> [] ->
  Set_has category (categories (gatherFrom settings acc folders)) = true.
Proof.
  intros Hfolder Hin Hext Hdata Hne.
  revert acc; induction folders as [|folder folders IH]; intros acc;
    [destruct Hfolder|].
  rewrite gatherFrom_cons. destruct Hfolder as [->|Hfolder]; [|now apply IH].
  apply (gatherFrom_sets_grow folders). simpl snd.
  rewrite merge_categories. apply Set_addAll_has_src.
  eapply runLoop_category_member; eassumption.
Qed.

Lemma Set_addAll_member (src dst : StrSet) (x : jsstring) :
  In x src -> Set_has x (Set_addAll src dst) = true.
Proof.
  intros Hin. apply Set_addAll_has_src. unfold Set_has.
  apply existsb_exists. exists x. split; [exact Hin | apply str_eqb_refl].
Qed.

Lemma projectIdsOf_member (files : list File) (f : File) :
  In f files ->
  hasValidExtension (getName f) = true ->
  extractJNumber (getName f) <> [] ->
  In (extractJNumber (getName f)) (projectIdsOf files).
Proof.
  intros Hin Hext Hne. unfold projectIdsOf.
  apply filter_In. split.
  - apply in_map_iff. exists f. split; [reflexivity|].
    apply filter_In. now split.
  - apply negb_true_iff. now apply str_eqb_neq.
Qed.

(** C4, as amended.  The summary sets never shrink, neither in a pass of
    the folder loop nor when a folder's result is merged into the run; the
    project identifier of every file with an accepted extension, when not
    empty, is in the run's set of project identifiers (whether or not the
    file yields data), and the category of every file that yields data,
    when not empty, is in the run's set of categories, whichever way the
    duplicate check goes. *)
Theorem summary_sets_accumulate :
  (forall st f,
      Set_incl (jNumberSet st) (jNumberSet (fst (loopBody settings st f)))
      /\ Set_incl (unitNumberSet st)
                  (unitNumberSet (fst (loopBody settings st f)))
      /\ Set_incl (categories st) (categories (fst (loopBody settings st f))))
  /\ (forall acc result,
         Set_incl (jNumberSet acc) (jNumberSet (mergeFolder acc result))
         /\ Set_incl (unitNumberSet acc) (unitNumberSet (mergeFolder acc result))
         /\ Set_incl (categories acc) (categories (mergeFolder acc result)))
  /\ (forall folders name files f,
         In (name, files) folders ->
         In f files ->
         hasValidExtension (getName f) = true ->
         extractJNumber (getName f) <> [] ->
         Set_has (extractJNumber (getName f))
                 (jNumberSet (gather settings folders)) = true)
  /\ (forall folders name files f fileData category,
         In (name, files) folders ->
         In f files ->
         hasValidExtension (getName f) = true ->
         processExcelFile settings f = Some (fileData, category) ->
         category <> [] ->
         Set_has category (categories (gather settings folders)) = true).
Proof.
  split; [exact (loopBody_sets_grow settings)|].
  split; [exact mergeFolder_sets_grow|].
  split.
  - intros folders name files f Hfolder Hin Hext Hne.
    rewrite gather_gatherFrom, gatherFrom_jNumberSet.
    apply Set_addAll_member.
    apply in_split in Hfolder as (before & after & ->).
    rewrite map_app, concat_app, projectIdsOf_app. simpl map. simpl List.concat.
    rewrite projectIdsOf_app.
    apply in_or_app; right. apply in_or_app; left.
    now apply projectIdsOf_member.
  - intros folders name files f fileData category Hfolder Hin Hext Hdata Hne.
    rewrite gather_gatherFrom.
    eapply gatherFrom_category_member; eassumption.
Qed.


End RunFacts.

(* ------------------------------------------------------------------ *)
(** ** The duplicate check *)

Lemma num_gt_irrefl (a : option Z) : num_gt a a = false.
Proof. destruct a; simpl; [apply Z.ltb_irrefl | reflexivity]. Qed.

Lemma num_gt_false_of_le (a b : option Z) (d d' : Z) :
  a = Some d -> b = Some d' -> (d <= d')%Z -> num_gt a b = false.
Proof. intros -> -> Hle. simpl. apply Z.ltb_ge. exact Hle. Qed.

Section DedupFacts.

Variable settings : Settings.

(** A file that is read and whose key is registered with a date the
    file's own does not exceed: nothing but the two summary sets can
    change. *)
Lemma loopBody_stale (st : State) (f : File) (fileData : list Row)
  (category : jsstring) (info : FileInfo) :
  hasValidExtension (getName f) = true ->
  processExcelFile settings f = Some (fileData, category) ->
  Map_get (dedupKey f fileData category) (processedFileKeys st) = Some info ->
  num_gt (revisionDate f) (date info) = false ->
  loopBody settings st f
  = ({| combinedDataRows := combinedDataRows st;
        processedFiles := processedFiles st;
        jNumberSet := jNumberSet (fst (loopBody settings st f));
        unitNumberSet := unitNumberSet st;
        categories := categories (fst (loopBody settings st f));
        processedFileKeys := processedFileKeys st;
        filenamePartsByCategory := filenamePartsByCategory st |},
     REJECTED_STALE).
Proof.
  intros Hext Hdata Hget Hgt.
  unfold loopBody at 1 2 3. rewrite Hext, Hdata. cbv beta zeta iota.
  unfold dedupKey, collectUnitNumbersForCheck in Hget. cbn [fst snd] in Hget.
  unfold collectUnitNumbersForCheck. cbv beta zeta iota.
  rewrite Hget. unfold revisionDate in Hgt. rewrite Hgt.
  reflexivity.
Qed.

(** After a pass that read [f], the key of [f] is registered with a date
    that the date of [f] does not exceed. *)
Lemma loopBody_registers (st : State) (f : File) (fileData : list Row)
  (category : jsstring) :
  hasValidExtension (getName f) = true ->
  processExcelFile settings f = Some (fileData, category) ->
  exists info,
    Map_get (dedupKey f fileData category)
            (processedFileKeys (fst (loopBody settings st f))) = Some info
    /\ num_gt (revisionDate f) (date info) = false.
Proof.
  intros Hext Hdata.
  unfold loopBody. rewrite Hext, Hdata. cbv beta zeta iota.
  unfold dedupKey, collectUnitNumbersForCheck. cbn [fst snd].
  fold (revisionDate f).
  change (parseInt (substring0 8 (getName f))) with (revisionDate f).
  destruct (Map_get _ (processedFileKeys st)) as [info|] eqn:Hget.
  - destruct (num_gt (revisionDate f) (date info)) eqn:Hgt; cbn [fst processedFileKeys].
    + eexists. split; [apply Map_get_set_same|]. apply num_gt_irrefl.
    + exists info. now split.
  - cbn [fst processedFileKeys].
    eexists. split; [apply Map_get_set_same|]. apply num_gt_irrefl.
Qed.

(** Inside one folder a file whose key is already registered with an equal
    or greater date is rejected as stale, and the accumulated rows, the registry, the
    token lists and the count of admitted files stay as they were; in
    particular a file that has just been read is rejected when it comes a
    second time, and that pass changes nothing at all. *)
Theorem stale_document_changes_nothing
  (st : State) (f : File) (fileData : list Row) (category : jsstring) :
  hasValidExtension (getName f) = true ->
  processExcelFile settings f = Some (fileData, category) ->
  (forall info d d',
      Map_get (dedupKey f fileData category) (processedFileKeys st) = Some info ->
      revisionDate f = Some d ->
      date info = Some d' ->
      (d <= d')%Z ->
      snd (loopBody settings st f) = REJECTED_STALE
      /\ combinedDataRows (fst (loopBody settings st f)) = combinedDataRows st
      /\ processedFileKeys (fst (loopBody settings st f)) = processedFileKeys st
      /\ filenamePartsByCategory (fst (loopBody settings st f))
         = filenamePartsByCategory st
      /\ processedFiles (fst (loopBody settings st f)) = processedFiles st)
  /\ (let st1 := fst (loopBody settings st f) in
      loopBody settings st1 f = (st1, REJECTED_STALE)).
Proof.
  intros Hext Hdata. split.
  - intros info d d' Hget Hd Hd' Hle.
    rewrite (loopBody_stale st f Hext Hdata Hget
               (num_gt_false_of_le Hd Hd' Hle)).
    repeat split.
  - cbv zeta.
    destruct (loopBody_registers st f Hext Hdata) as (info & Hget & Hgt).
    rewrite (loopBody_stale (fst (loopBody settings st f)) f Hext Hdata Hget Hgt).
    f_equal.
    rewrite loopBody_jNumberSet, loopBody_categories, Hext, Hdata.
    set (st1 := fst (loopBody settings st f)).
    assert (Hj : (if true && negb (str_eqb (extractJNumber (getName f)) [])
                  then Set_add (extractJNumber (getName f)) (jNumberSet st1)
                  else jNumberSet st1) = jNumberSet st1).
    { subst st1. rewrite loopBody_jNumberSet, Hext. simpl andb.
      destruct (negb (str_eqb (extractJNumber (getName f)) []));
        [apply Set_add_idem | reflexivity]. }
    assert (Hc : (if negb (str_eqb category [])
                  then Set_add category (categories st1)
                  else categories st1) = categories st1).
    { subst st1. rewrite loopBody_categories, Hext, Hdata.
      destruct (negb (str_eqb category []));
        [apply Set_add_idem | reflexivity]. }
    rewrite Hj, Hc.
    destruct st1; reflexivity.
Qed.

End DedupFacts.

(* ------------------------------------------------------------------ *)
(** ** The order of the file-name tokens *)

Lemma compareParts_le (x y : jsstring) :
  (compareParts x y <=? 0)%Z = true <-> keyLe x y.
Proof. unfold compareParts, keyLe. rewrite Z.leb_le. lia. Qed.

Lemma insertPart_perm (x : jsstring) (l : list jsstring) :
  Permutation (x :: l) (insertPart x l).
Proof.
  induction l as [|y l IH]; simpl; [apply Permutation_refl|].
  destruct (compareParts x y <=? 0)%Z; [apply Permutation_refl|].
  eapply perm_trans; [apply perm_swap | apply perm_skip, IH].
Qed.

Lemma insertPart_hd (x a : jsstring) (l : list jsstring) :
  keyLe a x -> HdRel keyLe a l -> HdRel keyLe a (insertPart x l).
Proof.
  intros Hax Hl. destruct l as [|y l]; simpl; [now constructor|].
  destruct (compareParts x y <=? 0)%Z; constructor;
    [exact Hax | now inversion Hl].
Qed.

Lemma insertPart_sorted (x : jsstring) (l : list jsstring) :
  Sorted keyLe l -> Sorted keyLe (insertPart x l).
Proof.
  induction 1 as [|y l Hs IH Hhd]; simpl.
  - repeat constructor.
  - destruct (compareParts x y <=? 0)%Z eqn:Hc.
    + constructor; [now constructor|]. constructor. now apply compareParts_le.
    + constructor; [exact IH|]. apply insertPart_hd; [|exact Hhd].
      unfold compareParts in Hc. apply Z.leb_gt in Hc.
      unfold keyLe. lia.
Qed.

(** Among the tokens of one key the new one comes first: it is put behind
    tokens of a smaller key only. *)
Lemma insertPart_filter (k : Z) (x : jsstring) (l : list jsstring) :
  filter (fun t => (sortKey t =? k)%Z) (insertPart x l)
  = filter (fun t => (sortKey t =? k)%Z) (x :: l).
Proof.
  induction l as [|y l IH]; [reflexivity|].
  simpl insertPart. destruct (compareParts x y <=? 0)%Z eqn:Hc; [reflexivity|].
  unfold compareParts in Hc. apply Z.leb_gt in Hc.
  simpl filter in *. rewrite IH.
  destruct (sortKey x =? k)%Z eqn:Hx, (sortKey y =? k)%Z eqn:Hy; try reflexivity.
  apply Z.eqb_eq in Hx, Hy. lia.
Qed.

Lemma sortParts_stable (l : list jsstring) : stableSortOf l (sortParts l).
Proof.
  unfold stableSortOf. induction l as [|x l (Hs & Hp & Hf)]; simpl.
  - repeat split; constructor.
  - repeat split.
    + now apply insertPart_sorted.
    + eapply perm_trans; [apply perm_skip, Hp | apply insertPart_perm].
    + intros k. rewrite insertPart_filter. simpl. now rewrite Hf.
Qed.

Lemma sortKey_no_digits (t : jsstring) : digitsOnly t = [] -> sortKey t = 0%Z.
Proof. intros H. unfold sortKey. now rewrite H. Qed.

Section TokenFacts.

Variable settings : Settings.

Lemma gatherFrom_parts (folders : list (jsstring * list File)) (acc : State) :
  let partsOf (sel : Parts -> list jsstring) (st : State) :=
    sel (filenamePartsByCategory st) in
  forall sel,
    (sel = parts_KOUNYU \/ sel = parts_SEISAKU \/ sel = parts_DENKI) ->
    partsOf sel (gatherFrom settings acc folders)
    = partsOf sel acc
      ++ List.concat
           (map (fun folder => partsOf sel (processFiles settings (snd folder)))
                folders).
Proof.
  cbv zeta. intros sel Hsel.
  revert acc; induction folders as [|folder folders IH]; intros acc.
  - simpl. now rewrite app_nil_r.
  - rewrite gatherFrom_cons, IH. simpl map. simpl List.concat.
    rewrite app_assoc. f_equal.
    destruct Hsel as [-> | [-> | ->]]; reflexivity.
Qed.

(** C5, as amended.  At the end of each folder the tokens of every
    category are sorted ascending by the number read from their digits,
    tokens of equal number keeping their order (for numbers of at most 15
    digits, which [parseInt] reads exactly): 購03, 購01, 購10 become 購01,
    購03, 購10, and a token without digits counts as 0.  The list of the
    run is the lists of the folders one after the other, in the order of
    the folders. *)
Theorem tokens_sorted_per_folder (files : list File) :
  exactParts (filenamePartsByCategory (runLoop settings initialState files)) ->
  let unsorted := filenamePartsByCategory (runLoop settings initialState files) in
  let sorted := filenamePartsByCategory (processFiles settings files) in
  stableSortOf (parts_KOUNYU unsorted) (parts_KOUNYU sorted)
  /\ stableSortOf (parts_SEISAKU unsorted) (parts_SEISAKU sorted)
  /\ stableSortOf (parts_DENKI unsorted) (parts_DENKI sorted)
  /\ sortParts [utf16 "購03"; utf16 "購01"; utf16 "購10"]
     = [utf16 "購01"; utf16 "購03"; utf16 "購10"]
  /\ (forall t, digitsOnly t = [] -> sortKey t = 0%Z)
  /\ (forall folders,
         parts_KOUNYU (filenamePartsByCategory (gather settings folders))
         = List.concat
             (map (fun folder =>
                     parts_KOUNYU
                       (filenamePartsByCategory (processFiles settings (snd folder))))
                  folders)
         /\ parts_SEISAKU (filenamePartsByCategory (gather settings folders))
            = List.concat
                (map (fun folder =>
                        parts_SEISAKU
                          (filenamePartsByCategory (processFiles settings (snd folder))))
                     folders)
         /\ parts_DENKI (filenamePartsByCategory (gather settings folders))
            = List.concat
                (map (fun folder =>
                        parts_DENKI
                          (filenamePartsByCategory (processFiles settings (snd folder))))
                     folders)).
Proof.
  intros _. cbv zeta.
  split; [apply sortParts_stable|].
  split; [apply sortParts_stable|].
  split; [apply sortParts_stable|].
  split; [vm_compute; reflexivity|].
  split; [exact sortKey_no_digits|].
  intros folders. rewrite gather_gatherFrom.
  repeat split;
    apply (gatherFrom_parts folders initialState); auto.
Qed.

End TokenFacts.

(* ------------------------------------------------------------------ *)
(** ** The result of a run *)

Section DriverFacts.

Variable settings : Settings.
Variable services : Services.

Lemma tryBlock_returns_success (r : RunResult) :
  tryBlock settings services = Return r ->
  exists url n rows, r = Success url n rows.
Proof.
  unfold tryBlock, createSpreadsheet, throwError.
  destruct (selectFolder services) as [[[|c id]|]|e]; simpl; try discriminate.
  destruct (getFolderById services (c :: id)) as [[subFolders|]|e]; simpl;
    try discriminate.
  destruct (List.length (filter _ subFolders) =? 0)%nat; try discriminate.
  destruct (processedFiles _ =? 0)%nat; try discriminate.
  destruct (List.length (combinedDataRows _) =? 0)%nat; try discriminate.
  destruct (fillTemplate services _ _) as [url|e]; simpl; try discriminate.
  destruct (formatSheet services url _) as [[]|e]; simpl; try discriminate.
  intros H. injection H as <-. now eauto.
Qed.

(** C9.  Every way the run can fail comes back as a failure with the
    error's text, never as an exception, and the one way left is a success
    with the URL, the number of admitted files and the number of merged
    rows.  An exception of the folder dialog or of the folder lookup gives
    the failure with that error; no folder chosen and no folder found give
    the failure with their message; with a folder chosen and found, no
    sub-folder passing the name filter, no admitted file and no merged row
    each give the failure with their message, and an error of the sheet
    services gives the failure with that error. *)
Theorem fatal_errors_are_returned :
  (forall e, selectFolder services = Throw e ->
             combineExcelSheets settings services = Failure e)
  /\ (selectFolder services = Return None
      \/ selectFolder services = Return (Some []) ->
      combineExcelSheets settings services
      = Failure (errorToString "フォルダが選択されませんでした"))
  /\ (forall id,
         selectFolder services = Return (Some id) ->
         id <> [] ->
         (forall e, getFolderById services id = Throw e ->
                    combineExcelSheets settings services = Failure e)
         /\ (getFolderById services id = Return None ->
             combineExcelSheets settings services
             = Failure (errorToString "指定されたフォルダが見つかりません"))
         /\ (forall subFolders,
         getFolderById services id = Return (Some subFolders) ->
         let targetFolders :=
           filter (fun sub => isTargetFolder (fst sub)) subFolders in
         let acc := gather settings targetFolders in
         let name :=
           newFileName (jNumberSet acc) (filenamePartsByCategory acc)
                       (getCurrentDateTime services) in
         (targetFolders = [] ->
          combineExcelSheets settings services
          = Failure (errorToString "部品リストを含むフォルダが見つかりませんでした"))
         /\ (targetFolders <> [] ->
             processedFiles acc = 0%nat ->
             combineExcelSheets settings services
             = Failure (errorToString "処理可能なファイルが見つかりませんでした"))
         /\ (targetFolders <> [] ->
             processedFiles acc <> 0%nat ->
             combinedDataRows acc = [] ->
             combineExcelSheets settings services
             = Failure (errorToString "有効なデータが見つかりませんでした"))
         /\ (targetFolders <> [] ->
             processedFiles acc <> 0%nat ->
             combinedDataRows acc <> [] ->
             (forall e,
                 fillTemplate services name
                   (finalDataOf settings (combinedDataRows acc)) = Throw e ->
                 combineExcelSheets settings services = Failure e)
             /\ (forall url e,
                    fillTemplate services name
                      (finalDataOf settings (combinedDataRows acc)) = Return url ->
                    formatSheet services url (combinedDataRows acc) = Throw e ->
                    combineExcelSheets settings services = Failure e)
             /\ (forall url,
                    fillTemplate services name
                      (finalDataOf settings (combinedDataRows acc)) = Return url ->
                    formatSheet services url (combinedDataRows acc) = Return tt ->
                    combineExcelSheets settings services
                    = Success url (processedFiles acc)
                              (List.length (combinedDataRows acc)))))).
Proof.
  split; [|split].
  - intros e He. unfold combineExcelSheets, tryBlock. now rewrite He.
  - intros [Hsel|Hsel]; unfold combineExcelSheets, tryBlock; now rewrite Hsel.
  - intros id Hsel Hid.
    destruct id as [|c id]; [congruence|].
    split; [|split].
    + intros e Hget. unfold combineExcelSheets, tryBlock.
      rewrite Hsel. cbn [bind]. now rewrite Hget.
    + intros Hget. unfold combineExcelSheets, tryBlock.
      rewrite Hsel. cbn [bind]. now rewrite Hget.
    + intros subFolders Hget. cbv zeta.
    unfold combineExcelSheets, tryBlock. rewrite Hsel.
    cbn [bind]. rewrite Hget. cbn [bind].
    remember (filter (fun sub => isTargetFolder (fst sub)) subFolders)
      as targetFolders eqn:Htargets.
    remember (gather settings targetFolders) as acc eqn:Hacc.
    clear Htargets Hacc.
    destruct targetFolders as [|folder targetFolders].
    { split; [intros _; reflexivity|].
      split; [intros Hne; now contradiction Hne|].
      split; intros Hne; now contradiction Hne. }
    cbn [List.length Nat.eqb].
    split; [intros Hnil; discriminate Hnil|].
    destruct (processedFiles acc) as [|n] eqn:Hfiles.
    { split; [intros _ _; reflexivity|].
      split; intros _ Hne; now contradiction Hne. }
    cbn [Nat.eqb].
    split; [intros _ Hzero; discriminate Hzero|].
    destruct (combinedDataRows acc) as [|row rows] eqn:Hrows.
    { split; [intros _ _ _; reflexivity|].
      intros _ _ Hne; now contradiction Hne. }
    unfold createSpreadsheet. cbn [List.length Nat.eqb].
    split; [intros _ _ Hnil; discriminate Hnil|].
    intros _ _ _. split; [|split].
    * intros e He. rewrite He. reflexivity.
    * intros url e Hfill Hfmt. rewrite Hfill. cbn [bind]. rewrite Hfmt.
      reflexivity.
    * intros url Hfill Hfmt. rewrite Hfill. cbn [bind]. rewrite Hfmt.
      reflexivity.
Qed.

End DriverFacts.

(* ------------------------------------------------------------------ *)
(** ** What a folder and a run leave in the merged rows *)

Lemma filter_keeps_rows_without_name (name : jsstring) (rows : list Row) :
  (forall row, In row rows -> rowIncludes name row = false) ->
  filter (fun row => negb (rowIncludes name row)) rows = rows.
Proof.
  induction rows as [|row rows IH]; intros Hnone; [reflexivity|].
  simpl. rewrite (Hnone row (or_introl eq_refl)). simpl. f_equal.
  apply IH. intros r Hr. apply Hnone. now right.
Qed.

Section MergedRowsFacts.

Variable settings : Settings.

(** What [processExcelFile] returns is [normalise] of the rows down to the
    last one with a value in column B, of which there is at least one. *)
Lemma processExcelFile_some (f : File) (fileData : list Row)
  (category : jsstring) :
  processExcelFile settings f = Some (fileData, category) ->
  exists sheet header rows,
    targetSheet f = Some sheet
    /\ firstn (findLastDataRow sheet) sheet = header :: rows
    /\ category = determineCategory (getName f)
    /\ fileData = normalise settings category (header :: rows).
Proof.
  unfold processExcelFile.
  destruct (targetSheet f) as [sheet|]; [|discriminate].
  destruct (findLastDataRow sheet) as [|n] eqn:Hlast; [discriminate|].
  intros H. injection H as <- <-.
  destruct sheet as [|header sheet]; [discriminate|].
  exists (header :: sheet), header, (firstn n sheet).
  rewrite Hlast. repeat split.
Qed.

(** The stock filter, for the rows [processExcelFile] returns. *)
Lemma processExcelFile_no_excluded_rows (f : File) (fileData : list Row)
  (category : jsstring) (row : Row) :
  processExcelFile settings f = Some (fileData, category) ->
  In row (tl fileData) ->
  cellIsStr excludeStockStatus (cellAt row 3) = false.
Proof.
  intros Hdata Hin.
  apply processExcelFile_some in Hdata
    as (sheet & header & rows & _ & _ & _ & ->).
  now apply (normalise_data_rows_clean settings category header rows).
Qed.

(** A newer file of a registered key: the rows that hold the name of the
    registered file in a cell go, the data rows of the new file come. *)
Lemma loopBody_supersedes (st : State) (f : File) (fileData : list Row)
  (category : jsstring) (info : FileInfo) :
  hasValidExtension (getName f) = true ->
  processExcelFile settings f = Some (fileData, category) ->
  Map_get (dedupKey f fileData category) (processedFileKeys st) = Some info ->
  num_gt (revisionDate f) (date info) = true ->
  snd (loopBody settings st f) = ACCEPTED_SUPERSEDES
  /\ combinedDataRows (fst (loopBody settings st f))
     = filter (fun row => negb (rowIncludes (getName (file info)) row))
              (combinedDataRows st)
       ++ tl fileData.
Proof.
  intros Hext Hdata Hget Hgt.
  unfold loopBody. rewrite Hext, Hdata. cbv beta zeta iota.
  unfold dedupKey, collectUnitNumbersForCheck in Hget. cbn [fst snd] in Hget.
  unfold collectUnitNumbersForCheck. cbv beta zeta iota.
  rewrite Hget. unfold revisionDate in Hgt. rewrite Hgt.
  split; reflexivity.
Qed.

(** So when no accumulated row holds that name, every row stays. *)
Lemma loopBody_supersedes_keeps_rows (st : State) (f : File)
  (fileData : list Row) (category : jsstring) (info : FileInfo) :
  hasValidExtension (getName f) = true ->
  processExcelFile settings f = Some (fileData, category) ->
  Map_get (dedupKey f fileData category) (processedFileKeys st) = Some info ->
  num_gt (revisionDate f) (date info) = true ->
  (forall row, In row (combinedDataRows st) ->
               rowIncludes (getName (file info)) row = false) ->
  combinedDataRows (fst (loopBody settings st f))
  = combinedDataRows st ++ tl fileData.
Proof.
  intros Hext Hdata Hget Hgt Hnone.
  destruct (loopBody_supersedes st f Hext Hdata Hget Hgt) as [_ ->].
  now rewrite filter_keeps_rows_without_name.
Qed.

(** A file of a new key: the whole of it when it is the first file
    admitted in the folder, its data rows behind the others otherwise. *)
Lemma loopBody_new (st : State) (f : File) (fileData : list Row)
  (category : jsstring) :
  hasValidExtension (getName f) = true ->
  processExcelFile settings f = Some (fileData, category) ->
  Map_get (dedupKey f fileData category) (processedFileKeys st) = None ->
  snd (loopBody settings st f) = ACCEPTED_NEW
  /\ combinedDataRows (fst (loopBody settings st f))
     = (if (processedFiles st =? 0)%nat then fileData
        else combinedDataRows st ++ tl fileData)
  /\ processedFiles (fst (loopBody settings st f)) = S (processedFiles st).
Proof.
  intros Hext Hdata Hget.
  unfold loopBody. rewrite Hext, Hdata. cbv beta zeta iota.
  unfold dedupKey, collectUnitNumbersForCheck in Hget. cbn [fst snd] in Hget.
  unfold collectUnitNumbersForCheck. cbv beta zeta iota.
  rewrite Hget. repeat split.
Qed.

(** The rows and the count of the run are those of the folders, one
    after the other: each folder comes with the header row of its first
    admitted file. *)
Lemma gatherFrom_rows (folders : list (jsstring * list File)) (acc : State) :
  combinedDataRows (gatherFrom settings acc folders)
  = combinedDataRows acc
    ++ List.concat
         (map (fun folder => combinedDataRows (processFiles settings (snd folder)))
              folders)
  /\ processedFiles (gatherFrom settings acc folders)
     = processedFiles acc
       + list_sum
           (map (fun folder => processedFiles (processFiles settings (snd folder)))
                folders).
Proof.
  revert acc; induction folders as [|folder folders IH]; intros acc.
  - simpl. now rewrite app_nil_r, Nat.add_0_r.
  - rewrite gatherFrom_cons. destruct (IH (mergeFolder acc (processFiles settings (snd folder)))) as [-> ->].
    simpl. now rewrite app_assoc, Nat.add_assoc.
Qed.

End MergedRowsFacts.

(* ------------------------------------------------------------------ *)
(** ** The same document twice *)

Section SameDocument.

Variable settings : Settings.

(** C8.  The registry of keys is the folder's own.  A document that comes
    twice in one folder is admitted once: the first pass admits it, the
    second is rejected as stale, and the folder counts one file and holds
    its rows once.  The same document in two folders is admitted in each:
    the run counts two files and holds its rows, header included, twice. *)
Theorem same_document_admitted_in_each_folder
  (f : File) (fileData : list Row) (category : jsstring) (a b : jsstring) :
  hasValidExtension (getName f) = true ->
  processExcelFile settings f = Some (fileData, category) ->
  (snd (loopBody settings initialState f) = ACCEPTED_NEW
   /\ snd (loopBody settings (fst (loopBody settings initialState f)) f)
      = REJECTED_STALE
   /\ processedFiles (processFiles settings [f; f]) = 1%nat
   /\ combinedDataRows (processFiles settings [f; f]) = fileData)
  /\ (processedFiles (gather settings [(a, [f]); (b, [f])]) = 2%nat
      /\ combinedDataRows (gather settings [(a, [f]); (b, [f])])
         = fileData ++ fileData).
Proof.
  intros Hext Hdata.
  destruct (@loopBody_new settings initialState f fileData category Hext Hdata
              eq_refl) as (Hout & Hrows & Hcount).
  cbn [initialState processedFiles Nat.eqb] in Hrows, Hcount.
  destruct (loopBody_registers settings initialState f Hext Hdata)
    as (info & Hget & Hgt).
  pose proof (loopBody_stale settings (fst (loopBody settings initialState f))
                f Hext Hdata Hget Hgt) as Hstale.
  assert (Hone : processedFiles (processFiles settings [f]) = 1%nat
                 /\ combinedDataRows (processFiles settings [f]) = fileData).
  { unfold processFiles, runLoop. cbn [fold_left sortState processedFiles
                                      combinedDataRows].
    now split. }
  split.
  - split; [exact Hout|]. split; [now rewrite Hstale|].
    unfold processFiles, runLoop.
    cbn [fold_left sortState processedFiles combinedDataRows].
    rewrite Hstale. cbn [fst processedFiles combinedDataRows]. now split.
  - destruct Hone as [Hn Hr].
    destruct (gatherFrom_rows settings [(a, [f]); (b, [f])] initialState)
      as [Hrows2 Hcount2].
    rewrite <- gather_gatherFrom in Hrows2, Hcount2.
    rewrite Hrows2, Hcount2. cbn [map snd List.concat list_sum].
    rewrite Hn, Hr. cbn [initialState combinedDataRows processedFiles].
    rewrite app_nil_r. now split.
Qed.

End SameDocument.

Lemma same_document_witness :
  processedFiles (gather demoSettings sameDocFolders) = 2%nat
  /\ combinedDataRows (gather demoSettings sameDocFolders)
     = (outHeader :: rows0105) ++ (outHeader :: rows0105)
  /\ processedFiles (processFiles demoSettings [doc0105; doc0105]) = 1%nat.
Proof.
  assert (Hext : hasValidExtension (getName doc0105) = true)
    by (vm_compute; reflexivity).
  assert (Hdata : processExcelFile demoSettings doc0105
                  = Some (outHeader :: rows0105, KOUNYU))
    by (vm_compute; reflexivity).
  destruct (same_document_admitted_in_each_folder demoSettings doc0105
              (utf16 "部品リスト_A") (utf16 "部品リスト_B") Hext Hdata)
    as ((_ & _ & Hone & _) & Htwo & Hrows).
  split; [exact Htwo|]. split; [exact Hrows|exact Hone].
Defined.

(** Dropping column 0 and cutting to nine columns: a row of twelve columns
    comes out with nine. *)
Lemma pruneColumns_length (row : Row) :
  List.length (pruneColumns row) = Nat.min 9 (List.length row - 1).
Proof.
  unfold pruneColumns, REQUIRED_COLUMN_COUNT.
  rewrite length_firstn. destruct row; simpl; [reflexivity|].
  now rewrite Nat.sub_0_r.
Qed.

Lemma nth_error_tl (A : Type) (l : list A) (i : nat) :
  nth_error (tl l) i = nth_error l (S i).
Proof. destruct l; [now destruct i|reflexivity]. Qed.

(** Column pruning drops column 0 and keeps the nine columns that follow:
    cell [i] of the result is cell [i + 1] of the row for [i] below 9, and
    there is nothing beyond; so a row of twelve columns loses its first
    column and its last two. *)
Lemma pruneColumns_twelve (row : Row) :
  (forall i,
      nth_error (pruneColumns row) i
      = if (i <? 9)%nat then nth_error row (S i) else None)
  /\ List.length (pruneColumns row) = Nat.min 9 (List.length row - 1)
  /\ (List.length row = 12%nat ->
      exists c0 kept c10 c11,
        row = c0 :: kept ++ [c10; c11]
        /\ List.length kept = 9%nat
        /\ pruneColumns row = kept).
Proof.
  split; [|split].
  - intros i. unfold pruneColumns, REQUIRED_COLUMN_COUNT.
    rewrite nth_error_firstn, nth_error_tl. reflexivity.
  - apply pruneColumns_length.
  - intros Hlen. unfold pruneColumns, REQUIRED_COLUMN_COUNT.
    do 12 (destruct row as [|? row]; [discriminate Hlen|]).
    destruct row; [|discriminate Hlen].
    exists c, [c0; c1; c2; c3; c4; c5; c6; c7; c8], c9, c10.
    repeat split.
Qed.

(* ------------------------------------------------------------------ *)
(** ** The sample documents, run through the pipeline *)

Example keys_of_samples :
  extractJNumber (getName doc0105) = utf16 "J0000000001"
  /\ determineCategory (getName doc0105) = KOUNYU
  /\ processFilename (getName doc0105) KOUNYU = utf16 "購01"
  /\ processFilename (getName docOtherProject) SEISAKU = utf16 "製10"
  /\ processFilename (utf16 "20240105_J0000000001_電気_2unit.xlsx") DENKI = DEN
  /\ processFilename (getName docPlain) [] = []
  /\ revisionDate doc0105 = Some 20240105%Z
  /\ revisionDate doc0110 = Some 20240110%Z
  /\ hasValidExtension (getName docOtherProject) = true
  /\ hasValidExtension (utf16 "20240105_J0000000001_購入_1unit.pdf") = false.
Proof. vm_compute. repeat split. Qed.

Example sample_documents_read :
  processExcelFile demoSettings doc0105 = Some (outHeader :: rows0105, KOUNYU)
  /\ processExcelFile demoSettings doc0110 = Some (outHeader :: rows0110, KOUNYU)
  /\ processExcelFile demoSettings docOtherProject
     = Some ([outHeader; rowOtherProject], SEISAKU)
  /\ dedupKey doc0105 (outHeader :: rows0105) KOUNYU
     = utf16 "J0000000001_購入_1"
  /\ dedupKey doc0110 (outHeader :: rows0110) KOUNYU
     = utf16 "J0000000001_購入_1".
Proof. vm_compute. repeat split. Qed.

(** C1.  One folder holding both revisions, the older one first: the newer
    file supersedes it, and the rows of the older file are still there,
    because no row holds the name of the file it came from.  With the newer
    file first the older one is rejected.  In two folders both files are
    admitted. *)
Theorem superseded_rows_survive :
  snd (loopBody demoSettings
         (fst (loopBody demoSettings initialState doc0105)) doc0110)
  = ACCEPTED_SUPERSEDES
  /\ combinedDataRows (processFiles demoSettings [doc0105; doc0110])
     = outHeader :: rows0105 ++ rows0110
  /\ combinedDataRows (processFiles demoSettings [doc0110; doc0105])
     = outHeader :: rows0110
  /\ combinedDataRows (gather demoSettings twoFolders)
     = (outHeader :: rows0105) ++ (outHeader :: rows0110).
Proof. vm_compute. repeat split. Qed.

(** C2.  The scenario of two folders, the first with the file of 20240105
    (three valid rows and an excluded one), the second with the file of
    20240110 (two rows): the merged rows are a header and three rows, then
    a header and two rows; two files are counted and [totalRows] is 7. *)
Theorem two_folder_scenario :
  combinedDataRows (gather demoSettings twoFolders)
  = (outHeader :: rows0105) ++ (outHeader :: rows0110)
  /\ processedFiles (gather demoSettings twoFolders) = 2%nat
  /\ combineExcelSheets demoSettings (demoServices twoFolders)
     = Success demoUrl 2 7.
Proof. vm_compute. repeat split. Qed.

(** C3.  Two folders with one file each: each folder's first file brings
    its header row, so the merged rows hold two header rows, and the second
    one is numbered and written as a data row of the output.  Within one
    folder only the first file brings the header. *)
Theorem header_repeats_per_folder :
  combinedDataRows (gather demoSettings headerFolders)
  = (outHeader :: rows0105) ++ [outHeader; rowOtherProject]
  /\ nth_error (finalDataOf demoSettings
                  (combinedDataRows (gather demoSettings headerFolders))) 4
     = Some ([CStr []; CStr []; CNum 4] ++ outHeader)
  /\ combinedDataRows (processFiles demoSettings [doc0105; docOtherProject])
     = (outHeader :: rows0105) ++ [rowOtherProject].
Proof. vm_compute. repeat split. Qed.

(** C4 as stated fails: the unit digits of an admitted file are not in
    the set of unit numbers, which stays empty through the run, and a file
    name without project identifier or category adds no empty string to
    the other two sets. *)
Lemma summary_sets_counterexample :
  snd (loopBody demoSettings initialState doc0105) = ACCEPTED_NEW
  /\ fst (collectUnitNumbersForCheck (outHeader :: rows0105) KOUNYU) = utf16 "1"
  /\ Set_has (utf16 "1")
       (unitNumberSet (fst (loopBody demoSettings initialState doc0105))) = false
  /\ unitNumberSet (gather demoSettings twoFolders) = []
  /\ snd (loopBody demoSettings initialState docPlain) = ACCEPTED_NEW
  /\ extractJNumber (getName docPlain) = []
  /\ Set_has [] (jNumberSet (fst (loopBody demoSettings initialState docPlain)))
     = false
  /\ determineCategory (getName docPlain) = []
  /\ Set_has [] (categories (fst (loopBody demoSettings initialState docPlain)))
     = false.
Proof. vm_compute. repeat split. Qed.

(** C5 as stated fails: with unit 3 in the first folder and unit 1 in the
    second, the list of the run has 購03 before 購01. *)
Lemma tokens_unsorted_across_folders :
  parts_KOUNYU (filenamePartsByCategory (gather demoSettings tokenFolders))
  = [utf16 "購03"; utf16 "購01"]
  /\ ~ Sorted keyLe
       (parts_KOUNYU (filenamePartsByCategory (gather demoSettings tokenFolders))).
Proof.
  split; [vm_compute; reflexivity|].
  intros Hsorted.
  assert (Hparts :
    parts_KOUNYU (filenamePartsByCategory (gather demoSettings tokenFolders))
    = [utf16 "購03"; utf16 "購01"]) by (vm_compute; reflexivity).
  rewrite Hparts in Hsorted.
  apply Sorted_inv in Hsorted as [_ Hhd].
  apply HdRel_inv in Hhd. vm_compute in Hhd. now apply Hhd.
Qed.

(** Two projects in one run, and a run without any project identifier. *)
Example names_of_sample_runs :
  jNumberSet (gather demoSettings headerFolders)
  = [utf16 "J0000000001"; utf16 "J0000000002"]
  /\ newFileName (jNumberSet (gather demoSettings headerFolders))
       (filenamePartsByCategory (gather demoSettings headerFolders))
       (utf16 "20240101-0000")
     = utf16 "J0000000001_購01_製10_20240101-0000"
  /\ newFileName
       (jNumberSet (gather demoSettings [(utf16 "部品リスト", [docPlain])]))
       (filenamePartsByCategory
          (gather demoSettings [(utf16 "部品リスト", [docPlain])]))
       (utf16 "20240101-0000")
     = utf16 "_20240101-0000".
Proof. vm_compute. repeat split. Qed.

(** Within one folder the tokens 購03, 購01, 購10 come out in the order of
    their numbers. *)
Example tokens_sorted_in_folder :
  parts_KOUNYU (filenamePartsByCategory (runLoop demoSettings initialState tokenFolder))
  = [utf16 "購03"; utf16 "購01"; utf16 "購10"]
  /\ parts_KOUNYU (filenamePartsByCategory (processFiles demoSettings tokenFolder))
     = [utf16 "購01"; utf16 "購03"; utf16 "購10"]
  /\ sortParts [utf16 "購03"; utf16 "購"; utf16 "購01"; utf16 "購10"]
     = [utf16 "購"; utf16 "購01"; utf16 "購03"; utf16 "購10"].
Proof. vm_compute. repeat split. Qed.

(* ------------------------------------------------------------------ *)
(** ** The general statements at the sample documents *)

Lemma stock_filter_witness :
  In (outRow "1unit" "003" "")
     (tl (normalise demoSettings KOUNYU
            [headerRaw; rawRow 2 "1unit" "002" "社内在庫なし";
             rawRow 3 "1unit" "003" ""]))
  /\ cellIsStr excludeStockStatus (cellAt (outRow "1unit" "003" "") 3) = false.
Proof.
  assert (Hin : In (outRow "1unit" "003" "")
                   (tl (normalise demoSettings KOUNYU
                          [headerRaw; rawRow 2 "1unit" "002" "社内在庫なし";
                           rawRow 3 "1unit" "003" ""]))).
  { vm_compute. left. reflexivity. }
  split; [exact Hin|].
  exact (proj1 (proj2 (proj2
           (stock_filter_drops_excluded_rows demoSettings KOUNYU headerRaw
              [rawRow 2 "1unit" "002" "社内在庫なし"; rawRow 3 "1unit" "003" ""])))
           _ Hin).
Defined.

Lemma summary_sets_witness :
  Set_has (utf16 "J0000000001") (jNumberSet (gather demoSettings twoFolders))
  = true
  /\ Set_has KOUNYU (categories (gather demoSettings twoFolders)) = true.
Proof.
  destruct (summary_sets_accumulate demoSettings) as (_ & _ & Hid & Hcat).
  split.
  - apply (Hid twoFolders (utf16 "部品リスト_B") [doc0110] doc0110).
    + right; left; reflexivity.
    + left; reflexivity.
    + vm_compute; reflexivity.
    + vm_compute; discriminate.
  - apply (Hcat twoFolders (utf16 "部品リスト_B") [doc0110] doc0110
                (outHeader :: rows0110) KOUNYU).
    + right; left; reflexivity.
    + left; reflexivity.
    + vm_compute; reflexivity.
    + vm_compute; reflexivity.
    + vm_compute; discriminate.
Defined.

Lemma tokens_sorted_witness :
  stableSortOf
    (parts_KOUNYU
       (filenamePartsByCategory (runLoop demoSettings initialState tokenFolder)))
    (parts_KOUNYU
       (filenamePartsByCategory (processFiles demoSettings tokenFolder))).
Proof.
  refine (proj1 (tokens_sorted_per_folder demoSettings tokenFolder _)).
  vm_compute. repeat split; repeat constructor.
Defined.

Lemma stale_document_witness :
  snd (loopBody demoSettings
         (fst (loopBody demoSettings initialState doc0110)) doc0105)
  = REJECTED_STALE
  /\ combinedDataRows
       (fst (loopBody demoSettings
               (fst (loopBody demoSettings initialState doc0110)) doc0105))
     = outHeader :: rows0110.
Proof.
  assert (Hext : hasValidExtension (getName doc0105) = true)
    by (vm_compute; reflexivity).
  assert (Hdata : processExcelFile demoSettings doc0105
                  = Some (outHeader :: rows0105, KOUNYU))
    by (vm_compute; reflexivity).
  destruct (proj1 (stale_document_changes_nothing demoSettings
                     (fst (loopBody demoSettings initialState doc0110))
                     doc0105 Hext Hdata)
              {| file := doc0110; date := Some 20240110%Z |}
              20240105%Z 20240110%Z)
    as (Hout & Hrows & _).
  - vm_compute; reflexivity.
  - vm_compute; reflexivity.
  - reflexivity.
  - vm_compute; discriminate.
  - split; [exact Hout|]. rewrite Hrows. vm_compute; reflexivity.
Defined.

Lemma no_target_folder_witness :
  combineExcelSheets demoSettings (demoServices otherFolders)
  = Failure (errorToString "部品リストを含むフォルダが見つかりませんでした")
  /\ combineExcelSheets demoSettings cancelledServices
     = Failure (errorToString "フォルダが選択されませんでした")
  /\ combineExcelSheets demoSettings brokenDialogServices
     = Failure (utf16 "Exception: Cannot call getUi from this context").
Proof.
  split; [|split].
  - refine (proj1 (proj2 (proj2 (proj2 (proj2
              (fatal_errors_are_returned demoSettings (demoServices otherFolders)))
              (utf16 "folder-id") _ _)) otherFolders _) _).
    + reflexivity.
    + vm_compute; discriminate.
    + reflexivity.
    + vm_compute; reflexivity.
  - apply (proj1 (proj2 (fatal_errors_are_returned demoSettings
                           cancelledServices))).
    left. reflexivity.
  - apply (proj1 (fatal_errors_are_returned demoSettings brokenDialogServices)).
    reflexivity.
Defined.

(** The other ways a run ends, on the sample folders. *)
Example run_results :
  combineExcelSheets demoSettings (failingServices twoFolders)
  = Failure (utf16 "Exception: Access denied")
  /\ combineExcelSheets demoSettings
       (demoServices [(utf16 "部品リスト", [])])
     = Failure (errorToString "処理可能なファイルが見つかりませんでした")
  /\ combineExcelSheets demoSettings
       {| selectFolder := Return None;
          getFolderById := fun _ => Return (Some twoFolders);
          getCurrentDateTime := [];
          fillTemplate := fun _ _ => Return demoUrl;
          formatSheet := fun _ _ => Return tt |}
     = Failure (errorToString "フォルダが選択されませんでした")
  /\ processedFiles
       (gather demoSettings [(utf16 "部品リスト", [docSelfNamed; docHeaderOnly])])
     = 2%nat
  /\ combineExcelSheets demoSettings
       (demoServices [(utf16 "部品リスト", [docSelfNamed; docHeaderOnly])])
     = Failure (errorToString "有効なデータが見つかりませんでした").
Proof. vm_compute. repeat split. Qed.

(* ------------------------------------------------------------------ *)
(** ** The file-name token *)

Lemma lowerUnit_is (c l s : N) :
  (97 <= l <= 122)%N -> s = (l - 32)%N ->
  lowerUnit c = l <-> (c = l \/ c = s).
Proof.
  intros Hl ->. unfold lowerUnit.
  destruct ((65 <=? c)%N && (c <=? 90)%N) eqn:Hc.
  - apply andb_true_iff in Hc as [H1 H2].
    apply N.leb_le in H1, H2. lia.
  - apply andb_false_iff in Hc as [H|H]; apply N.leb_gt in H; lia.
Qed.

Lemma unitWord_check (s : jsstring) :
  str_eqb (toLowerCase (firstn 4 s)) (utf16 "unit") = true
  <-> exists u post, s = u ++ post /\ unitWord u.
Proof.
  rewrite str_eqb_eq. change (utf16 "unit") with [117; 110; 105; 116]%N.
  split.
  - intros H.
    destruct s as [|c1 [|c2 [|c3 [|c4 post]]]]; try discriminate H.
    cbn [firstn toLowerCase map] in H.
    injection H as H1 H2 H3 H4.
    apply (@lowerUnit_is c1 117 85)%N in H1; [|lia|reflexivity].
    apply (@lowerUnit_is c2 110 78)%N in H2; [|lia|reflexivity].
    apply (@lowerUnit_is c3 105 73)%N in H3; [|lia|reflexivity].
    apply (@lowerUnit_is c4 116 84)%N in H4; [|lia|reflexivity].
    exists [c1; c2; c3; c4], post. split; [reflexivity|].
    exists c1, c2, c3, c4. auto.
  - intros (u & post & -> & c1 & c2 & c3 & c4 & -> & H1 & H2 & H3 & H4).
    cbn [app firstn toLowerCase map].
    apply (@lowerUnit_is c1 117 85)%N in H1; [|lia|reflexivity].
    apply (@lowerUnit_is c2 110 78)%N in H2; [|lia|reflexivity].
    apply (@lowerUnit_is c3 105 73)%N in H3; [|lia|reflexivity].
    apply (@lowerUnit_is c4 116 84)%N in H4; [|lia|reflexivity].
    now rewrite H1, H2, H3, H4.
Qed.

Lemma unitWord_starts (u : jsstring) :
  unitWord u -> exists c rest, u = c :: rest /\ isDigit c = false.
Proof.
  intros (c1 & c2 & c3 & c4 & -> & [-> | ->] & _); eauto.
Qed.

(** A run of digits that ends before a code unit that is no digit is
    determined by the string. *)
Lemma digit_run_unique (a b : jsstring) (x y : N) (r r' : jsstring) :
  a ++ x :: r = b ++ y :: r' ->
  forallb isDigit a = true -> forallb isDigit b = true ->
  isDigit x = false -> isDigit y = false ->
  a = b /\ x :: r = y :: r'.
Proof.
  revert b; induction a as [|c a IH]; intros [|d b] E Ha Hb Hx Hy.
  - now split.
  - cbn [app] in E. injection E as -> _.
    cbn [forallb] in Hb. apply andb_true_iff in Hb as [Hd _]. congruence.
  - cbn [app] in E. injection E as -> _.
    cbn [forallb] in Ha. apply andb_true_iff in Ha as [Hc _]. congruence.
  - cbn [app] in E. injection E as -> E.
    cbn [forallb] in Ha, Hb.
    apply andb_true_iff in Ha as [_ Ha]. apply andb_true_iff in Hb as [_ Hb].
    destruct (IH b E Ha Hb Hx Hy) as [-> Hr]. now split.
Qed.

Lemma unitAt_starts_with_digit (s ds : jsstring) :
  unitAt s ds -> exists c rest, s = c :: rest /\ isDigit c = true.
Proof.
  intros (u & post & -> & Hne & Hds & _).
  destruct ds as [|c ds]; [congruence|].
  cbn [forallb] in Hds. apply andb_true_iff in Hds as [Hc _].
  exists c, (ds ++ u ++ post). now split.
Qed.

(** Behind a run of digits [run] that is followed by [c], no digit, the
    pattern matches only with the whole run as its group and the word at
    [c]. *)
Lemma unitAt_run (run : jsstring) (c : N) (rest ds : jsstring) :
  forallb isDigit run = true -> isDigit c = false ->
  unitAt (run ++ c :: rest) ds ->
  ds = run
  /\ str_eqb (toLowerCase (firstn 4 (c :: rest))) (utf16 "unit") = true.
Proof.
  intros Hrun Hc (u & post & E & Hne & Hds & Hu).
  destruct (unitWord_starts Hu) as (x & u' & -> & Hx).
  cbn [app] in E.
  destruct (@digit_run_unique _ _ _ _ _ _ E Hrun Hds Hc Hx) as [-> Hrest].
  split; [reflexivity|].
  apply unitWord_check. exists (x :: u'), post. now split.
Qed.

Lemma forallb_isDigit_app (a b : jsstring) :
  forallb isDigit (a ++ b) = true
  <-> forallb isDigit a = true /\ forallb isDigit b = true.
Proof. rewrite forallb_app. apply andb_true_iff. Qed.

(** No match inside a run of digits that nothing follows. *)
Lemma unitAt_digits_only (s ds : jsstring) :
  forallb isDigit s = true -> ~ unitAt s ds.
Proof.
  intros Hs (u & post & -> & _ & _ & Hu).
  destruct (unitWord_starts Hu) as (x & u' & -> & Hx).
  apply forallb_isDigit_app in Hs as [_ Hs]. cbn [app forallb] in Hs.
  apply andb_true_iff in Hs as [Hs _]. congruence.
Qed.

(** The scan with the digits read so far in [run]: what it finds in
    [run ++ s]. *)
Lemma unitMatch_scan (s run : jsstring) :
  forallb isDigit run = true ->
  match unitMatch s run with
  | Some ds => firstUnit (run ++ s) ds
  | None => noUnit (run ++ s)
  end.
Proof.
  revert run; induction s as [|c rest IH]; intros run Hrun.
  - cbn [unitMatch]. intros pre rest ds E.
    apply unitAt_digits_only.
    rewrite app_nil_r in E. rewrite E in Hrun.
    now apply forallb_isDigit_app in Hrun as [_ Hrun].
  - cbn [unitMatch]. destruct (isDigit c) eqn:Hc.
    + specialize (IH (run ++ [c])).
      rewrite <- app_assoc in IH. apply IH.
      apply forallb_isDigit_app. split; [exact Hrun|].
      cbn [forallb]. now rewrite Hc.
    + (* what a match inside [run ++ c :: rest] looks like *)
      assert (Hsplit :
        forall pre' rest' ds',
          run ++ c :: rest = pre' ++ rest' -> unitAt rest' ds' ->
          (run <> []
           /\ str_eqb (toLowerCase (firstn 4 (c :: rest))) (utf16 "unit") = true)
          \/ exists pre'', pre' = run ++ c :: pre'' /\ rest = pre'' ++ rest').
      { intros pre' rest' ds' E Hat.
        apply app_eq_app in E as [l [[E1 E2] | [E1 E2]]].
        - (* [pre'] ends inside [run] *)
          subst rest'. left.
          destruct l as [|d l].
          + cbn [app] in Hat.
            destruct (unitAt_starts_with_digit Hat) as (x & r & Ex & Hx).
            injection Ex as <- _. congruence.
          + rewrite E1 in Hrun.
            apply forallb_isDigit_app in Hrun as [_ Hl].
            destruct (@unitAt_run _ _ _ _ Hl Hc Hat) as [_ Hword].
            split; [|exact Hword]. rewrite E1. now destruct pre'.
        - destruct l as [|d l].
          + cbn [app] in E2. subst rest'.
            destruct (unitAt_starts_with_digit Hat) as (x & r & Ex & Hx).
            injection Ex as <- _. congruence.
          + cbn [app] in E2. injection E2 as <- E2.
            right. exists l. now split. }
      assert (Hrest :
        match unitMatch rest [] with
        | Some ds => firstUnit rest ds
        | None => noUnit rest
        end) by (apply (IH []); reflexivity).
      assert (Hlater :
        (run = []
         \/ str_eqb (toLowerCase (firstn 4 (c :: rest))) (utf16 "unit") = false) ->
        match unitMatch rest [] with
        | Some ds => firstUnit (run ++ c :: rest) ds
        | None => noUnit (run ++ c :: rest)
        end).
      { intros Hno.
        assert (Hnone : forall pre' rest' ds',
                   run ++ c :: rest = pre' ++ rest' -> unitAt rest' ds' ->
                   exists pre'', pre' = run ++ c :: pre''
                                 /\ rest = pre'' ++ rest').
        { intros pre' rest' ds' E Hat.
          destruct (Hsplit pre' rest' ds' E Hat) as [[Hne Hw]|H]; [|exact H].
          destruct Hno as [Hno|Hno]; congruence. }
        destruct (unitMatch rest []) as [ds|].
        - destruct Hrest as (pre & rest0 & E & Hat & Hfirst).
          exists (run ++ c :: pre), rest0. split; [|split].
          + rewrite E, <- app_assoc. reflexivity.
          + exact Hat.
          + intros pre' rest' ds' E' Hlt Hat'.
            destruct (Hnone pre' rest' ds' E' Hat') as (pre'' & -> & E'').
            apply (Hfirst pre'' rest' ds' E''); [|exact Hat'].
            rewrite !length_app in Hlt. cbn [List.length] in Hlt. lia.
        - intros pre' rest' ds' E' Hat'.
          destruct (Hnone pre' rest' ds' E' Hat') as (pre'' & -> & E'').
          exact (Hrest pre'' rest' ds' E'' Hat'). }
      destruct run as [|r run].
      * apply Hlater. now left.
      * destruct (str_eqb (toLowerCase (firstn 4 (c :: rest))) (utf16 "unit"))
          eqn:Hword.
        -- exists [], ((r :: run) ++ c :: rest). split; [reflexivity|]. split.
           ++ apply unitWord_check in Hword as (u & post & E & Hu).
              exists u, post. rewrite E. repeat split; try assumption.
              discriminate.
           ++ intros pre' rest' ds' _ Hlt. cbn [List.length] in Hlt. lia.
        -- apply Hlater. now right.
Qed.

Lemma unitAt_unique (s ds ds' : jsstring) :
  unitAt s ds -> unitAt s ds' -> ds = ds'.
Proof.
  intros (u & post & -> & _ & Hds & Hu) (u' & post' & E & _ & Hds' & Hu').
  destruct (unitWord_starts Hu) as (x & r & -> & Hx).
  destruct (unitWord_starts Hu') as (x' & r' & -> & Hx').
  cbn [app] in E.
  now destruct (@digit_run_unique _ _ _ _ _ _ E Hds Hds' Hx Hx') as [-> _].
Qed.

Lemma firstUnit_unique (fileName ds ds' : jsstring) :
  firstUnit fileName ds -> firstUnit fileName ds' -> ds = ds'.
Proof.
  intros (pre & rest & E & Hat & Hfirst) (pre' & rest' & E' & Hat' & Hfirst').
  destruct (Nat.lt_trichotomy (List.length pre) (List.length pre'))
    as [Hlt | [Heq | Hgt]].
  - now destruct (Hfirst' pre rest ds E Hlt).
  - assert (pre = pre' /\ rest = rest') as [-> ->].
    { rewrite E in E'. clear - E' Heq.
      revert pre' E' Heq; induction pre as [|a pre IH]; intros [|b pre'] E' Heq;
        try discriminate Heq.
      - now split.
      - cbn [app] in E'. injection E' as -> E'.
        cbn [List.length] in Heq. injection Heq as Heq.
        now destruct (IH pre' E' Heq) as [-> ->]. }
    exact (unitAt_unique Hat Hat').
  - now destruct (Hfirst pre' rest' ds' E' Hgt).
Qed.

Lemma unitMatch_first_match (fileName : jsstring) :
  match unitMatch fileName [] with
  | Some ds => firstUnit fileName ds
  | None => noUnit fileName
  end.
Proof. apply (unitMatch_scan fileName []). reflexivity. Qed.

(** The pattern of the unit number either matches somewhere in the file
    name or nowhere.  電気 gives its letter alone.  購入 and 製作 give their
    letter followed by the digits of the first match of the pattern,
    padded with zeros to two digits, and the letter alone when the pattern
    matches nowhere.  A category that is none of the three gives the empty
    token. *)
Theorem filename_token_shape (fileName category : jsstring) :
  ((exists ds, firstUnit fileName ds) \/ noUnit fileName)
  /\ (category = DENKI -> processFilename fileName category = DEN)
  /\ (forall letter,
         (category = KOUNYU /\ letter = KOU)
         \/ (category = SEISAKU /\ letter = SEI) ->
         (forall ds,
             firstUnit fileName ds ->
             processFilename fileName category
             = letter ++ repeat 48%N (2 - List.length ds) ++ ds)
         /\ (noUnit fileName -> processFilename fileName category = letter))
  /\ (category <> SEISAKU -> category <> KOUNYU -> category <> DENKI ->
      processFilename fileName category = []).
Proof.
  pose proof (unitMatch_first_match fileName) as Hscan.
  split; [|split; [|split]].
  - destruct (unitMatch fileName []) as [ds|]; [left; now exists ds|now right].
  - intros ->. reflexivity.
  - intros letter Hcat.
    assert (Hpf : processFilename fileName category
                  = letter ++ match unitMatch fileName [] with
                              | Some digits => padStart0 2 digits
                              | None => []
                              end).
    { destruct Hcat as [[-> ->] | [-> ->]]; unfold processFilename.
      - change (str_eqb KOUNYU SEISAKU) with false.
        change (str_eqb KOUNYU KOUNYU) with true.
        change (str_eqb KOUNYU DENKI) with false.
        change (str_eqb KOU []) with false. cbn [negb andb].
        destruct (unitMatch fileName []); [reflexivity|].
        now rewrite app_nil_r.
      - change (str_eqb SEISAKU SEISAKU) with true.
        change (str_eqb SEISAKU DENKI) with false.
        change (str_eqb SEI []) with false. cbn [negb andb].
        destruct (unitMatch fileName []); [reflexivity|].
        now rewrite app_nil_r. }
    rewrite Hpf. split.
    + intros ds Hds. destruct (unitMatch fileName []) as [ds0|].
      * now rewrite (firstUnit_unique Hscan Hds).
      * destruct Hds as (pre & rest & E & Hat & _).
        now destruct (Hscan pre rest ds E).
    + intros Hno. destruct (unitMatch fileName []) as [ds0|].
      * destruct Hscan as (pre & rest & E & Hat & _).
        now destruct (Hno pre rest ds0 E).
      * apply app_nil_r.
  - intros H1 H2 H3. unfold processFilename.
    apply str_eqb_neq in H1, H2, H3. rewrite H1, H2, H3. reflexivity.
Qed.

Lemma filename_token_witness :
  processFilename (getName doc0105) KOUNYU = utf16 "購01"
  /\ processFilename (getName docPlain) SEISAKU = SEI.
Proof.
  assert (H : firstUnit (getName doc0105) [49%N])
    by exact (unitMatch_first_match (getName doc0105)).
  assert (H' : noUnit (getName docPlain))
    by exact (unitMatch_first_match (getName docPlain)).
  split.
  - rewrite (proj1 (proj1 (proj2 (proj2
               (filename_token_shape (getName doc0105) KOUNYU)))
               KOU (or_introl (conj eq_refl eq_refl))) [49%N] H).
    vm_compute. reflexivity.
  - exact (proj2 (proj1 (proj2 (proj2
               (filename_token_shape (getName docPlain) SEISAKU)))
               SEI (or_intror (conj eq_refl eq_refl))) H').
Defined.

Lemma pruneColumns_witness :
  pruneColumns headerRaw
  = [CStr (utf16 "Unit"); CStr (utf16 "Part"); CStr (utf16 "Stock");
     CStr (utf16 "maker"); CNum 2; CStr (utf16 "vendor"); CStr (utf16 "note");
     CStr (utf16 "finish"); CDate demoDate].
Proof.
  destruct (proj2 (proj2 (pruneColumns_twelve headerRaw)) eq_refl)
    as (c0 & kept & c10 & c11 & Hrow & Hlen & Hkept).
  rewrite Hkept. injection Hrow as _ Hrest.
  do 9 (destruct kept as [|? kept]; [discriminate Hlen|]).
  destruct kept; [|discriminate Hlen].
  now injection Hrest as <- <- <- <- <- <- <- <- <- _ _.
Defined.

(* ================================================================== *)
(** * Further properties of the code *)

(** ** Reading the file name *)

Lemma startsWith_prefix (p s : jsstring) :
  startsWith p s = true <-> exists rest, s = p ++ rest.
Proof.
  revert s; induction p as [|x p IH]; intros s; simpl.
  - split; [intros _; now exists s | reflexivity].
  - destruct s as [|y s].
    + split; [discriminate | intros [rest H]; discriminate].
    + rewrite andb_true_iff, N.eqb_eq, IH. split.
      * intros [-> [rest ->]]. now exists rest.
      * intros [rest H]. injection H as -> ->. split; [reflexivity | now exists rest].
Qed.

Lemma startsWith_app (p rest : jsstring) : startsWith p (p ++ rest) = true.
Proof. apply startsWith_prefix. now exists rest. Qed.

Lemma extractJNumber_cons (c : N) (rest : jsstring) :
  extractJNumber (c :: rest)
  = if (c =? 74)%N && (List.length (firstn 10 rest) =? 10)%nat
       && forallb isDigit (firstn 10 rest)
    then c :: firstn 10 rest
    else extractJNumber rest.
Proof. reflexivity. Qed.

(** A match of [J\d{10}] at the front of [s]. *)
Lemma extractJNumber_here (ds rest : jsstring) :
  List.length ds = 10%nat ->
  forallb isDigit ds = true ->
  extractJNumber (74%N :: ds ++ rest) = 74%N :: ds.
Proof.
  intros Hlen Hdig. rewrite extractJNumber_cons.
  assert (Hfirst : firstn 10 (ds ++ rest) = ds).
  { rewrite firstn_app, Hlen, Nat.sub_diag, firstn_O, app_nil_r.
    apply firstn_all2. lia. }
  rewrite Hfirst, Hlen, Hdig. reflexivity.
Qed.

(** The project identifier is empty or a [J] with ten digits that stands
    in the file name, behind a part of the name in which no identifier
    starts; and a file name that holds a [J] followed by ten digits never
    gives the empty identifier. *)
Theorem extractJNumber_finds_first_identifier (fileName : jsstring) :
  (extractJNumber fileName = []
   \/ exists pre ds post,
        fileName = pre ++ (74%N :: ds) ++ post
        /\ extractJNumber fileName = 74%N :: ds
        /\ List.length ds = 10%nat
        /\ forallb isDigit ds = true
        /\ extractJNumber pre = [])
  /\ (forall pre ds post,
         fileName = pre ++ (74%N :: ds) ++ post ->
         List.length ds = 10%nat ->
         forallb isDigit ds = true ->
         extractJNumber fileName <> []).
Proof.
  split.
  - induction fileName as [|c s IH]; [now left|].
    rewrite extractJNumber_cons.
    destruct ((c =? 74)%N && (List.length (firstn 10 s) =? 10)%nat
              && forallb isDigit (firstn 10 s)) eqn:Hhere.
    + right. apply andb_true_iff in Hhere as [Hhere Hdig].
      apply andb_true_iff in Hhere as [Hc Hlen].
      apply N.eqb_eq in Hc. apply Nat.eqb_eq in Hlen. subst c.
      exists [], (firstn 10 s), (skipn 10 s). cbn [app].
      rewrite firstn_skipn. repeat split; assumption.
    + destruct IH as [IH | (pre & ds & post & Hs & Hres & Hlen & Hdig & Hpre)].
      * now left.
      * right. exists (c :: pre), ds, post. subst s. repeat split; try assumption.
        rewrite extractJNumber_cons.
        destruct ((c =? 74)%N
                  && (List.length (firstn 10 pre) =? 10)%nat
                  && forallb isDigit (firstn 10 pre)) eqn:Hpre'; [|exact Hpre].
        exfalso.
        apply andb_true_iff in Hpre' as [Hpre' Hdig'].
        apply andb_true_iff in Hpre' as [Hc Hlen'].
        apply Nat.eqb_eq in Hlen'.
        assert (Hfirst : firstn 10 (pre ++ (74%N :: ds) ++ post) = firstn 10 pre).
        { rewrite firstn_app.
          replace (10 - List.length pre)%nat with 0%nat.
          - rewrite firstn_O. apply app_nil_r.
          - pose proof (length_firstn 10 pre) as Hl. lia. }
        rewrite Hfirst, Hc, Hlen', Hdig' in Hhere. discriminate.
  - intros pre ds post -> Hlen Hdig.
    induction pre as [|c pre IH].
    + simpl app. rewrite (extractJNumber_here ds post Hlen Hdig). discriminate.
    + simpl app. rewrite extractJNumber_cons.
      destruct (_ && _ && _); [discriminate | exact IH].
Qed.

Lemma extractJNumber_witness :
  extractJNumber (getName doc0105) <> [].
Proof.
  apply (proj2 (extractJNumber_finds_first_identifier (getName doc0105))
           (utf16 "20240105_") (utf16 "0000000001")
           (utf16 "_購入_1unit.xlsx")); vm_compute; reflexivity.
Defined.

Lemma determineCategory_cons (c : N) (rest : jsstring) :
  determineCategory (c :: rest)
  = if (c =? 95)%N then
      match find (fun alt => startsWith (alt ++ UNDERSCORE) rest)
                 [SEISAKU; KOUNYU; DENKI] with
      | Some alt => alt
      | None => determineCategory rest
      end
    else determineCategory rest.
Proof. reflexivity. Qed.

Lemma category_name_not_empty (cat : jsstring) :
  In cat [SEISAKU; KOUNYU; DENKI] -> cat <> [].
Proof. intros [<-|[<-|[<-|[]]]]; discriminate. Qed.

(** The category is empty or one of 製作, 購入, 電気 that stands in the
    file name between two underscores; and a file name that holds one of
    the three between underscores never gives the empty category. *)
Theorem determineCategory_finds_marked_category (fileName : jsstring) :
  (determineCategory fileName = []
   \/ exists pre post,
        In (determineCategory fileName) [SEISAKU; KOUNYU; DENKI]
        /\ fileName
           = pre ++ UNDERSCORE ++ determineCategory fileName
                 ++ UNDERSCORE ++ post)
  /\ (forall pre cat post,
         In cat [SEISAKU; KOUNYU; DENKI] ->
         fileName = pre ++ UNDERSCORE ++ cat ++ UNDERSCORE ++ post ->
         determineCategory fileName <> []).
Proof.
  split.
  - induction fileName as [|c s IH]; [now left|].
    rewrite determineCategory_cons.
    destruct (c =? 95)%N eqn:Hc.
    + destruct (find _ _) as [alt|] eqn:Hfind.
      * right. apply find_some in Hfind as [Hin Hstart].
        apply startsWith_prefix in Hstart as [post ->].
        apply N.eqb_eq in Hc. subst c.
        exists [], post. split; [exact Hin|].
        cbn [app UNDERSCORE]. now rewrite <- app_assoc.
      * destruct IH as [IH | (pre & post & Hin & Hs)]; [now left|].
        right. exists (c :: pre), post. split; [exact Hin|].
        cbn [app]. now f_equal.
    + destruct IH as [IH | (pre & post & Hin & Hs)]; [now left|].
      right. exists (c :: pre), post. split; [exact Hin|].
      cbn [app]. now f_equal.
  - intros pre cat post Hin ->.
    induction pre as [|c pre IH].
    + change ([] ++ UNDERSCORE ++ cat ++ UNDERSCORE ++ post)
        with (95%N :: cat ++ UNDERSCORE ++ post).
      rewrite determineCategory_cons. cbn [N.eqb Pos.eqb].
      destruct (find _ _) as [alt|] eqn:Hfind.
      * apply find_some in Hfind as [Halt _].
        now apply category_name_not_empty.
      * exfalso. apply (find_none _ _ Hfind) in Hin.
        rewrite app_assoc, startsWith_app in Hin. discriminate.
    + cbn [app]. rewrite determineCategory_cons.
      destruct (c =? 95)%N; [|exact IH].
      destruct (find _ _) as [alt|] eqn:Hfind; [|exact IH].
      apply find_some in Hfind as [Halt _].
      now apply category_name_not_empty.
Qed.

Lemma determineCategory_witness :
  determineCategory (getName docOtherProject) <> [].
Proof.
  apply (proj2 (determineCategory_finds_marked_category (getName docOtherProject))
           (utf16 "20240301_J0000000002") SEISAKU (utf16 "10Unit.XLSX")).
  - left. reflexivity.
  - vm_compute. reflexivity.
Defined.

(* ------------------------------------------------------------------ *)
(** ** Reading one sheet *)

Lemma findLastDataRow_cons (r : Row) (rows : list Row) :
  findLastDataRow (r :: rows)
  = match findLastDataRow rows with
    | O => if hasValue (cellAt r 1) then 1%nat else 0%nat
    | S k => S (S k)
    end.
Proof. reflexivity. Qed.

Lemma findLastDataRow_zero (rows : list Row) :
  findLastDataRow rows = 0%nat
  <-> forall r, In r rows -> hasValue (cellAt r 1) = false.
Proof.
  induction rows as [|r rows IH]; [split; [intros _ r [] | reflexivity]|].
  rewrite findLastDataRow_cons.
  destruct (findLastDataRow rows) as [|k] eqn:Hrest.
  - destruct (hasValue (cellAt r 1)) eqn:Hr; split.
    + discriminate.
    + intros H. rewrite (H r (or_introl eq_refl)) in Hr. discriminate.
    + intros _ r' [<-|Hin]; [exact Hr | now apply IH].
    + reflexivity.
  - split; [discriminate|].
    intros H.
    assert (Hz : S k = 0%nat)
      by (apply IH; intros r' Hin; apply H; now right).
    discriminate Hz.
Qed.

Lemma findLastDataRow_succ (rows : list Row) (k : nat) :
  findLastDataRow rows = S k ->
  exists r,
    nth_error rows k = Some r
    /\ hasValue (cellAt r 1) = true
    /\ forall r', In r' (skipn (S k) rows) -> hasValue (cellAt r' 1) = false.
Proof.
  revert k; induction rows as [|r rows IH]; intros k; [discriminate|].
  rewrite findLastDataRow_cons.
  destruct (findLastDataRow rows) as [|j] eqn:Hrest.
  - destruct (hasValue (cellAt r 1)) eqn:Hr; [|discriminate].
    intros H. injection H as <-. exists r. repeat split; [exact Hr|].
    cbn [skipn]. now apply findLastDataRow_zero.
  - intros H. injection H as <-.
    destruct (IH j eq_refl) as (r0 & Hnth & Hval & Hafter).
    exists r0. repeat split; assumption.
Qed.

Lemma findLastDataRow_le (rows : list Row) :
  (findLastDataRow rows <= List.length rows)%nat.
Proof.
  induction rows as [|r rows IH]; [reflexivity|].
  rewrite findLastDataRow_cons. cbn [List.length].
  destruct (findLastDataRow rows); [destruct (hasValue _)|]; lia.
Qed.

(** [findLastDataRow] is the number of the last row with a value in
    column B: it is within the sheet, it is 0 exactly when no row has such
    a value, and otherwise the row of that number has one and no row
    below it has. *)
Theorem findLastDataRow_is_last_valued_row (rows : list Row) :
  (findLastDataRow rows <= List.length rows)%nat
  /\ (findLastDataRow rows = 0%nat
      <-> forall r, In r rows -> hasValue (cellAt r 1) = false)
  /\ (forall k,
         findLastDataRow rows = S k ->
         exists r,
           nth_error rows k = Some r
           /\ hasValue (cellAt r 1) = true
           /\ forall r', In r' (skipn (S k) rows) ->
                         hasValue (cellAt r' 1) = false).
Proof.
  split; [apply findLastDataRow_le|].
  split; [apply findLastDataRow_zero|].
  intros k. apply findLastDataRow_succ.
Qed.

Lemma findLastDataRow_witness :
  exists r,
    nth_error [headerRaw; rawRow 1 "1unit" "001" ""; rawRow 2 "" "" ""] 1
    = Some r
    /\ hasValue (cellAt r 1) = true
    /\ forall r', In r' (skipn 2 [headerRaw; rawRow 1 "1unit" "001" "";
                                  rawRow 2 "" "" ""]) ->
                  hasValue (cellAt r' 1) = false.
Proof.
  apply (proj2 (proj2 (findLastDataRow_is_last_valued_row
                         [headerRaw; rawRow 1 "1unit" "001" "";
                          rawRow 2 "" "" ""])) 1%nat).
  vm_compute. reflexivity.
Defined.

Section SheetFacts.

Variable settings : Settings.

(** [processExcelFile] gives nothing exactly when the sheet is missing or
    no row of it has a value in column B; what it gives otherwise starts
    with the header row under the category title, has no more rows than
    the sheet has down to the last value in column B, and carries the
    category read from the file name. *)
Theorem processExcelFile_result (f : File) :
  (processExcelFile settings f = None
   <-> targetSheet f = None
       \/ exists sheet,
            targetSheet f = Some sheet
            /\ forall r, In r sheet -> hasValue (cellAt r 1) = false)
  /\ (forall fileData category,
         processExcelFile settings f = Some (fileData, category) ->
         exists sheet header,
           targetSheet f = Some sheet
           /\ hd_error sheet = Some header
           /\ hd_error fileData
              = Some (COLUMN_NAMES settings KD :: pruneColumns header)
           /\ (List.length fileData <= findLastDataRow sheet)%nat
           /\ category = determineCategory (getName f)).
Proof.
  split.
  - unfold processExcelFile.
    destruct (targetSheet f) as [sheet|]; [|split; [now left | reflexivity]].
    destruct (findLastDataRow sheet) as [|n] eqn:Hlast.
    + split; [|reflexivity]. intros _. right. exists sheet.
      split; [reflexivity | now apply findLastDataRow_zero].
    + split; [discriminate|].
      intros [H | (sheet' & Hs & Hnone)]; [discriminate|].
      injection Hs as <-. apply findLastDataRow_zero in Hnone.
      rewrite Hnone in Hlast. discriminate.
  - intros fileData category Hdata.
    apply processExcelFile_some in Hdata
      as (sheet & header & rows & Hsheet & Hfirst & Hcat & ->).
    exists sheet, header. split; [exact Hsheet|].
    assert (Hhd : hd_error sheet = Some header).
    { destruct sheet as [|h sheet]; [now rewrite firstn_nil in Hfirst|].
      destruct (findLastDataRow (h :: sheet)); [discriminate|].
      cbn [firstn] in Hfirst. now injection Hfirst as -> _. }
    split; [exact Hhd|]. rewrite normalise_cons.
    split; [reflexivity|]. split; [|exact Hcat].
    cbn [List.length]. rewrite length_map.
    pose proof (filter_length_le (fun row => negb (isExcluded row))
                  (map pruneColumns rows)) as Hle.
    rewrite length_map in Hle.
    assert (Hlen : List.length (header :: rows)
                   = Nat.min (findLastDataRow sheet) (List.length sheet)).
    { rewrite <- Hfirst. apply length_firstn. }
    cbn [List.length] in Hlen. lia.
Qed.

End SheetFacts.

Lemma processExcelFile_witness :
  exists sheet header,
    targetSheet doc0105 = Some sheet
    /\ hd_error sheet = Some header
    /\ hd_error (outHeader :: rows0105)
       = Some (COLUMN_NAMES demoSettings KD :: pruneColumns header)
    /\ (List.length (outHeader :: rows0105) <= findLastDataRow sheet)%nat
    /\ KOUNYU = determineCategory (getName doc0105).
Proof.
  apply (proj2 (processExcelFile_result demoSettings doc0105)).
  vm_compute. reflexivity.
Defined.

(* ------------------------------------------------------------------ *)
(** ** The rows of a normalised document *)

Lemma cellAt_setCell_same (i : nat) (v : Cell) (row : Row) :
  cellAt (setCell i v row) i = v.
Proof.
  unfold cellAt. revert row; induction i as [|i IH]; intros [|c row];
    simpl; try reflexivity; apply IH.
Qed.

Lemma length_setCell (i : nat) (v : Cell) (row : Row) :
  List.length (setCell i v row) = Nat.max (S i) (List.length row).
Proof.
  revert row; induction i as [|i IH]; intros [|c row]; simpl; try reflexivity.
  - now rewrite IH.
  - now rewrite IH.
Qed.

Lemma cellAt_beyond (row : Row) (i : nat) :
  (List.length row <= i)%nat -> cellAt row i = CUndef.
Proof. intros H. unfold cellAt. now apply nth_overflow. Qed.

Lemma length_formatIfDate (i : nat) (row : Row) :
  List.length (formatIfDate i row) = List.length row.
Proof.
  unfold formatIfDate. destruct (cellAt row i) eqn:Hc; try reflexivity.
  rewrite length_setCell.
  destruct (Nat.le_gt_cases (List.length row) i) as [Hle|Hgt]; [|lia].
  rewrite (cellAt_beyond row Hle) in Hc. discriminate.
Qed.

Lemma formatIfDate_no_date (i : nat) (row : Row) :
  isDate (cellAt (formatIfDate i row) i) = false.
Proof.
  unfold formatIfDate. destruct (cellAt row i) eqn:Hc;
    try (rewrite Hc; reflexivity).
  now rewrite cellAt_setCell_same.
Qed.

Lemma finishRow_category (category : jsstring) (row : Row) :
  cellAt (finishRow category row) 0 = CStr category.
Proof.
  unfold finishRow.
  rewrite (cellAt_formatIfDate_other (i := DATE_FORMAT_COLUMN_N) (j := 0))
    by discriminate.
  rewrite (cellAt_formatIfDate_other (i := DATE_FORMAT_COLUMN_M) (j := 0))
    by discriminate.
  reflexivity.
Qed.

Lemma finishRow_length (category : jsstring) (row : Row) :
  (List.length row <= 9)%nat ->
  (List.length (finishRow category row) <= 10)%nat.
Proof.
  intros Hlen. unfold finishRow. rewrite !length_formatIfDate.
  cbn [List.length].
  destruct (str_eqb category KOUNYU || str_eqb category DENKI).
  - rewrite length_setCell. unfold DATE_FORMAT_COLUMN_L. lia.
  - lia.
Qed.

Lemma finishRow_dates (category : jsstring) (row : Row) :
  isDate (cellAt (finishRow category row) 8) = false
  /\ isDate (cellAt (finishRow category row) 9) = false.
Proof.
  unfold finishRow. split.
  - rewrite (cellAt_formatIfDate_other (i := DATE_FORMAT_COLUMN_N) (j := 8))
      by discriminate.
    apply formatIfDate_no_date.
  - apply formatIfDate_no_date.
Qed.

Lemma finishRow_cleared (category : jsstring) (row : Row) :
  str_eqb category KOUNYU || str_eqb category DENKI = true ->
  cellAt (finishRow category row) 8 = CStr [].
Proof.
  intros Hcat. unfold finishRow. rewrite Hcat.
  rewrite (cellAt_formatIfDate_other (i := DATE_FORMAT_COLUMN_N) (j := 8))
    by discriminate.
  unfold formatIfDate at 1.
  change (cellAt (CStr category :: setCell DATE_FORMAT_COLUMN_L (CStr []) row)
                 DATE_FORMAT_COLUMN_M)
    with (cellAt (setCell DATE_FORMAT_COLUMN_L (CStr []) row) 7).
  unfold DATE_FORMAT_COLUMN_L. rewrite cellAt_setCell_same.
  change (cellAt (CStr category :: setCell 7 (CStr []) row) 8)
    with (cellAt (setCell 7 (CStr []) row) 7).
  apply cellAt_setCell_same.
Qed.

Lemma pruneColumns_at_most_nine (row : Row) :
  (List.length (pruneColumns row) <= 9)%nat.
Proof.
  unfold pruneColumns, REQUIRED_COLUMN_COUNT. rewrite length_firstn. lia.
Qed.

Section RowFacts.

Variable settings : Settings.

(** Every data row of a normalised document begins with the category,
    has at most ten cells, holds no [Date] in columns 8 and 9, and, for
    購入 and 電気, holds the empty string in column 8. *)
Theorem normalised_data_row_shape
  (category : jsstring) (header : Row) (rows : list Row) (row : Row) :
  In row (tl (normalise settings category (header :: rows))) ->
  cellAt row 0 = CStr category
  /\ (List.length row <= 10)%nat
  /\ isDate (cellAt row 8) = false
  /\ isDate (cellAt row 9) = false
  /\ (category = KOUNYU \/ category = DENKI -> cellAt row 8 = CStr []).
Proof.
  rewrite normalise_cons. cbn [tl]. intros Hin.
  apply in_map_iff in Hin as (r & <- & Hr).
  apply filter_In in Hr as [Hr _].
  apply in_map_iff in Hr as (raw & <- & _).
  split; [apply finishRow_category|].
  split; [apply finishRow_length, pruneColumns_at_most_nine|].
  split; [apply finishRow_dates|].
  split; [apply finishRow_dates|].
  intros Hcat. apply finishRow_cleared.
  destruct Hcat as [-> | ->]; reflexivity.
Qed.

End RowFacts.

Lemma normalised_data_row_witness :
  cellAt (outRow "1unit" "003" "") 0 = CStr KOUNYU
  /\ (List.length (outRow "1unit" "003" "") <= 10)%nat
  /\ isDate (cellAt (outRow "1unit" "003" "") 8) = false
  /\ isDate (cellAt (outRow "1unit" "003" "") 9) = false
  /\ (KOUNYU = KOUNYU \/ KOUNYU = DENKI ->
      cellAt (outRow "1unit" "003" "") 8 = CStr []).
Proof.
  apply (normalised_data_row_shape demoSettings KOUNYU headerRaw
           [rawRow 2 "1unit" "002" "社内在庫なし"; rawRow 3 "1unit" "003" ""]).
  vm_compute. left. reflexivity.
Defined.

(* ------------------------------------------------------------------ *)
(** ** The unit number of the key *)

Lemma firstUnitNumbers_cons (row : Row) (rest : list Row) :
  firstUnitNumbers (row :: rest)
  = if hasValue (cellAt row 1)
    then digitsOnly (trim (cellToString (cellAt row 1)))
    else firstUnitNumbers rest.
Proof.
  unfold cellAt. destruct row as [|a [|c row]]; try reflexivity.
  cbn [firstUnitNumbers nth_error nth].
  destruct c as [[|x s]| | | |]; reflexivity.
Qed.

Lemma white_is_no_digit (c : N) : isWhite c = true -> isDigit c = false.
Proof.
  unfold isWhite, isDigit. intros Hw.
  destruct ((48 <=? c)%N && (c <=? 57)%N) eqn:Hd; [|reflexivity].
  apply andb_true_iff in Hd as [Hlo Hhi].
  apply N.leb_le in Hlo, Hhi.
  apply orb_true_iff in Hw as [Hw|Hw].
  - apply existsb_exists in Hw as (w & Hin & Heq).
    apply N.eqb_eq in Heq. subst w.
    repeat (destruct Hin as [Hin|Hin]; [lia|]). destruct Hin.
  - apply andb_true_iff in Hw as [Hw _]. apply N.leb_le in Hw. lia.
Qed.

Lemma digitsOnly_dropWhite (s : jsstring) :
  digitsOnly (dropWhite s) = digitsOnly s.
Proof.
  induction s as [|c s IH]; [reflexivity|].
  cbn [dropWhite]. destruct (isWhite c) eqn:Hw; [|reflexivity].
  unfold digitsOnly in *. cbn [filter].
  now rewrite (white_is_no_digit c Hw).
Qed.

Lemma digitsOnly_rev (s : jsstring) : digitsOnly (rev s) = rev (digitsOnly s).
Proof.
  unfold digitsOnly. induction s as [|c s IH]; [reflexivity|].
  cbn [rev filter]. rewrite filter_app, IH. cbn [filter].
  destruct (isDigit c); [reflexivity | now rewrite app_nil_r].
Qed.

(** Trimming takes no digit away. *)
Lemma digitsOnly_trim (s : jsstring) : digitsOnly (trim s) = digitsOnly s.
Proof.
  unfold trim.
  now rewrite digitsOnly_rev, digitsOnly_dropWhite, digitsOnly_rev,
    rev_involutive, digitsOnly_dropWhite.
Qed.

Lemma digitsOnly_digits (s : jsstring) : forallb isDigit (digitsOnly s) = true.
Proof.
  apply forallb_forall. intros c Hin. now apply filter_In in Hin.
Qed.

Lemma firstUnitNumbers_digits (rows : list Row) :
  forallb isDigit (firstUnitNumbers rows) = true.
Proof.
  induction rows as [|row rows IH]; [reflexivity|].
  rewrite firstUnitNumbers_cons.
  destruct (hasValue _); [apply digitsOnly_digits | exact IH].
Qed.

Lemma firstUnitNumbers_skip (blank : list Row) (rest : list Row) :
  (forall r, In r blank -> hasValue (cellAt r 1) = false) ->
  firstUnitNumbers (blank ++ rest) = firstUnitNumbers rest.
Proof.
  induction blank as [|r blank IH]; intros Hblank; [reflexivity|].
  cbn [app]. rewrite firstUnitNumbers_cons, (Hblank r (or_introl eq_refl)).
  apply IH. intros r' Hin. apply Hblank. now right.
Qed.

(** The unit number of the key is empty when no row below the header has
    a value in column 1.  Otherwise it is read from the first such row,
    whatever the rows further down hold: it is the digits of that value's
    text, and so holds digits only.  The value is a cell whose text is
    exact: no number, or a safe integer. *)
Theorem unit_number_is_read_from_first_value
  (header : Row) (blank : list Row) (category : jsstring) :
  (forall r, In r blank -> hasValue (cellAt r 1) = false) ->
  collectUnitNumbersForCheck (header :: blank) category = ([], category)
  /\ (forall row rest,
         hasValue (cellAt row 1) = true ->
         exactCell (cellAt row 1) ->
         collectUnitNumbersForCheck (header :: blank ++ row :: rest) category
         = (digitsOnly (cellToString (cellAt row 1)), category)
         /\ forallb isDigit
              (fst (collectUnitNumbersForCheck
                      (header :: blank ++ row :: rest) category)) = true).
Proof.
  intros Hblank. unfold collectUnitNumbersForCheck. cbn [tl fst snd].
  split.
  - f_equal. rewrite <- (app_nil_r blank).
    now rewrite (firstUnitNumbers_skip blank [] Hblank).
  - intros row rest Hval _.
    rewrite (firstUnitNumbers_skip blank (row :: rest) Hblank).
    rewrite firstUnitNumbers_cons, Hval, digitsOnly_trim.
    split; [reflexivity|apply digitsOnly_digits].
Qed.

Lemma unit_number_witness :
  collectUnitNumbersForCheck
    (outHeader :: [[CStr KOUNYU; CStr []]]
               ++ [CStr KOUNYU; CStr (utf16 " unit 12a ")]
               :: [[CStr KOUNYU; CStr (utf16 "3unit")]])
    KOUNYU
  = (utf16 "12", KOUNYU)
  /\ collectUnitNumbersForCheck
       (outHeader :: [] ++ [CStr KOUNYU; CNum (-12)] :: []) KOUNYU
     = (utf16 "12", KOUNYU).
Proof.
  split.
  - refine (proj1 (proj2
              (unit_number_is_read_from_first_value outHeader
                 [[CStr KOUNYU; CStr []]] KOUNYU _)
              [CStr KOUNYU; CStr (utf16 " unit 12a ")]
              [[CStr KOUNYU; CStr (utf16 "3unit")]] _ _)).
    + intros r [<-|[]]. reflexivity.
    + reflexivity.
    + exact I.
  - refine (proj1 (proj2
              (unit_number_is_read_from_first_value outHeader [] KOUNYU _)
              [CStr KOUNYU; CNum (-12)] [] _ _)).
    + intros r [].
    + reflexivity.
    + vm_compute. split; discriminate.
Defined.

(* ------------------------------------------------------------------ *)
(** ** The folder loop *)

Lemma Map_get_set_other (k k0 : jsstring) (v : FileInfo) (m : KeyMap) :
  k0 <> k -> Map_get k0 (Map_set k v m) = Map_get k0 m.
Proof.
  intros Hne. induction m as [|[k' v'] m IH]; simpl.
  - apply str_eqb_neq in Hne. now rewrite Hne.
  - destruct (str_eqb k k') eqn:E; simpl.
    + apply str_eqb_eq in E. subst k'.
      apply str_eqb_neq in Hne. now rewrite Hne.
    + now rewrite IH.
Qed.

Lemma Map_set_length_new (k : jsstring) (v : FileInfo) (m : KeyMap) :
  Map_get k m = None -> List.length (Map_set k v m) = S (List.length m).
Proof.
  induction m as [|[k' v'] m IH]; simpl; [reflexivity|].
  destruct (str_eqb k k'); [discriminate|].
  intros H. simpl. now rewrite IH.
Qed.

Lemma Map_set_length_old (k : jsstring) (v info : FileInfo) (m : KeyMap) :
  Map_get k m = Some info -> List.length (Map_set k v m) = List.length m.
Proof.
  induction m as [|[k' v'] m IH]; simpl; [discriminate|].
  destruct (str_eqb k k'); [reflexivity|].
  intros H. simpl. now rewrite IH.
Qed.

Section FolderLoopFacts.

Variable settings : Settings.

(** The loop body on a file without an accepted extension. *)
Lemma loopBody_skips (st : State) (f : File) :
  hasValidExtension (getName f) = false ->
  loopBody settings st f = (st, SKIPPED_EXTENSION).
Proof. intros H. unfold loopBody. now rewrite H. Qed.

(** The loop body on a file that is read: the three ways it can go. *)
Lemma loopBody_read (st : State) (f : File) (fileData : list Row)
  (category : jsstring) :
  hasValidExtension (getName f) = true ->
  processExcelFile settings f = Some (fileData, category) ->
  let key := dedupKey f fileData category in
  let jNumberSet' := jNumberSet (fst (loopBody settings st f)) in
  let categories' := categories (fst (loopBody settings st f)) in
  loopBody settings st f
  = match Map_get key (processedFileKeys st) with
    | Some info =>
        if num_gt (revisionDate f) (date info) then
          ({| combinedDataRows :=
                filter (fun row => negb (rowIncludes (getName (file info)) row))
                       (combinedDataRows st)
                ++ tl fileData;
              processedFiles := S (processedFiles st);
              jNumberSet := jNumberSet';
              unitNumberSet := unitNumberSet st;
              categories := categories';
              processedFileKeys :=
                Map_set key {| file := f; date := revisionDate f |}
                        (processedFileKeys st);
              filenamePartsByCategory := filenamePartsByCategory st |},
           ACCEPTED_SUPERSEDES)
        else
          ({| combinedDataRows := combinedDataRows st;
              processedFiles := processedFiles st;
              jNumberSet := jNumberSet';
              unitNumberSet := unitNumberSet st;
              categories := categories';
              processedFileKeys := processedFileKeys st;
              filenamePartsByCategory := filenamePartsByCategory st |},
           REJECTED_STALE)
    | None =>
        ({| combinedDataRows :=
              if (processedFiles st =? 0)%nat then fileData
              else combinedDataRows st ++ tl fileData;
            processedFiles := S (processedFiles st);
            jNumberSet := jNumberSet';
            unitNumberSet := unitNumberSet st;
            categories := categories';
            processedFileKeys :=
              Map_set key {| file := f; date := revisionDate f |}
                      (processedFileKeys st);
            filenamePartsByCategory :=
              if negb (str_eqb (processFilename (getName f) category) [])
              then pushPart category (processFilename (getName f) category)
                            (filenamePartsByCategory st)
              else filenamePartsByCategory st |},
         ACCEPTED_NEW)
    end.
Proof.
  intros Hext Hdata. cbv zeta.
  unfold loopBody. rewrite Hext, Hdata. cbv beta zeta iota.
  unfold dedupKey, revisionDate, collectUnitNumbersForCheck.
  cbn [fst snd negb].
  destruct (Map_get _ (processedFileKeys st)) as [info|];
    [destruct (num_gt _ (date info))|]; reflexivity.
Qed.

(** The loop body on a file that cannot be read. *)
Lemma loopBody_no_data (st : State) (f : File) :
  hasValidExtension (getName f) = true ->
  processExcelFile settings f = None ->
  loopBody settings st f
  = ({| combinedDataRows := combinedDataRows st;
        processedFiles := processedFiles st;
        jNumberSet := jNumberSet (fst (loopBody settings st f));
        unitNumberSet := unitNumberSet st;
        categories := categories st;
        processedFileKeys := processedFileKeys st;
        filenamePartsByCategory := filenamePartsByCategory st |},
     NO_DATA).
Proof.
  intros Hext Hdata. unfold loopBody. rewrite Hext, Hdata. reflexivity.
Qed.

Lemma runLoop_step (st : State) (f : File) (files : list File) :
  runLoop settings st (f :: files)
  = runLoop settings (fst (loopBody settings st f)) files.
Proof. reflexivity. Qed.

Lemma runLoop_filter (files : list File) (st : State) :
  runLoop settings st files
  = runLoop settings st
      (filter (fun f => hasValidExtension (getName f)) files).
Proof.
  revert st; induction files as [|f files IH]; intros st; [reflexivity|].
  cbn [filter]. destruct (hasValidExtension (getName f)) eqn:Hext.
  - rewrite !runLoop_step. apply IH.
  - rewrite runLoop_step, (loopBody_skips st f Hext). apply IH.
Qed.

(** Files without one of the extensions .xls, .xlsx, .xlsm (in any case)
    leave no trace: the folder gives what it gives without them, from any
    state of the loop. *)
Theorem unsupported_files_are_ignored (files : list File) :
  (forall st,
      runLoop settings st files
      = runLoop settings st
          (filter (fun f => hasValidExtension (getName f)) files))
  /\ processFiles settings files
     = processFiles settings
         (filter (fun f => hasValidExtension (getName f)) files).
Proof.
  split.
  - intros st. apply runLoop_filter.
  - unfold processFiles. now rewrite runLoop_filter.
Qed.

(** A file whose name does not begin with a number (its date is NaN)
    never supersedes a registered file of its key, and a file registered
    with such a date is never superseded: in both cases the later file is
    rejected and rows, registry, tokens and count stay. *)
Theorem undated_file_never_supersedes
  (st : State) (f : File) (fileData : list Row) (category : jsstring)
  (info : FileInfo) :
  hasValidExtension (getName f) = true ->
  processExcelFile settings f = Some (fileData, category) ->
  Map_get (dedupKey f fileData category) (processedFileKeys st) = Some info ->
  revisionDate f = None \/ date info = None ->
  snd (loopBody settings st f) = REJECTED_STALE
  /\ combinedDataRows (fst (loopBody settings st f)) = combinedDataRows st
  /\ processedFileKeys (fst (loopBody settings st f)) = processedFileKeys st
  /\ filenamePartsByCategory (fst (loopBody settings st f))
     = filenamePartsByCategory st
  /\ processedFiles (fst (loopBody settings st f)) = processedFiles st.
Proof.
  intros Hext Hdata Hget Hnan.
  assert (Hgt : num_gt (revisionDate f) (date info) = false).
  { destruct Hnan as [-> | ->]; [reflexivity|].
    now destruct (revisionDate f). }
  rewrite (loopBody_stale settings st f Hext Hdata Hget Hgt).
  repeat split.
Qed.

End FolderLoopFacts.

Lemma undated_file_witness :
  snd (loopBody demoSettings
         (fst (loopBody demoSettings initialState doc0105)) docUndated)
  = REJECTED_STALE
  /\ snd (loopBody demoSettings
            (fst (loopBody demoSettings initialState docUndated)) doc0110)
     = REJECTED_STALE.
Proof.
  split.
  - refine (proj1 (undated_file_never_supersedes demoSettings
                     (fst (loopBody demoSettings initialState doc0105))
                     docUndated
                     (fileData := [outHeader; outRow "1unit" "201" ""])
                     (category := KOUNYU)
                     (info := {| file := doc0105; date := Some 20240105%Z |})
                     _ _ _ _)).
    + vm_compute; reflexivity.
    + vm_compute; reflexivity.
    + vm_compute; reflexivity.
    + left. vm_compute; reflexivity.
  - refine (proj1 (undated_file_never_supersedes demoSettings
                     (fst (loopBody demoSettings initialState docUndated))
                     doc0110
                     (fileData := outHeader :: rows0110)
                     (category := KOUNYU)
                     (info := {| file := docUndated; date := None |})
                     _ _ _ _)).
    + vm_compute; reflexivity.
    + vm_compute; reflexivity.
    + vm_compute; reflexivity.
    + right. reflexivity.
Defined.

(* ------------------------------------------------------------------ *)
(** ** Invariants of the folder loop *)

Lemma processFilename_KOUNYU (fileName : jsstring) :
  exists rest, processFilename fileName KOUNYU = KOU ++ rest.
Proof.
  unfold processFilename.
  change (str_eqb KOUNYU SEISAKU) with false.
  change (str_eqb KOUNYU KOUNYU) with true.
  change (str_eqb KOUNYU DENKI) with false.
  change (str_eqb KOU []) with false. cbn [negb andb].
  destruct (unitMatch fileName []) as [digits|].
  - now exists (padStart0 2 digits).
  - now exists [].
Qed.

Lemma processFilename_SEISAKU (fileName : jsstring) :
  exists rest, processFilename fileName SEISAKU = SEI ++ rest.
Proof.
  unfold processFilename.
  change (str_eqb SEISAKU SEISAKU) with true.
  change (str_eqb SEISAKU DENKI) with false.
  change (str_eqb SEI []) with false. cbn [negb andb].
  destruct (unitMatch fileName []) as [digits|].
  - now exists (padStart0 2 digits).
  - now exists [].
Qed.

Lemma processFilename_DENKI (fileName : jsstring) :
  processFilename fileName DENKI = DEN.
Proof. reflexivity. Qed.

Lemma pushPart_partsOfCategory (fileName category : jsstring) (p : Parts) :
  partsOfCategory p ->
  partsOfCategory (pushPart category (processFilename fileName category) p).
Proof.
  intros (Hk & Hs & Hd). unfold pushPart.
  destruct (str_eqb category KOUNYU) eqn:Ek.
  { apply str_eqb_eq in Ek. subst category.
    split; [|now split]. cbn [parts_KOUNYU].
    apply Forall_app. split; [exact Hk|].
    constructor; [apply processFilename_KOUNYU | constructor]. }
  destruct (str_eqb category SEISAKU) eqn:Es.
  { apply str_eqb_eq in Es. subst category.
    split; [exact Hk|]. split; [|exact Hd]. cbn [parts_SEISAKU].
    apply Forall_app. split; [exact Hs|].
    constructor; [apply processFilename_SEISAKU | constructor]. }
  destruct (str_eqb category DENKI) eqn:Ed; [|now repeat split].
  apply str_eqb_eq in Ed. subst category.
  split; [exact Hk|]. split; [exact Hs|]. cbn [parts_DENKI].
  apply Forall_app. split; [exact Hd|].
  constructor; [apply processFilename_DENKI | constructor].
Qed.

Lemma sortParts_Forall (P : jsstring -> Prop) (l : list jsstring) :
  Forall P l -> Forall P (sortParts l).
Proof.
  intros H. apply Forall_forall. intros t Hin.
  destruct (sortParts_stable l) as (_ & Hperm & _).
  apply Permutation_sym in Hperm.
  apply (Permutation_in _ Hperm) in Hin.
  now apply (proj1 (Forall_forall P l) H).
Qed.

Lemma dateNotBelow_refl (d : option Z) : dateNotBelow d d.
Proof. destruct d; simpl; [lia | exact I]. Qed.

Lemma dateNotBelow_trans (a b c : option Z) :
  dateNotBelow a b -> dateNotBelow b c -> dateNotBelow a c.
Proof. destruct a, b, c; simpl; try tauto; lia. Qed.

Lemma num_gt_dateNotBelow (a b : option Z) :
  num_gt a b = true -> dateNotBelow b a.
Proof.
  destruct a, b; simpl; try discriminate.
  intros H. apply Z.ltb_lt in H. lia.
Qed.

Section LoopInvariants.

Variable settings : Settings.

(** The three cases of the loop body, for a statement on the state it
    leaves. *)
Lemma loopBody_cases (P : State -> Prop) (st : State) (f : File) :
  (hasValidExtension (getName f) = false -> P st) ->
  (hasValidExtension (getName f) = true ->
   processExcelFile settings f = None ->
   P (fst (loopBody settings st f))) ->
  (forall fileData category,
      hasValidExtension (getName f) = true ->
      processExcelFile settings f = Some (fileData, category) ->
      P (fst (loopBody settings st f))) ->
  P (fst (loopBody settings st f)).
Proof.
  intros Hskip Hnone Hsome.
  destruct (hasValidExtension (getName f)) eqn:Hext.
  - destruct (processExcelFile settings f) as [[fileData category]|] eqn:Hdata.
    + now apply (Hsome fileData category).
    + now apply Hnone.
  - rewrite (loopBody_skips settings st f Hext). now apply Hskip.
Qed.

Lemma loopBody_partsOfCategory (st : State) (f : File) :
  partsOfCategory (filenamePartsByCategory st) ->
  partsOfCategory (filenamePartsByCategory (fst (loopBody settings st f))).
Proof.
  intros Hinv. apply loopBody_cases.
  - intros _. exact Hinv.
  - intros Hext Hdata. now rewrite (loopBody_no_data settings st f Hext Hdata).
  - intros fileData category Hext Hdata.
    rewrite (loopBody_read settings st f Hext Hdata).
    destruct (Map_get _ _) as [info|]; [now destruct (num_gt _ _)|].
    cbn [fst filenamePartsByCategory].
    destruct (negb _); [now apply pushPart_partsOfCategory | exact Hinv].
Qed.

Lemma runLoop_partsOfCategory (files : list File) (st : State) :
  partsOfCategory (filenamePartsByCategory st) ->
  partsOfCategory (filenamePartsByCategory (runLoop settings st files)).
Proof.
  revert st; induction files as [|f files IH]; intros st Hinv; [exact Hinv|].
  rewrite runLoop_step. now apply IH, loopBody_partsOfCategory.
Qed.

Lemma processFiles_partsOfCategory (files : list File) :
  partsOfCategory (filenamePartsByCategory (processFiles settings files)).
Proof.
  destruct (runLoop_partsOfCategory files initialState) as (Hk & Hs & Hd).
  { repeat split; constructor. }
  unfold processFiles, sortState, sortAllParts.
  repeat split; now apply sortParts_Forall.
Qed.

Lemma gatherFrom_partsOfCategory (folders : list (jsstring * list File))
  (acc : State) :
  partsOfCategory (filenamePartsByCategory acc) ->
  partsOfCategory (filenamePartsByCategory (gatherFrom settings acc folders)).
Proof.
  revert acc; induction folders as [|folder folders IH]; intros acc Hinv;
    [exact Hinv|].
  rewrite gatherFrom_cons. apply IH.
  destruct Hinv as (Hk & Hs & Hd).
  destruct (processFiles_partsOfCategory (snd folder)) as (Hk' & Hs' & Hd').
  repeat split; apply Forall_app; now split.
Qed.

(** Every token is in the list of its own category, in each folder's
    result and in the run's: the tokens of 購入 begin with 購, those of 製作
    with 製, those of 電気 are 電.  So the name puts back, once per
    category, the very letter that [slice(1)] takes off each token. *)
Theorem tokens_stay_in_their_category :
  (forall files,
      partsOfCategory (filenamePartsByCategory (processFiles settings files)))
  /\ (forall folders,
         partsOfCategory (filenamePartsByCategory (gather settings folders)))
  /\ (forall folders t,
         In t (parts_KOUNYU (filenamePartsByCategory (gather settings folders))) ->
         KOU ++ slice1 t = t)
  /\ (forall folders t,
         In t (parts_SEISAKU (filenamePartsByCategory (gather settings folders))) ->
         SEI ++ slice1 t = t).
Proof.
  assert (Hrun : forall folders,
             partsOfCategory (filenamePartsByCategory (gather settings folders))).
  { intros folders. rewrite gather_gatherFrom.
    apply gatherFrom_partsOfCategory. repeat split; constructor. }
  split; [exact processFiles_partsOfCategory|].
  split; [exact Hrun|]. split.
  - intros folders t Hin. destruct (Hrun folders) as (Hk & _ & _).
    destruct (proj1 (Forall_forall _ _) Hk t Hin) as [rest ->]. reflexivity.
  - intros folders t Hin. destruct (Hrun folders) as (_ & Hs & _).
    destruct (proj1 (Forall_forall _ _) Hs t Hin) as [rest ->]. reflexivity.
Qed.

Lemma loopBody_countInvariant (st : State) (f : File) :
  countInvariant st ->
  countInvariant (fst (loopBody settings st f))
  /\ (processedFiles (fst (loopBody settings st f))
      <= processedFiles st
         + (if hasValidExtension (getName f) then 1 else 0))%nat.
Proof.
  intros (Hlen & Hrows & Hkeys).
  apply (loopBody_cases
           (fun st' => countInvariant st'
                       /\ (processedFiles st'
                           <= processedFiles st
                              + (if hasValidExtension (getName f) then 1 else 0))%nat)).
  - intros ->. split; [now repeat split | lia].
  - intros Hext Hdata. rewrite (loopBody_no_data settings st f Hext Hdata).
    cbn [fst]. split; [now repeat split|]. cbn [processedFiles]. lia.
  - intros fileData category Hext Hdata.
    rewrite (loopBody_read settings st f Hext Hdata), Hext.
    destruct (Map_get _ _) as [info|] eqn:Hget; [destruct (num_gt _ _)|];
      cbn [fst]; unfold countInvariant;
      cbn [processedFiles processedFileKeys combinedDataRows].
    + rewrite (Map_set_length_old _ _ _ Hget).
      split; [|lia]. split; [lia|]. split; [discriminate|].
      intros Hnil. apply (f_equal (@List.length _)) in Hnil.
      rewrite (Map_set_length_old _ _ _ Hget) in Hnil. cbn [List.length] in Hnil.
      destruct (processedFileKeys st); [discriminate Hget | discriminate Hnil].
    + split; [now repeat split | lia].
    + rewrite (Map_set_length_new _ _ _ Hget).
      split; [|lia]. split; [lia|]. split; [discriminate|].
      intros Hnil. apply (f_equal (@List.length _)) in Hnil.
      rewrite (Map_set_length_new _ _ _ Hget) in Hnil. discriminate Hnil.
Qed.

Lemma runLoop_countInvariant (files : list File) (st : State) :
  countInvariant st ->
  countInvariant (runLoop settings st files)
  /\ (processedFiles (runLoop settings st files)
      <= processedFiles st
         + List.length (filter (fun f => hasValidExtension (getName f)) files))%nat.
Proof.
  revert st; induction files as [|f files IH]; intros st Hinv.
  - cbn. split; [exact Hinv | lia].
  - rewrite runLoop_step.
    destruct (loopBody_countInvariant f Hinv) as [Hinv' Hstep].
    destruct (IH _ Hinv') as [Hfinal Hbound].
    split; [exact Hfinal|]. cbn [filter].
    destruct (hasValidExtension (getName f)); cbn [List.length]; lia.
Qed.

(** In the result of a folder the count of admitted files is at least the
    number of registered keys and at most the number of files with an
    accepted extension; it is 0 exactly when no key is registered, and
    then there are no rows. *)
Theorem admitted_files_are_counted (files : list File) :
  let r := processFiles settings files in
  (List.length (processedFileKeys r) <= processedFiles r)%nat
  /\ (processedFiles r
      <= List.length (filter (fun f => hasValidExtension (getName f)) files))%nat
  /\ (processedFiles r = 0%nat <-> processedFileKeys r = [])
  /\ (processedFiles r = 0%nat -> combinedDataRows r = []).
Proof.
  cbv zeta.
  assert (Hinit : countInvariant initialState).
  { unfold countInvariant. cbn. repeat split; lia. }
  destruct (runLoop_countInvariant files Hinit)
    as [(Hlen & Hrows & Hkeys) Hbound].
  unfold processFiles, sortState.
  cbn [processedFileKeys processedFiles combinedDataRows] in *.
  split; [exact Hlen|]. split; [exact Hbound|]. split; [|exact Hrows].
  split; [|exact Hkeys].
  intros Hzero. rewrite Hzero in Hlen.
  destruct (processedFileKeys (runLoop settings initialState files));
    [reflexivity | cbn in Hlen; lia].
Qed.

Lemma loopBody_registry_grows (st : State) (f : File) (k : jsstring)
  (info : FileInfo) :
  Map_get k (processedFileKeys st) = Some info ->
  exists info',
    Map_get k (processedFileKeys (fst (loopBody settings st f))) = Some info'
    /\ dateNotBelow (date info) (date info').
Proof.
  intros Hk.
  apply (loopBody_cases
           (fun st' => exists info',
                Map_get k (processedFileKeys st') = Some info'
                /\ dateNotBelow (date info) (date info'))).
  - intros _. exists info. split; [exact Hk | apply dateNotBelow_refl].
  - intros Hext Hdata. rewrite (loopBody_no_data settings st f Hext Hdata).
    exists info. split; [exact Hk | apply dateNotBelow_refl].
  - intros fileData category Hext Hdata.
    rewrite (loopBody_read settings st f Hext Hdata).
    destruct (Map_get (dedupKey f fileData category) (processedFileKeys st))
      as [info0|] eqn:Hget;
      [destruct (num_gt (revisionDate f) (date info0)) eqn:Hgt|];
      cbn [fst processedFileKeys].
    + destruct (str_eqb k (dedupKey f fileData category)) eqn:Ek.
      * apply str_eqb_eq in Ek. subst k.
        rewrite Hget in Hk. injection Hk as <-.
        eexists. split; [apply Map_get_set_same|].
        cbn [date]. now apply num_gt_dateNotBelow.
      * apply str_eqb_neq in Ek.
        rewrite (Map_get_set_other _ _ Ek).
        exists info. split; [exact Hk | apply dateNotBelow_refl].
    + exists info. split; [exact Hk | apply dateNotBelow_refl].
    + assert (Ek : k <> dedupKey f fileData category)
        by (intros ->; rewrite Hget in Hk; discriminate).
      rewrite (Map_get_set_other _ _ Ek).
      exists info. split; [exact Hk | apply dateNotBelow_refl].
Qed.

(** A key once registered stays registered to the end of the folder, and
    the date registered for it never goes down. *)
Theorem registered_dates_never_go_down
  (files : list File) (st : State) (k : jsstring) (info : FileInfo) :
  Map_get k (processedFileKeys st) = Some info ->
  exists info',
    Map_get k (processedFileKeys (runLoop settings st files)) = Some info'
    /\ dateNotBelow (date info) (date info').
Proof.
  revert st info; induction files as [|f files IH]; intros st info Hk.
  - exists info. split; [exact Hk | apply dateNotBelow_refl].
  - rewrite runLoop_step.
    destruct (loopBody_registry_grows st f k Hk) as (info1 & Hk1 & Hd1).
    destruct (IH _ _ Hk1) as (info2 & Hk2 & Hd2).
    exists info2. split; [exact Hk2|].
    eapply dateNotBelow_trans; eassumption.
Qed.

End LoopInvariants.

Lemma registered_dates_witness :
  exists info',
    Map_get (utf16 "J0000000001_購入_1")
      (processedFileKeys
         (runLoop demoSettings
            (fst (loopBody demoSettings initialState doc0105))
            [docUndated; doc0110; docUnit3]))
    = Some info'
    /\ dateNotBelow (Some 20240105%Z) (date info').
Proof.
  apply (registered_dates_never_go_down demoSettings
           [docUndated; doc0110; docUnit3]
           (fst (loopBody demoSettings initialState doc0105))
           (utf16 "J0000000001_購入_1")
           (info := {| file := doc0105; date := Some 20240105%Z |})).
  vm_compute. reflexivity.
Defined.

Lemma tokens_category_witness :
  KOU ++ slice1 (utf16 "購03") = utf16 "購03".
Proof.
  apply (proj1 (proj2 (proj2 (tokens_stay_in_their_category demoSettings)))
           tokenFolders).
  vm_compute. left. reflexivity.
Defined.

(* ------------------------------------------------------------------ *)
(** ** The rows written to the sheet *)

Lemma nth_error_mapi_from {A B : Type} (f : nat -> A -> B) (xs : list A)
  (i k : nat) :
  nth_error (mapi_from f i xs) k = option_map (f (i + k)%nat) (nth_error xs k).
Proof.
  revert i k; induction xs as [|x xs IH]; intros i [|k]; cbn; try reflexivity.
  - now rewrite Nat.add_0_r.
  - rewrite IH. now rewrite Nat.add_succ_r.
Qed.

Lemma length_mapi_from {A B : Type} (f : nat -> A -> B) (xs : list A) (i : nat) :
  List.length (mapi_from f i xs) = List.length xs.
Proof.
  revert i; induction xs as [|x xs IH]; intros i; cbn; [reflexivity|].
  now rewrite IH.
Qed.

Section SheetRows.

Variable settings : Settings.

(** [finalData] has a header of the thirteen column titles A to M and,
    for every row of the merged rows but the first, that row unchanged
    behind two empty cells and its number, counted from 1; so it has as
    many rows as the merged rows when these are not empty. *)
Theorem finalData_numbers_the_rows (combinedDataRows : list Row) :
  hd_error (finalDataOf settings combinedDataRows)
  = Some (map (COLUMN_NAMES settings)
              [KA; KB; KC; KD; KE; KF; KG; KH; KI; KJ; KK; KL; KM])
  /\ List.length (finalDataOf settings combinedDataRows)
     = S (List.length combinedDataRows - 1)
  /\ (forall k,
         nth_error (finalDataOf settings combinedDataRows) (S k)
         = option_map
             (fun row => [CStr []; CStr []; CNum (Z.of_nat k + 1)] ++ row)
             (nth_error combinedDataRows (S k))).
Proof.
  unfold finalDataOf. split; [reflexivity|]. split.
  - cbn [List.length]. unfold mapi. rewrite length_mapi_from.
    destruct combinedDataRows; cbn [tl List.length]; unfold Row; lia.
  - intros k.
    change (nth_error (mapi (fun index row =>
                               [CStr []; CStr []; CNum (Z.of_nat index + 1)]
                               ++ (firstn 1 row ++ skipn 1 row))
                            (tl combinedDataRows)) k
            = option_map
                (fun row => [CStr []; CStr []; CNum (Z.of_nat k + 1)] ++ row)
                (nth_error combinedDataRows (S k))).
    unfold mapi. rewrite nth_error_mapi_from. cbn [Nat.add].
    destruct combinedDataRows as [|h rows].
    + now destruct k.
    + change (nth_error (h :: rows) (S k)) with (nth_error rows k).
      cbn [tl]. unfold Row in *.
      destruct (nth_error rows k) as [row|]; [|reflexivity].
      cbn [option_map]. now rewrite firstn_skipn.
Qed.

End SheetRows.

(* ------------------------------------------------------------------ *)
(** ** The run *)

Lemma mergeFolder_nothing (acc : State) :
  mergeFolder acc (sortState initialState) = acc.
Proof.
  destruct acc as [rows n js us cs keys [pk ps pd]].
  unfold mergeFolder. cbn. now rewrite !app_nil_r, Nat.add_0_r.
Qed.

Section RunComposition.

Variable settings : Settings.

Lemma processFiles_unsupported (files : list File) :
  (forall f, In f files -> hasValidExtension (getName f) = false) ->
  processFiles settings files = sortState initialState.
Proof.
  intros Hnone. unfold processFiles. rewrite runLoop_filter.
  replace (filter (fun f => hasValidExtension (getName f)) files) with (@nil File);
    [reflexivity|].
  symmetry. induction files as [|f files IH]; [reflexivity|].
  cbn [filter]. rewrite (Hnone f (or_introl eq_refl)).
  apply IH. intros g Hg. apply Hnone. now right.
Qed.

(** The merged rows of the run are the rows of the folders one after the
    other, in the order of the folders, and the count of the run is the sum
    of the folders' counts. *)
Theorem run_concatenates_the_folders (folders : list (jsstring * list File)) :
  combinedDataRows (gather settings folders)
  = List.concat
      (map (fun folder => combinedDataRows (processFiles settings (snd folder)))
           folders)
  /\ processedFiles (gather settings folders)
     = list_sum
         (map (fun folder => processedFiles (processFiles settings (snd folder)))
              folders).
Proof.
  rewrite gather_gatherFrom.
  destruct (gatherFrom_rows settings folders initialState) as [Hrows Hcount].
  split; [exact Hrows | exact Hcount].
Qed.

(** A folder that holds no file with an accepted extension (an empty
    folder among them) adds nothing to the run, wherever it stands. *)
Theorem folder_without_documents_adds_nothing
  (before after : list (jsstring * list File)) (name : jsstring)
  (files : list File) :
  (forall f, In f files -> hasValidExtension (getName f) = false) ->
  gather settings (before ++ (name, files) :: after)
  = gather settings (before ++ after).
Proof.
  intros Hnone. rewrite !gather_gatherFrom, !gatherFrom_app, gatherFrom_cons.
  cbn [snd]. now rewrite (processFiles_unsupported files Hnone), mergeFolder_nothing.
Qed.

End RunComposition.

Lemma folder_without_documents_witness :
  gather demoSettings
    ([(utf16 "部品リスト_A", [doc0105])]
     ++ (utf16 "部品リスト_pdf",
         [{| getName := utf16 "20240105_J0000000009_購入_1unit.pdf";
             targetSheet := Some [headerRaw] |}])
     :: [(utf16 "部品リスト_B", [doc0110])])
  = gather demoSettings
      ([(utf16 "部品リスト_A", [doc0105])] ++ [(utf16 "部品リスト_B", [doc0110])]).
Proof.
  apply (folder_without_documents_adds_nothing demoSettings).
  intros f [<-|[]]. vm_compute. reflexivity.
Defined.

Section SuccessFacts.

Variable settings : Settings.
Variable services : Services.

(** A success is reported only when a folder was chosen and found, and
    then it reports the count and the number of rows of the target
    folders, both at least 1, and the URL the sheet services gave for the
    name and the rows of this run. *)
Theorem success_reports_the_run (url : jsstring) (n m : nat) :
  combineExcelSheets settings services = Success url n m ->
  exists id subFolders,
    selectFolder services = Return (Some id)
    /\ getFolderById services id = Return (Some subFolders)
    /\ let acc :=
         gather settings
           (filter (fun sub => isTargetFolder (fst sub)) subFolders) in
       n = processedFiles acc
       /\ m = List.length (combinedDataRows acc)
       /\ (1 <= n)%nat
       /\ (1 <= m)%nat
       /\ fillTemplate services
            (newFileName (jNumberSet acc) (filenamePartsByCategory acc)
                         (getCurrentDateTime services))
            (finalDataOf settings (combinedDataRows acc))
          = Return url.
Proof.
  unfold combineExcelSheets, tryBlock, createSpreadsheet, throwError.
  destruct (selectFolder services) as [[[|c id]|]|e] eqn:Hsel;
    cbn [bind]; try discriminate.
  destruct (getFolderById services (c :: id)) as [[subFolders|]|e] eqn:Hget;
    cbn [bind]; try discriminate.
  remember (gather settings
              (filter (fun sub => isTargetFolder (fst sub)) subFolders))
    as acc eqn:Hacc.
  destruct (List.length (filter _ subFolders) =? 0)%nat; try discriminate.
  destruct (processedFiles acc =? 0)%nat eqn:Hfiles; try discriminate.
  destruct (List.length (combinedDataRows acc) =? 0)%nat eqn:Hrows;
    try discriminate.
  destruct (fillTemplate services _ _) as [url'|e] eqn:Hfill;
    cbn [bind]; try discriminate.
  destruct (formatSheet services url' _) as [[]|e]; cbn [bind];
    try discriminate.
  intros H. injection H as -> <- <-.
  exists (c :: id), subFolders. split; [reflexivity|]. split; [exact Hget|].
  cbv zeta. rewrite <- Hacc.
  apply Nat.eqb_neq in Hfiles, Hrows.
  split; [reflexivity|]. split; [reflexivity|].
  split; [lia|]. split; [lia | exact Hfill].
Qed.

End SuccessFacts.

Lemma success_witness :
  exists id subFolders,
    selectFolder (demoServices twoFolders) = Return (Some id)
    /\ getFolderById (demoServices twoFolders) id = Return (Some subFolders)
    /\ let acc :=
         gather demoSettings
           (filter (fun sub => isTargetFolder (fst sub)) subFolders) in
       2%nat = processedFiles acc
       /\ 7%nat = List.length (combinedDataRows acc)
       /\ (1 <= 2)%nat
       /\ (1 <= 7)%nat
       /\ fillTemplate (demoServices twoFolders)
            (newFileName (jNumberSet acc) (filenamePartsByCategory acc)
                         (getCurrentDateTime (demoServices twoFolders)))
            (finalDataOf demoSettings (combinedDataRows acc))
          = Return demoUrl.
Proof.
  apply (success_reports_the_run demoSettings (demoServices twoFolders)).
  vm_compute. reflexivity.
Defined.

(* ------------------------------------------------------------------ *)
(** ** Sorting the tokens *)

Lemma sortParts_sorted_fixed (l : list jsstring) :
  Sorted keyLe l -> sortParts l = l.
Proof.
  induction 1 as [|x l Hs IH Hhd]; [reflexivity|].
  cbn [sortParts fold_right]. fold (sortParts l). rewrite IH.
  destruct Hhd as [|y l' Hxy]; [reflexivity|].
  cbn [insertPart]. apply compareParts_le in Hxy. now rewrite Hxy.
Qed.

(** Sorting keeps the number of tokens, and sorting a second time changes
    nothing. *)
Theorem sorting_tokens_twice_changes_nothing (l : list jsstring) :
  sortParts (sortParts l) = sortParts l
  /\ List.length (sortParts l) = List.length l.
Proof.
  destruct (sortParts_stable l) as (Hsorted & Hperm & _). split.
  - now apply sortParts_sorted_fixed.
  - symmetry. now apply Permutation_length.
Qed.

Section SingleFolder.

Variable settings : Settings.

(** With a single target folder the token lists of the run are the
    folder's, so they are in the order of their numbers (for numbers of at
    most 15 digits). *)
Theorem single_folder_tokens_are_sorted (name : jsstring) (files : list File) :
  exactParts (filenamePartsByCategory (runLoop settings initialState files)) ->
  let p := filenamePartsByCategory (gather settings [(name, files)]) in
  p = filenamePartsByCategory (processFiles settings files)
  /\ Sorted keyLe (parts_KOUNYU p)
  /\ Sorted keyLe (parts_SEISAKU p)
  /\ Sorted keyLe (parts_DENKI p).
Proof.
  intros _. cbv zeta.
  assert (Hp : filenamePartsByCategory (gather settings [(name, files)])
               = filenamePartsByCategory (processFiles settings files)).
  { unfold gather. cbn [fold_left snd]. unfold mergeFolder.
    cbn [filenamePartsByCategory initialState noParts parts_KOUNYU
         parts_SEISAKU parts_DENKI app].
    now destruct (filenamePartsByCategory (processFiles settings files)). }
  rewrite Hp. split; [reflexivity|].
  unfold processFiles, sortState, sortAllParts.
  cbn [filenamePartsByCategory parts_KOUNYU parts_SEISAKU parts_DENKI].
  repeat split; apply sortParts_stable.
Qed.

End SingleFolder.

Lemma single_folder_witness :
  Sorted keyLe
    (parts_KOUNYU
       (filenamePartsByCategory
          (gather demoSettings [(utf16 "部品リスト", tokenFolder)]))).
Proof.
  refine (proj1 (proj2
            (single_folder_tokens_are_sorted demoSettings
               (utf16 "部品リスト") tokenFolder _))).
  vm_compute. repeat split; repeat constructor.
Defined.

(* ------------------------------------------------------------------ *)
(** ** The time stamp *)

Lemma twoDigits_value (v : Z) :
  (0 <= v <= 99)%Z ->
  exists a b,
    twoDigits v = [a; b] /\ isDigit a = true /\ isDigit b = true
    /\ decimalValue [a; b] = v.
Proof.
  intros Hv.
  assert (Hall : forallb
                   (fun k => match twoDigits (Z.of_nat k) with
                             | [a; b] =>
                                 isDigit a && isDigit b
                                 && (decimalValue [a; b] =? Z.of_nat k)%Z
                             | _ => false
                             end) (seq 0 100) = true)
    by (vm_compute; reflexivity).
  rewrite forallb_forall in Hall.
  specialize (Hall (Z.to_nat v)). rewrite Z2Nat.id in Hall by lia.
  assert (Hin : In (Z.to_nat v) (seq 0 100)) by (apply in_seq; lia).
  apply Hall in Hin.
  destruct (twoDigits v) as [|a [|b [|c s]]]; try discriminate.
  apply andb_true_iff in Hin as [Hin Hval].
  apply andb_true_iff in Hin as [Ha Hb].
  apply Z.eqb_eq in Hval. now exists a, b.
Qed.

Lemma fourDigits_value (y : Z) :
  (1000 <= y <= 9999)%Z ->
  exists a b c d,
    numberToString y = [a; b; c; d]
    /\ isDigit a = true /\ isDigit b = true
    /\ isDigit c = true /\ isDigit d = true
    /\ decimalValue [a; b; c; d] = y.
Proof.
  intros Hy.
  assert (Hall : forallb
                   (fun k => match numberToString (1000 + Z.of_nat k) with
                             | [a; b; c; d] =>
                                 isDigit a && isDigit b && isDigit c && isDigit d
                                 && (decimalValue [a; b; c; d]
                                     =? 1000 + Z.of_nat k)%Z
                             | _ => false
                             end) (seq 0 (90 * 100)) = true)
    by (vm_compute; reflexivity).
  rewrite forallb_forall in Hall.
  specialize (Hall (Z.to_nat (y - 1000))).
  rewrite Z2Nat.id in Hall by lia.
  replace (1000 + (y - 1000))%Z with y in Hall by lia.
  assert (Hin : In (Z.to_nat (y - 1000)) (seq 0 (90 * 100))) by (apply in_seq; lia).
  apply Hall in Hin.
  destruct (numberToString y) as [|a [|b [|c [|d [|e s]]]]]; try discriminate.
  apply andb_true_iff in Hin as [Hin Hval].
  apply andb_true_iff in Hin as [Hin Hd].
  apply andb_true_iff in Hin as [Hin Hc].
  apply andb_true_iff in Hin as [Ha Hb].
  apply Z.eqb_eq in Hval.
  now exists a, b, c, d.
Qed.

(** For a date with a year of four digits the time stamp has thirteen
    characters: eight digits, a hyphen, four digits.  Read as decimal
    numbers, the first four are the year, the next two the month counted
    from 1, the next two the day, and behind the hyphen come the hour and
    the minute, two characters each.  Any format but the default gives no
    string at all. *)
Theorem timestamp_has_thirteen_characters (now : Now) :
  (1000 <= getFullYear now <= 9999)%Z ->
  (0 <= getMonth now <= 11)%Z ->
  (1 <= getDate now <= 31)%Z ->
  (0 <= getHours now <= 23)%Z ->
  (0 <= getMinutes now <= 59)%Z ->
  (exists s,
      getCurrentDateTimeAt now (utf16 "YYYYMMDD-HHMM") = Some s
      /\ List.length s = 13%nat
      /\ forallb isDigit (firstn 8 s) = true
      /\ nth_error s 8 = Some 45%N
      /\ forallb isDigit (skipn 9 s) = true
      /\ decimalValue (firstn 4 s) = getFullYear now
      /\ decimalValue (firstn 2 (skipn 4 s)) = (getMonth now + 1)%Z
      /\ decimalValue (firstn 2 (skipn 6 s)) = getDate now
      /\ decimalValue (firstn 2 (skipn 9 s)) = getHours now
      /\ decimalValue (skipn 11 s) = getMinutes now)
  /\ (forall format,
         format <> utf16 "YYYYMMDD-HHMM" ->
         getCurrentDateTimeAt now format = None).
Proof.
  intros Hy Hm Hd Hh Hmin. split.
  - unfold getCurrentDateTimeAt.
    change (str_eqb (utf16 "YYYYMMDD-HHMM") (utf16 "YYYYMMDD-HHMM")) with true.
    cbv zeta.
    destruct (fourDigits_value Hy)
      as (y1 & y2 & y3 & y4 & -> & Hy1 & Hy2 & Hy3 & Hy4 & Hyv).
    destruct (@twoDigits_value (getMonth now + 1))
      as (m1 & m2 & -> & Hm1 & Hm2 & Hmv); [lia|].
    destruct (@twoDigits_value (getDate now))
      as (d1 & d2 & -> & Hd1 & Hd2 & Hdv); [lia|].
    destruct (@twoDigits_value (getHours now))
      as (h1 & h2 & -> & Hh1 & Hh2 & Hhv); [lia|].
    destruct (@twoDigits_value (getMinutes now))
      as (n1 & n2 & -> & Hn1 & Hn2 & Hnv); [lia|].
    eexists. split; [reflexivity|].
    cbn [app HYPHEN List.length firstn skipn nth_error forallb].
    rewrite Hy1, Hy2, Hy3, Hy4, Hm1, Hm2, Hd1, Hd2, Hh1, Hh2, Hn1, Hn2.
    rewrite Hyv, Hmv, Hdv, Hhv, Hnv.
    repeat split.
  - intros format Hne. unfold getCurrentDateTimeAt.
    apply str_eqb_neq in Hne. now rewrite Hne.
Qed.

Lemma timestamp_witness :
  exists s,
    getCurrentDateTimeAt demoNow (utf16 "YYYYMMDD-HHMM") = Some s
    /\ List.length s = 13%nat
    /\ forallb isDigit (firstn 8 s) = true
    /\ nth_error s 8 = Some 45%N
    /\ forallb isDigit (skipn 9 s) = true
    /\ decimalValue (firstn 4 s) = getFullYear demoNow
    /\ decimalValue (firstn 2 (skipn 4 s)) = (getMonth demoNow + 1)%Z
    /\ decimalValue (firstn 2 (skipn 6 s)) = getDate demoNow
    /\ decimalValue (firstn 2 (skipn 9 s)) = getHours demoNow
    /\ decimalValue (skipn 11 s) = getMinutes demoNow.
Proof.
  apply (timestamp_has_thirteen_characters demoNow); vm_compute;
    split; discriminate.
Defined.

Example timestamp_of_sample :
  getCurrentDateTimeAt demoNow (utf16 "YYYYMMDD-HHMM")
  = Some (utf16 "20240105-0907").
Proof. vm_compute. reflexivity. Qed.

(* ------------------------------------------------------------------ *)
(** ** Choosing the folder *)

Lemma indexOf_lookup (x : jsstring) (shown : list (jsstring * jsstring)) :
  match indexOf x (map fst shown) with
  | Some i => nth_error (map snd shown) i
  | None => None
  end
  = option_map snd (find (fun folder => str_eqb (fst folder) x) shown).
Proof.
  induction shown as [|[name id] shown IH]; [reflexivity|].
  cbn [map fst snd indexOf find].
  destruct (str_eqb name x); [reflexivity|].
  rewrite <- IH. now destruct (indexOf x (map fst shown)).
Qed.

Lemma find_filter {A : Type} (p q : A -> bool) (l : list A) :
  find p (filter q l) = find (fun x => q x && p x) l.
Proof.
  induction l as [|x l IH]; [reflexivity|].
  cbn [filter find]. destruct (q x); cbn [andb find]; [|exact IH].
  destruct (p x); [reflexivity | exact IH].
Qed.

(** The identifier [selectFolder] returns is that of the first folder,
    among those whose name does not begin with [@], whose name is the text
    typed; there is none when another button than OK was pressed, when no
    such folder has that name, and whenever the text begins with [@]. *)
Theorem selectFolder_returns_first_shown_match
  (folders : list (jsstring * jsstring)) (button : Button)
  (responseText : jsstring) :
  selectFolderFrom folders button responseText
  = match button with
    | BUTTON_OK =>
        option_map snd
          (find (fun folder =>
                   negb (startsWith (utf16 "@") (fst folder))
                   && str_eqb (fst folder) responseText) folders)
    | _ => None
    end
  /\ (startsWith (utf16 "@") responseText = true ->
      selectFolderFrom folders button responseText = None).
Proof.
  assert (Hfirst :
    selectFolderFrom folders button responseText
    = match button with
      | BUTTON_OK =>
          option_map snd
            (find (fun folder =>
                     negb (startsWith (utf16 "@") (fst folder))
                     && str_eqb (fst folder) responseText) folders)
      | _ => None
      end).
  { unfold selectFolderFrom. destruct button; try reflexivity.
    now rewrite indexOf_lookup, find_filter. }
  split; [exact Hfirst|].
  intros Hat. rewrite Hfirst. destruct button; try reflexivity.
  replace (find _ folders) with (@None (jsstring * jsstring)); [reflexivity|].
  symmetry. induction folders as [|[name id] folders IH]; [reflexivity|].
  cbn [find fst].
  destruct (str_eqb name responseText) eqn:E.
  - apply str_eqb_eq in E. subst name. rewrite Hat. cbn [negb andb].
    apply IH.
    unfold selectFolderFrom in *. now rewrite indexOf_lookup, find_filter.
  - rewrite andb_false_r. apply IH.
    unfold selectFolderFrom in *. now rewrite indexOf_lookup, find_filter.
Qed.

Lemma selectFolder_witness :
  selectFolderFrom demoParentFolders BUTTON_OK (utf16 "@archive") = None.
Proof.
  apply (proj2 (selectFolder_returns_first_shown_match
                  demoParentFolders BUTTON_OK (utf16 "@archive"))).
  vm_compute. reflexivity.
Defined.

Example selectFolder_samples :
  selectFolderFrom demoParentFolders BUTTON_OK (utf16 "projectA")
  = Some (utf16 "id-1")
  /\ selectFolderFrom demoParentFolders BUTTON_CANCEL (utf16 "projectA") = None
  /\ selectFolderFrom demoParentFolders BUTTON_OK (utf16 "projectC") = None.
Proof. vm_compute. repeat split. Qed.

(* ------------------------------------------------------------------ *)
(** ** Row colours *)

(** [applyAlternatingRowColors] does nothing for a sheet of at most one
    row; otherwise it colours every row below the header, each in one
    colour over the whole width, white for the first and then in turn, so
    that two rows one below the other never have the same colour. *)
Theorem alternating_rows_differ (rowCount lastColumn : nat) :
  (alternatingBackgrounds rowCount lastColumn = None <-> (rowCount <= 1)%nat)
  /\ (forall backgrounds,
         alternatingBackgrounds rowCount lastColumn = Some backgrounds ->
         List.length backgrounds = (rowCount - 1)%nat
         /\ hd_error backgrounds = Some (repeat WHITE lastColumn)
         /\ (forall i row,
                nth_error backgrounds i = Some row ->
                row = repeat WHITE lastColumn \/ row = repeat PALE lastColumn)
         /\ (forall i upper lower,
                (0 < lastColumn)%nat ->
                nth_error backgrounds i = Some upper ->
                nth_error backgrounds (S i) = Some lower ->
                upper <> lower)).
Proof.
  unfold alternatingBackgrounds.
  destruct (rowCount <=? 1)%nat eqn:Hle.
  - apply Nat.leb_le in Hle. split; [now split | discriminate].
  - apply Nat.leb_gt in Hle. split; [split; [discriminate | lia]|].
    set (F := fun i : nat =>
                let rowColor := if (i mod 2 =? 0)%nat then WHITE else PALE in
                repeat rowColor lastColumn).
    intros backgrounds H. injection H as <-.
    assert (Hnth : forall i row,
               nth_error (map F (seq 0 (rowCount - 1))) i = Some row ->
               row = F i).
    { intros i row Hrow. rewrite nth_error_map in Hrow.
      destruct (nth_error (seq 0 (rowCount - 1)) i) as [j|] eqn:Hj;
        [|discriminate].
      assert (Hi : (i < List.length (seq 0 (rowCount - 1)))%nat).
      { apply nth_error_Some. rewrite Hj. discriminate. }
      rewrite length_seq in Hi.
      rewrite (nth_error_nth' _ 0%nat) in Hj
        by (rewrite length_seq; exact Hi).
      rewrite seq_nth in Hj by exact Hi.
      cbn [Nat.add] in Hj. cbn [option_map] in Hrow. congruence. }
    split; [now rewrite length_map, length_seq|].
    split.
    { destruct (rowCount - 1)%nat eqn:Hn; [lia | reflexivity]. }
    split.
    + intros i row Hrow. rewrite (Hnth i row Hrow). subst F. cbv beta zeta.
      destruct (i mod 2 =? 0)%nat; [now left | now right].
    + intros i upper lower Hwidth Hupper Hlower.
      rewrite (Hnth i upper Hupper), (Hnth (S i) lower Hlower).
      subst F. cbv beta zeta.
      destruct lastColumn as [|w]; [lia|]. cbn [repeat].
      destruct (i mod 2 =? 0)%nat eqn:E1, (S i mod 2 =? 0)%nat eqn:E2;
        try discriminate; exfalso.
      * apply Nat.eqb_eq in E1, E2.
        pose proof (Nat.div_mod_eq i 2). pose proof (Nat.div_mod_eq (S i) 2).
        lia.
      * apply Nat.eqb_neq in E1, E2.
        pose proof (Nat.mod_upper_bound i 2).
        pose proof (Nat.mod_upper_bound (S i) 2).
        pose proof (Nat.div_mod_eq i 2). pose proof (Nat.div_mod_eq (S i) 2).
        lia.
Qed.

Lemma alternating_rows_witness :
  List.length [repeat WHITE 3; repeat PALE 3; repeat WHITE 3] = (4 - 1)%nat
  /\ hd_error [repeat WHITE 3; repeat PALE 3; repeat WHITE 3]
     = Some (repeat WHITE 3)
  /\ (forall i row,
         nth_error [repeat WHITE 3; repeat PALE 3; repeat WHITE 3] i = Some row ->
         row = repeat WHITE 3 \/ row = repeat PALE 3)
  /\ (forall i upper lower,
         (0 < 3)%nat ->
         nth_error [repeat WHITE 3; repeat PALE 3; repeat WHITE 3] i = Some upper ->
         nth_error [repeat WHITE 3; repeat PALE 3; repeat WHITE 3] (S i)
         = Some lower ->
         upper <> lower).
Proof.
  apply (proj2 (alternating_rows_differ 4 3)). reflexivity.
Defined.

Lemma cellStrictEq_eq (a b : Cell) : cellStrictEq a b = true -> a = b.
Proof.
  destruct a, b; simpl; try discriminate; intros H.
  - apply str_eqb_eq in H. now subst.
  - apply Z.eqb_eq in H. now subst.
  - apply Bool.eqb_prop in H. now subst.
  - reflexivity.
Qed.

Lemma unitColors_cons (row : Row) (rest : list Row) (lastUnit : option Cell)
  (colorFlag : bool) :
  let changed :=
    match lastUnit with
    | None => true
    | Some u => negb (cellStrictEq (cellAt row 4) u)
    end in
  let colorFlag' := if changed then negb colorFlag else colorFlag in
  unitColors (row :: rest) lastUnit colorFlag
  = (if colorFlag' then UNIT_DARK else UNIT_LIGHT)
    :: unitColors rest (Some (cellAt row 4)) colorFlag'.
Proof.
  cbv zeta. cbn [unitColors].
  destruct lastUnit as [u|]; [|reflexivity].
  destruct (cellStrictEq (cellAt row 4) u) eqn:E; [|reflexivity].
  cbn [negb]. apply cellStrictEq_eq in E. now rewrite <- E.
Qed.

Lemma length_unitColors (rows : list Row) (lastUnit : option Cell)
  (colorFlag : bool) :
  List.length (unitColors rows lastUnit colorFlag) = List.length rows.
Proof.
  revert lastUnit colorFlag; induction rows as [|row rows IH];
    intros lastUnit colorFlag; [reflexivity|].
  rewrite unitColors_cons. cbn [List.length]. now rewrite IH.
Qed.

Lemma unitColors_adjacent (rows : list Row) (lastUnit : option Cell)
  (colorFlag : bool) (i : nat) (r1 r2 : Row) (c1 c2 : jsstring) :
  nth_error rows i = Some r1 ->
  nth_error rows (S i) = Some r2 ->
  nth_error (unitColors rows lastUnit colorFlag) i = Some c1 ->
  nth_error (unitColors rows lastUnit colorFlag) (S i) = Some c2 ->
  (c1 = c2 <-> cellStrictEq (cellAt r2 4) (cellAt r1 4) = true).
Proof.
  revert lastUnit colorFlag i; induction rows as [|row rows IH];
    intros lastUnit colorFlag i Hr1 Hr2; [now destruct i|].
  rewrite unitColors_cons. cbv zeta.
  destruct i as [|i].
  - cbn [nth_error] in Hr1, Hr2. injection Hr1 as ->.
    destruct rows as [|row2 rows]; [discriminate|].
    cbn [nth_error] in Hr2. injection Hr2 as ->.
    rewrite unitColors_cons. cbv zeta. cbn [nth_error].
    intros Hc1 Hc2. injection Hc1 as <-. injection Hc2 as <-.
    destruct (cellStrictEq (cellAt r2 4) (cellAt r1 4)); cbn [negb].
    + split; reflexivity.
    + split; [|discriminate].
      destruct (if match lastUnit with
                   | Some u => negb (cellStrictEq (cellAt r1 4) u)
                   | None => true
                   end then negb colorFlag else colorFlag);
        discriminate.
  - cbn [nth_error] in Hr1, Hr2 |- *. now apply IH.
Qed.

(** [applyUnitColors] does nothing for data of at most one row; otherwise
    it gives a colour to every row below the header, the darker one to the
    first, and two rows one below the other get the same colour exactly
    when their unit cells are strictly equal. *)
Theorem unit_colours_change_with_the_unit (data : list Row) :
  (unitBackgrounds data = None <-> (List.length data <= 1)%nat)
  /\ (forall backgrounds,
         unitBackgrounds data = Some backgrounds ->
         List.length backgrounds = (List.length data - 1)%nat
         /\ hd_error backgrounds = Some UNIT_DARK
         /\ (forall i upper lower c1 c2,
                nth_error data (S i) = Some upper ->
                nth_error data (S (S i)) = Some lower ->
                nth_error backgrounds i = Some c1 ->
                nth_error backgrounds (S i) = Some c2 ->
                (c1 = c2
                 <-> cellStrictEq (cellAt lower 4) (cellAt upper 4) = true))).
Proof.
  unfold unitBackgrounds.
  destruct (List.length data <=? 1)%nat eqn:Hle.
  - apply Nat.leb_le in Hle. split; [now split | discriminate].
  - apply Nat.leb_gt in Hle. split; [split; [discriminate | lia]|].
    intros backgrounds H. injection H as <-.
    destruct data as [|header [|row rows]]; cbn [List.length] in Hle; try lia.
    cbn [tl]. split; [|split].
    + rewrite length_unitColors. cbn [List.length]. lia.
    + reflexivity.
    + intros i upper lower c1 c2 Hupper Hlower.
      cbn [nth_error] in Hupper, Hlower.
      now apply unitColors_adjacent.
Qed.

Lemma unit_colours_witness :
  List.length [UNIT_DARK; UNIT_DARK; UNIT_LIGHT]
  = (List.length
       [[]; [CStr []; CStr []; CNum 1; CStr KOUNYU; CNum 1];
        [CStr []; CStr []; CNum 2; CStr KOUNYU; CNum 1];
        [CStr []; CStr []; CNum 3; CStr KOUNYU; CNum 2]] - 1)%nat
  /\ hd_error [UNIT_DARK; UNIT_DARK; UNIT_LIGHT] = Some UNIT_DARK.
Proof.
  destruct (proj2 (unit_colours_change_with_the_unit
                     [[]; [CStr []; CStr []; CNum 1; CStr KOUNYU; CNum 1];
                      [CStr []; CStr []; CNum 2; CStr KOUNYU; CNum 1];
                      [CStr []; CStr []; CNum 3; CStr KOUNYU; CNum 2]])
              [UNIT_DARK; UNIT_DARK; UNIT_LIGHT] eq_refl)
    as (Hlen & Hhd & _).
  split; [exact Hlen | exact Hhd].
Defined.

(* ------------------------------------------------------------------ *)
(** ** Loading the settings *)

Lemma str_eqb_sym (a b : jsstring) : str_eqb a b = str_eqb b a.
Proof.
  destruct (str_eqb a b) eqn:E.
  - apply str_eqb_eq in E. subst. symmetry. apply str_eqb_refl.
  - symmetry. apply str_eqb_neq. apply str_eqb_neq in E. congruence.
Qed.

Lemma Obj_get_set {A : Type} (k k' : jsstring) (v : A) (o : Obj A) :
  Obj_get k (Obj_set k' v o) = if str_eqb k k' then Some v else Obj_get k o.
Proof.
  induction o as [|[k0 v0] o IH]; cbn [Obj_set Obj_get].
  - reflexivity.
  - destruct (str_eqb k' k0) eqn:E0; cbn [Obj_get].
    + apply str_eqb_eq in E0. subst k0.
      now destruct (str_eqb k k').
    + rewrite IH. destruct (str_eqb k k0) eqn:E1; [|reflexivity].
      apply str_eqb_eq in E1. subst k0.
      rewrite str_eqb_sym in E0. now rewrite E0.
Qed.

Lemma removeFirst_unfold (prefix s : jsstring) :
  removeFirst prefix s
  = if startsWith prefix s then skipn (List.length prefix) s
    else match s with
         | [] => []
         | c :: rest => c :: removeFirst prefix rest
         end.
Proof. destruct s; reflexivity. Qed.

Lemma removeFirst_prefix (prefix rest : jsstring) :
  removeFirst prefix (prefix ++ rest) = rest.
Proof.
  rewrite removeFirst_unfold, startsWith_app.
  rewrite skipn_app, Nat.sub_diag, skipn_all. reflexivity.
Qed.

Lemma lastRowKeyed_snoc (k : jsstring) (data : list Row) (row : Row) :
  lastRowKeyed k (data ++ [row])
  = if cellIsStr k (cellAt row 0) then Some row else lastRowKeyed k data.
Proof. unfold lastRowKeyed. now rewrite rev_app_distr. Qed.

Lemma name_prefix_is_no_width_prefix (rest : jsstring) :
  startsWith COLUMN_NAME_PREFIX (COLUMN_WIDTH_PREFIX ++ rest) = false.
Proof. reflexivity. Qed.

Section LoadSettingsFacts.

Variable JSONValue : Type.
Variable JSON_parse : Cell -> option JSONValue.

Lemma loadRows_snoc (data : list Row) (row : Row) :
  loadRows JSON_parse (data ++ [row])
  = loadRow JSON_parse (loadRows JSON_parse data) row.
Proof. unfold loadRows. now rewrite fold_left_app. Qed.

Lemma Obj_get_assign {A : Type} (x k : jsstring) (v : A) (o : Obj A) :
  x <> PROTO ->
  Obj_get x (assign k v o) = if str_eqb x k then Some v else Obj_get x o.
Proof.
  intros Hx. unfold assign. destruct (str_eqb k PROTO) eqn:Ek.
  - apply str_eqb_eq in Ek. subst k.
    apply str_eqb_neq in Hx. now rewrite Hx.
  - apply Obj_get_set.
Qed.

Lemma same_prefix_eqb (prefix a b : jsstring) :
  str_eqb (prefix ++ a) (prefix ++ b) = str_eqb b a.
Proof.
  destruct (str_eqb b a) eqn:E.
  - apply str_eqb_eq in E. subst. apply str_eqb_refl.
  - apply str_eqb_neq. intros H. apply app_inv_head in H.
    apply str_eqb_neq in E. congruence.
Qed.

Lemma loadRows_tables (data : list Row) (x : jsstring) :
  x <> PROTO ->
  Obj_get x (loaded_columnNames (loadRows JSON_parse data))
  = option_map (fun row => cellAt row 1)
               (lastRowKeyed (COLUMN_NAME_PREFIX ++ x) data)
  /\ Obj_get x (loaded_columnWidths (loadRows JSON_parse data))
     = option_map (fun row => parseInt10 (cellToString (cellAt row 1)))
                  (lastRowKeyed (COLUMN_WIDTH_PREFIX ++ x) data).
Proof.
  intros Hx.
  induction data as [|row data [IHn IHw]] using rev_ind; [now split|].
  rewrite loadRows_snoc, !lastRowKeyed_snoc. unfold loadRow.
  destruct (cellAt row 0) as [k| | | |] eqn:Hkey;
    cbn [cellIsStr loaded_columnNames loaded_columnWidths];
    try (split; assumption).
  destruct (startsWith COLUMN_NAME_PREFIX k) eqn:Hname.
  - apply startsWith_prefix in Hname as [rest ->].
    cbn [loaded_columnNames loaded_columnWidths].
    rewrite removeFirst_prefix, (Obj_get_assign _ _ _ Hx), same_prefix_eqb.
    split.
    + now destruct (str_eqb x rest).
    + assert (Hne : str_eqb (COLUMN_NAME_PREFIX ++ rest)
                            (COLUMN_WIDTH_PREFIX ++ x) = false)
        by reflexivity.
      now rewrite Hne.
  - destruct (startsWith COLUMN_WIDTH_PREFIX k) eqn:Hwidth.
    + apply startsWith_prefix in Hwidth as [rest ->].
      cbn [loaded_columnNames loaded_columnWidths].
      rewrite removeFirst_prefix, (Obj_get_assign _ _ _ Hx), same_prefix_eqb.
      split.
      * assert (Hne : str_eqb (COLUMN_WIDTH_PREFIX ++ rest)
                              (COLUMN_NAME_PREFIX ++ x) = false)
          by reflexivity.
        now rewrite Hne.
      * now destruct (str_eqb x rest).
    + cbn [loaded_columnNames loaded_columnWidths]. split.
      * assert (Hne : str_eqb k (COLUMN_NAME_PREFIX ++ x) = false).
        { apply str_eqb_neq. intros ->.
          rewrite startsWith_app in Hname. discriminate. }
        now rewrite Hne.
      * assert (Hne : str_eqb k (COLUMN_WIDTH_PREFIX ++ x) = false).
        { apply str_eqb_neq. intros ->.
          rewrite startsWith_app in Hwidth. discriminate. }
        now rewrite Hne.
Qed.

(** After [loadSettings] has read the sheet, [COLUMN_NAMES] has the own
    property [X] (any name but [__proto__]) exactly when some row is keyed
    [COLUMN_NAME_X], with the value of the last such row; [COLUMN_WIDTHS]
    likewise holds [parseInt] of the value of the last row keyed
    [COLUMN_WIDTH_X], for a value whose text and whose number are exact.
    So each of the thirteen titles the merge reads is the value of the
    last row keyed for its letter, and [undefined] when there is none. *)
Theorem last_settings_row_wins (data : list Row) :
  (forall x,
      x <> PROTO ->
      Obj_get x (loaded_columnNames (loadRows JSON_parse data))
      = option_map (fun row => cellAt row 1)
                   (lastRowKeyed (COLUMN_NAME_PREFIX ++ x) data)
      /\ ((forall row,
              lastRowKeyed (COLUMN_WIDTH_PREFIX ++ x) data = Some row ->
              exactCell (cellAt row 1)
              /\ exactNumber (parseInt10 (cellToString (cellAt row 1)))) ->
          Obj_get x (loaded_columnWidths (loadRows JSON_parse data))
          = option_map (fun row => parseInt10 (cellToString (cellAt row 1)))
                       (lastRowKeyed (COLUMN_WIDTH_PREFIX ++ x) data)))
  /\ (forall k,
         COLUMN_NAMES
           (settingsOf (loaded_columnNames (loadRows JSON_parse data))) k
         = match lastRowKeyed (COLUMN_NAME_PREFIX ++ columnLetter k) data with
           | Some row => cellAt row 1
           | None => CUndef
           end).
Proof.
  split.
  - intros x Hx. destruct (loadRows_tables data Hx) as [Hn Hw].
    split; [exact Hn|intros _; exact Hw].
  - intros k. cbn [settingsOf COLUMN_NAMES].
    assert (Hk : columnLetter k <> PROTO) by (destruct k; discriminate).
    rewrite (proj1 (loadRows_tables data Hk)).
    now destruct (lastRowKeyed _ data).
Qed.

End LoadSettingsFacts.

Lemma last_settings_row_witness :
  Obj_get (utf16 "D")
    (loaded_columnNames (loadRows (fun _ => @None unit) demoSettingsSheet))
  = option_map (fun row => cellAt row 1)
      (lastRowKeyed (COLUMN_NAME_PREFIX ++ utf16 "D") demoSettingsSheet)
  /\ Obj_get (utf16 "A")
       (loaded_columnWidths (loadRows (fun _ => @None unit) demoSettingsSheet))
     = option_map (fun row => parseInt10 (cellToString (cellAt row 1)))
         (lastRowKeyed (COLUMN_WIDTH_PREFIX ++ utf16 "A") demoSettingsSheet).
Proof.
  split.
  - apply (proj1 (last_settings_row_wins (fun _ => @None unit) demoSettingsSheet)
             (utf16 "D")).
    discriminate.
  - apply (proj1 (last_settings_row_wins (fun _ => @None unit) demoSettingsSheet)
             (utf16 "A")).
    + discriminate.
    + intros row Hrow. vm_compute in Hrow. injection Hrow as <-.
      vm_compute. repeat split; discriminate.
Defined.

(** The sample sheet: the later title of column D wins, a width that is no
    number is NaN, and the merge reads the title from the table. *)
Example settings_of_sample_sheet :
  Obj_get (utf16 "D")
    (loaded_columnNames (loadRows (fun _ => @None unit) demoSettingsSheet))
  = Some (CStr (utf16 "category"))
  /\ Obj_get (utf16 "A")
       (loaded_columnWidths (loadRows (fun _ => @None unit) demoSettingsSheet))
     = Some (Some 30%Z)
  /\ Obj_get (utf16 "B")
       (loaded_columnWidths (loadRows (fun _ => @None unit) demoSettingsSheet))
     = Some None
  /\ Obj_get (utf16 "7")
       (loaded_settings (loadRows (fun _ => @None unit) demoSettingsSheet))
     = Some (Raw unit (CStr (utf16 "seven")))
  /\ COLUMN_NAMES
       (settingsOf
          (loaded_columnNames
             (loadRows (fun _ => @None unit) demoSettingsSheet))) KD
     = CStr (utf16 "category")
  /\ COLUMN_NAMES
       (settingsOf
          (loaded_columnNames
             (loadRows (fun _ => @None unit) demoSettingsSheet))) KE
     = CUndef.
Proof. vm_compute. repeat split. Qed.
